(** * simpledroid: PRONOM reports to a simplified DROID signature file

    A shallow embedding of [src/simpledroid/simpledroid.py] and the properties
    of its extraction, validation and assembly pipeline.

    Modelling conventions.
    - A Python [str] is a Rocq [string]; a character stands for the code point
      of the same number.  [str.upper] is modelled on the ASCII letters (the
      alphabet of PRONOM sequences), [str.strip] on the white space of the
      first 256 code points.
    - A value that is either a [str] or [None] is a [pystr := option string].
    - Code that can raise or log runs in the monad [M]: the log records
      emitted so far, and either a value or the exception that escaped.
    - A parsed report is a [node]: the minidom tree restricted to what the
      program reads (element names, children, character data).
    - Python integers are unbounded: [Py.int] and [Py.str_of_int] model [int(s)]
      and the decimal formatting of an f-string without any digit limit.
    - The document is modelled up to the text handed to
      [xml.dom.minidom.parseString]; re-parsing, pretty printing and the file
      write are outside. *)

From Stdlib Require Import Bool Ascii String List ZArith Lia DecimalString.
Import ListNotations.

Local Open Scope string_scope.
Local Open Scope list_scope.

(* ------------------------------------------------------------------ *)
(** ** Python strings *)

Definition pystr := option string.

Definition nl : string := String "010"%char EmptyString.
Definition dq : string := String "034"%char EmptyString.

Notation "a +++ b" := (String.append a b) (at level 60, right associativity).

Module Py.

(** [str.isspace] on one character, for the code points below 256. *)
Definition isspace (c : ascii) : bool :=
  let n := nat_of_ascii c in
  (((9 <=? n) && (n <=? 13)) || ((28 <=? n) && (n <=? 32))
   || (n =? 133) || (n =? 160))%nat.

Fixpoint lstrip (s : string) : string :=
  match s with
  | EmptyString => EmptyString
  | String c r => if isspace c then lstrip r else s
  end.

Fixpoint rstrip (s : string) : string :=
  match s with
  | EmptyString => EmptyString
  | String c r =>
      match rstrip r with
      | EmptyString => if isspace c then EmptyString else String c EmptyString
      | r' => String c r'
      end
  end.

(** [s.strip()] *)
Definition strip (s : string) : string := rstrip (lstrip s).

Definition upper_char (c : ascii) : ascii :=
  let n := nat_of_ascii c in
  if ((97 <=? n) && (n <=? 122))%nat then ascii_of_nat (n - 32) else c.

(** [s.upper()] *)
Fixpoint upper (s : string) : string :=
  match s with
  | EmptyString => EmptyString
  | String c r => String (upper_char c) (upper r)
  end.

(** [s.replace(old, new)] for a one-character [old]. *)
Fixpoint replace (old : ascii) (new : string) (s : string) : string :=
  match s with
  | EmptyString => EmptyString
  | String c r =>
      if Ascii.eqb c old then new +++ replace old new r
      else String c (replace old new r)
  end.

(** [s.startswith(p)] *)
Fixpoint startswith (s p : string) : bool :=
  match p, s with
  | EmptyString, _ => true
  | String _ _, EmptyString => false
  | String a p', String b s' => Ascii.eqb b a && startswith s' p'
  end.

(** [sub in s] *)
Fixpoint contains (sub s : string) : bool :=
  startswith s sub
  || match s with
     | EmptyString => false
     | String _ r => contains sub r
     end.

(** ["".join(xs)] *)
Definition join_empty (xs : list string) : string := String.concat EmptyString xs.

(** [str(x)] inside an f-string, for a value that is a [str] or [None]. *)
Definition fmt (x : pystr) : string :=
  match x with
  | Some s => s
  | None => "None"
  end.

(** [x == s], [x] a [str] or [None]. *)
Definition eq_str (x : pystr) (s : string) : bool :=
  match x with
  | Some v => String.eqb v s
  | None => false
  end.

Definition is_digit (c : ascii) : bool :=
  let n := nat_of_ascii c in ((48 <=? n) && (n <=? 57))%nat.

Definition digit_value (c : ascii) : Z := Z.of_nat (nat_of_ascii c - 48).

(** The digits of a decimal literal: groups of digits, single underscores
    between them. *)
Fixpoint digits (acc : Z) (after_digit : bool) (s : string) : option Z :=
  match s with
  | EmptyString => if after_digit then Some acc else None
  | String c r =>
      if is_digit c then digits (10 * acc + digit_value c) true r
      else if Ascii.eqb c "_"%char then
             if after_digit then digits acc false r else None
           else None
  end.

(** [int(s)] for a [str]: [None] is [ValueError]. *)
Definition int (s : string) : option Z :=
  match strip s with
  | String "-"%char r => option_map Z.opp (digits 0 false r)
  | String "+"%char r => digits 0 false r
  | t => digits 0 false t
  end.

(** [str(n)] for an [int]. *)
Definition str_of_int (n : Z) : string := NilZero.string_of_int (Z.to_int n).

(** [xml.sax.saxutils.escape(data)] with no extra entities. *)
Definition escape (data : string) : string :=
  replace "<"%char "&lt;"
    (replace ">"%char "&gt;"
       (replace "&"%char "&amp;" data)).

End Py.

(* ------------------------------------------------------------------ *)
(** ** Exceptions and logging *)

Inductive exn := IndexError | AttributeError | TypeError | ValueError.

Definition exn_eqb (a b : exn) : bool :=
  match a, b with
  | IndexError, IndexError | AttributeError, AttributeError
  | TypeError, TypeError | ValueError, ValueError => true
  | _, _ => false
  end.

Inductive result (A : Type) :=
| Ok (a : A)
| Raise (e : exn).
Arguments Ok {A} a.
Arguments Raise {A} e.

Inductive level := ERROR | INFO.

Record LogRecord := { levelname : level; message : string }.

(** A computation: the records logged, then the value or the exception. *)
Definition M (A : Type) : Type := (list LogRecord * result A)%type.

Definition ret {A} (a : A) : M A := ([], Ok a).

Definition raise {A} (e : exn) : M A := ([], Raise e).

Definition bind {A B} (m : M A) (f : A -> M B) : M B :=
  match m with
  | (l, Ok a) => let (l', r) := f a in (l ++ l', r)
  | (l, Raise e) => (l, Raise e)
  end.

Notation "x <- m ;; k" := (bind m (fun x => k))
  (at level 61, m at next level, right associativity).
Notation "m ;;; k" := (bind m (fun _ => k))
  (at level 61, right associativity).

(** [try: body / except e: handler] *)
Definition try_except {A} (body : M A) (e : exn) (handler : M A) : M A :=
  match body with
  | (l, Raise e') =>
      if exn_eqb e' e then let (l', r) := handler in (l ++ l', r)
      else (l, Raise e')
  | done => done
  end.

Definition logger_error (message : string) : M unit :=
  ([{| levelname := ERROR; message := message |}], Ok tt).

Definition logger_info (message : string) : M unit :=
  ([{| levelname := INFO; message := message |}], Ok tt).

(** [for x in xs: acc = body(x, acc)]; a [continue] is a body that returns
    its accumulator. *)
Fixpoint for_in {A S} (xs : list A) (body : A -> S -> M S) (acc : S) : M S :=
  match xs with
  | [] => ret acc
  | x :: rest => acc' <- body x acc ;; for_in rest body acc'
  end.

(** [xs[0]] *)
Definition item0 {A} (xs : list A) : M A :=
  match xs with
  | [] => raise IndexError
  | x :: _ => ret x
  end.

(** An attribute read on a value that may be [None]. *)
Definition attr {A} (x : option A) : M A :=
  match x with
  | None => raise AttributeError
  | Some v => ret v
  end.

(* ------------------------------------------------------------------ *)
(** ** The minidom tree *)

Inductive node :=
| Document (childNodes : list node)
| Element (tagName : string) (childNodes : list node)
| CharacterData (data : string).

Definition childNodes (n : node) : list node :=
  match n with
  | Document cs | Element _ cs => cs
  | CharacterData _ => []
  end.

Definition firstChild (n : node) : option node :=
  match childNodes n with
  | [] => None
  | c :: _ => Some c
  end.

Definition nodeValue (n : node) : pystr :=
  match n with
  | CharacterData d => Some d
  | _ => None
  end.

(** [node.nodeType == ELEMENT_NODE and (name == "*" or node.tagName == name)] *)
Definition element_named (name : string) (n : node) : bool :=
  match n with
  | Element t _ => String.eqb name "*" || String.eqb t name
  | _ => false
  end.

(** [_get_elements_by_tagName_helper]: the descendants, in document order. *)
Fixpoint getElementsByTagName (name : string) (parent : node) : list node :=
  let fix over (cs : list node) : list node :=
    match cs with
    | [] => []
    | c :: rest =>
        (if element_named name c then [c] else [])
          ++ getElementsByTagName name c ++ over rest
    end in
  match parent with
  | Document cs | Element _ cs => over cs
  | CharacterData _ => []
  end.

(* ------------------------------------------------------------------ *)
(** ** The records *)

Module ExternalSignature.
Record t := { id : pystr; signature : pystr; type : pystr }.
End ExternalSignature.

Module ByteSequence.
Record t := {
  id : pystr; pos : string; min_off : pystr; max_off : pystr;
  endian : pystr; value : string }.
End ByteSequence.

Module InternalSignature.
Record t := { id : pystr; name : pystr; byte_sequences : list ByteSequence.t }.
End InternalSignature.

Module Priority.
Record t := { type : pystr; id : pystr }.
End Priority.

Module Format.
Record t := {
  id : pystr; name : string; version : string; puid : pystr; mime : pystr;
  classification : pystr;
  external_signatures : list ExternalSignature.t;
  internal_signatures : list InternalSignature.t;
  priorities : list Priority.t }.
End Format.

(* ------------------------------------------------------------------ *)
(** ** Signature encoder and document assembler *)

(** [int(x)]: [TypeError] on [None], [ValueError] on a [str] that is no
    integer literal. *)
Definition int_of (x : pystr) : M Z :=
  match x with
  | None => raise TypeError
  | Some s =>
      match Py.int s with
      | Some n => ret n
      | None => raise ValueError
      end
  end.

(** [x != "" and int(x) > 0] *)
Definition present_and_positive (x : pystr) : M bool :=
  if negb (Py.eq_str x "") then n <- int_of x ;; ret (0 <? n)%Z
  else ret false.

(** [a and b]: [b] is evaluated only when [a] holds. *)
Definition and_then (a b : M bool) : M bool :=
  x <- a ;; if x then b else ret false.

Definition calculate_variable_off_bof (item : ByteSequence.t) : M string :=
  let seq := ByteSequence.value item in
  let min_off := ByteSequence.min_off item in
  let max_off := ByteSequence.max_off item in
  both <- and_then (present_and_positive min_off) (present_and_positive max_off) ;;
  if both then
    lo <- int_of min_off ;;
    hi <- int_of max_off ;;
    ret ("{" +++ Py.fmt min_off +++ "-" +++ Py.str_of_int (lo + hi) +++ "}" +++ seq)
  else
    only_max <- present_and_positive max_off ;;
    if only_max then ret ("{0-" +++ Py.fmt max_off +++ "}" +++ seq)
    else
      only_min <- present_and_positive min_off ;;
      if only_min then ret ("{" +++ Py.fmt min_off +++ "}" +++ seq)
      else ret seq.

Definition calculate_variable_off_eof (item : ByteSequence.t) : M string :=
  let seq := ByteSequence.value item in
  let min_off := ByteSequence.min_off item in
  let max_off := ByteSequence.max_off item in
  both <- and_then (present_and_positive min_off) (present_and_positive max_off) ;;
  if both then
    lo <- int_of min_off ;;
    hi <- int_of max_off ;;
    ret (seq +++ "{" +++ Py.fmt min_off +++ "-" +++ Py.str_of_int (lo + hi) +++ "}")
  else
    only_max <- present_and_positive max_off ;;
    if only_max then ret (seq +++ "{0-" +++ Py.fmt max_off +++ "}")
    else
      only_min <- present_and_positive min_off ;;
      if only_min then ret (seq +++ "{" +++ Py.fmt min_off +++ "}")
      else ret seq.

(** The [Sequence] attribute of one byte sequence: the anchor chooses the
    encoding. *)
Definition encoded_sequence (item : ByteSequence.t) : M string :=
  if Py.startswith (ByteSequence.pos item) "EOF" then calculate_variable_off_eof item
  else if Py.startswith (ByteSequence.pos item) "BOF" then calculate_variable_off_bof item
  else ret (ByteSequence.value item).

(** The [ByteSequence] element of one item, given its encoded sequence. *)
Definition byte_sequence_element (item : ByteSequence.t) (seq : string) : string :=
  "<ByteSequence Reference=" +++ dq +++ ByteSequence.pos item +++ dq
  +++ " Sequence=" +++ dq +++ seq +++ dq
  +++ " MinOffset=" +++ dq +++ Py.fmt (ByteSequence.min_off item) +++ dq
  +++ " MaxOffset=" +++ dq +++ Py.fmt (ByteSequence.max_off item) +++ dq +++ "/>".

Definition create_one_to_many_byte_sequence_body
    (item : ByteSequence.t) (byte_sequence : string) : M string :=
  seq <- encoded_sequence item ;;
  ret (nl +++ Py.strip byte_sequence +++ nl
       +++ "    " +++ byte_sequence_element item seq +++ nl
       +++ "        ").

Definition create_one_to_many_byte_sequence (byte_sequences : list ByteSequence.t)
  : M string :=
  byte_sequence <- for_in byte_sequences create_one_to_many_byte_sequence_body "" ;;
  ret (Py.strip byte_sequence).

(** The [InternalSignature] element of one signature, given its rendered
    byte sequences. *)
Definition internal_signature_element (id_ : pystr) (bs : string) : string :=
  "<InternalSignature ID=" +++ dq +++ Py.fmt id_ +++ dq
  +++ " Specificity=" +++ dq +++ "Specific" +++ dq +++ ">" +++ nl
  +++ "    " +++ bs +++ nl
  +++ "</InternalSignature>".

Definition create_many_to_one_byte_sequence_body
    (internal : InternalSignature.t) (internal_signature : string) : M string :=
  let id_ := InternalSignature.id internal in
  bs <- create_one_to_many_byte_sequence (InternalSignature.byte_sequences internal) ;;
  ret (nl +++ internal_signature +++ internal_signature_element id_ bs +++ nl
       +++ "        ").

Definition create_many_to_one_byte_sequence
    (internal_signatures : list InternalSignature.t) : M string :=
  internal_signature <-
    for_in internal_signatures create_many_to_one_byte_sequence_body "" ;;
  ret (Py.strip internal_signature).

Definition EXT : string := "File extension".

Definition internal_sig_ref (sig : InternalSignature.t) : string :=
  "<InternalSignatureID>" +++ Py.fmt (InternalSignature.id sig)
  +++ "</InternalSignatureID>".

Definition extension_ref (sig : ExternalSignature.t) : string :=
  "<Extension>" +++ Py.fmt (ExternalSignature.signature sig) +++ "</Extension>".

Definition priority_ref (priority : Priority.t) : string :=
  "<HasPriorityOverFileFormatID>" +++ Py.fmt (Priority.id priority)
  +++ "</HasPriorityOverFileFormatID>".

Definition create_file_format_collection (fmt : Format.t) : string :=
  let internal_sigs := map internal_sig_ref (Format.internal_signatures fmt) in
  let external_sigs :=
    map extension_ref
      (filter (fun sig => Py.eq_str (ExternalSignature.type sig) EXT)
         (Format.external_signatures fmt)) in
  let priorities := map priority_ref (Format.priorities fmt) in
  let ff :=
    nl +++ "<FileFormat ID=" +++ dq +++ Py.fmt (Format.id fmt) +++ dq
    +++ " Name=" +++ dq +++ Format.name fmt +++ dq
    +++ " PUID=" +++ dq +++ Py.fmt (Format.puid fmt) +++ dq
    +++ " Version=" +++ dq +++ Format.version fmt +++ dq
    +++ " MIMEType=" +++ dq +++ Py.fmt (Format.mime fmt) +++ dq +++ ">" +++ nl
    +++ "    " +++ Py.strip (Py.join_empty internal_sigs) +++ nl
    +++ "    " +++ Py.strip (Py.join_empty external_sigs) +++ nl
    +++ "    " +++ Py.strip (Py.join_empty priorities) +++ nl
    +++ "</FileFormat>" +++ nl
    +++ "    " in
  Py.strip ff.

(** The two collections built by the loop of [process_formats_and_save]. *)
Definition process_formats_and_save_body
    (fmt : Format.t) (acc : list string * list string)
  : M (list string * list string) :=
  let (isc, ffc) := acc in
  let ffc := ffc ++ [create_file_format_collection fmt] in
  match Format.internal_signatures fmt with
  | [] => ret (isc, ffc)
  | sigs =>
      s <- create_many_to_one_byte_sequence sigs ;;
      ret (isc ++ [s], ffc)
  end.

Definition droid_template (now isc ffc : string) : string :=
  nl +++ "<?xml version=" +++ dq +++ "1.0" +++ dq
  +++ " encoding=" +++ dq +++ "UTF-8" +++ dq +++ "?>" +++ nl
  +++ "<FFSignatureFile xmlns='http://www.nationalarchives.gov.uk/pronom/SignatureFile' Version='1' DateCreated='"
  +++ now +++ "'>" +++ nl
  +++ "    <InternalSignatureCollection>" +++ nl
  +++ "        " +++ isc +++ nl
  +++ "    </InternalSignatureCollection>" +++ nl
  +++ "    <FileFormatCollection>" +++ nl
  +++ "        " +++ ffc +++ nl
  +++ "    </FileFormatCollection>" +++ nl
  +++ "</FFSignatureFile>" +++ nl
  +++ "    ".

(** [process_formats_and_save], up to the text given to [parseString];
    [now] is the value of [get_utc_timestamp_now()]. The parser, the record
    "outputting to" and the file follow in [save_document]; the whole
    function is [process_formats_and_save_file]. *)
Definition process_formats_and_save (formats : list Format.t) (now : string)
  : M string :=
  acc <- for_in formats process_formats_and_save_body ([], []) ;;
  let (isc, ffc) := acc in
  ret (Py.replace "010"%char ""
         (Py.strip (droid_template now
                      (Py.strip (Py.join_empty isc))
                      (Py.strip (Py.join_empty ffc))))).

(* ------------------------------------------------------------------ *)
(** ** Record extractor *)

(** One character of the class of [PRONOM_REGEX_ALLOWED],
    [[a-fA-F0-9\*\[\]??!&|(){}:-]]. *)
Definition allowed_char (c : ascii) : bool :=
  let n := nat_of_ascii c in
  ((97 <=? n) && (n <=? 102) || (65 <=? n) && (n <=? 70)
   || (48 <=? n) && (n <=? 57))%nat
  || existsb (Ascii.eqb c)
       ["*"; "["; "]"; "?"; "!"; "&"; "|"; "("; ")"; "{"; "}"; ":"; "-"]%char.

Fixpoint all_chars (p : ascii -> bool) (s : string) : bool :=
  match s with
  | EmptyString => true
  | String c r => p c && all_chars p r
  end.

(** [re.fullmatch(PRONOM_REGEX_ALLOWED, s)] as a truth value: one or more
    characters, all of the class. *)
Definition fullmatch_PRONOM_REGEX_ALLOWED (s : string) : bool :=
  negb (String.eqb s "") && all_chars allowed_char s.

(** The tokens that exempt a value from the length check. *)
Definition pattern_tokens : list string :=
  ["??"; "("; ")"; "|"; "{"; "}"; ":"; "-"; "["; "]"; "*"].

Definition pre_process_signature (item : string) : string :=
  Py.replace " "%char "" (Py.upper (Py.strip item)).

Definition _get_node_value (tag : string) (n : node) : M pystr :=
  try_except
    (e <- item0 (getElementsByTagName tag n) ;;
     c <- attr (firstChild e) ;;
     v <- attr (nodeValue c) ;;
     ret (Some (Py.strip v)))
    IndexError
    (ret None).

Definition get_identifiers_body (identifier : node) (acc : pystr * pystr)
  : M (pystr * pystr) :=
  let (puid, mime) := acc in
  identifier_value <- _get_node_value "Identifier" identifier ;;
  identifier_type <- _get_node_value "IdentifierType" identifier ;;
  let mime := if Py.eq_str identifier_type "MIME" then identifier_value else mime in
  let puid := if Py.eq_str identifier_type "PUID" then identifier_value else puid in
  ret (puid, mime).

Definition get_identifiers (identifiers : list node) : M (pystr * pystr) :=
  for_in identifiers get_identifiers_body (Some "", Some "").

Definition priority_over : string := "Has priority over".

Definition get_priorities_body (related : node) (priorities : list Priority.t)
  : M (list Priority.t) :=
  rel_type <- _get_node_value "RelationshipType" related ;;
  if negb (Py.eq_str rel_type priority_over) then ret priorities
  else
    rel_format_id <- _get_node_value "RelatedFormatID" related ;;
    _get_node_value "RelatedFormatName" related ;;;
    _get_node_value "RelatedFormatVersion" related ;;;
    ret (priorities
           ++ [{| Priority.type := rel_type; Priority.id := rel_format_id |}]).

Definition get_priorities (relationships : list node) : M (list Priority.t) :=
  for_in relationships get_priorities_body [].

Definition get_external_body (external : node)
    (external_signatures : list ExternalSignature.t)
  : M (list ExternalSignature.t) :=
  sig_id <- _get_node_value "ExternalSignatureID" external ;;
  sig <- _get_node_value "Signature" external ;;
  sig_type <- _get_node_value "SignatureType" external ;;
  ret (external_signatures
         ++ [{| ExternalSignature.id := sig_id;
                ExternalSignature.signature := sig;
                ExternalSignature.type := sig_type |}]).

Definition get_external (external_identifiers : list node)
  : M (list ExternalSignature.t) :=
  for_in external_identifiers get_external_body [].

Definition BOF : string := "BOFoffset".
Definition EOF : string := "EOFoffset".
Definition BOF_XML : string := "Absolute from BOF".
Definition EOF_XML : string := "Absolute from EOF".

(** The anchor tag that [get_bytes] stores for a position type. *)
Definition canonical_anchor (pos_type : pystr) : string :=
  if Py.eq_str pos_type BOF_XML then BOF
  else if Py.eq_str pos_type EOF_XML then EOF
  else "".

(** The length check of [get_bytes]: no token of the tuple occurs in the
    value, and [len(seq_value) % 2 != 0]. *)
Definition length_rejects (seq_value : string) : bool :=
  negb (existsb (fun val => Py.contains val seq_value) pattern_tokens)
  && Nat.odd (String.length seq_value).

(** The validation of one raw value in [get_bytes]: [None] is the
    [continue] of the length check, [Some v] the value that is stored. *)
Definition validate_value (seq_value : pystr) : M (option string) :=
  match seq_value with
  | None => raise TypeError (* re.fullmatch on None *)
  | Some seq_value =>
      (if fullmatch_PRONOM_REGEX_ALLOWED seq_value then ret tt
       else logger_error ("signature '" +++ seq_value +++ "' is not valid")) ;;;
      if length_rejects seq_value then
        logger_error ("rejecting sig data: '" +++ seq_value +++ "' based on length") ;;;
        ret None
      else
        let seq_value := pre_process_signature seq_value in
        if Py.contains "&" seq_value then
          logger_error ("signature might not function properly: '" +++ seq_value +++ "'") ;;;
          ret (Some (Py.escape seq_value))
        else ret (Some seq_value)
  end.

Definition get_bytes_body (byte_sequence : node) (sequence_list : list ByteSequence.t)
  : M (list ByteSequence.t) :=
  seq_id <- _get_node_value "ByteSequenceID" byte_sequence ;;
  pos_type <- _get_node_value "PositionType" byte_sequence ;;
  let pos_type := canonical_anchor pos_type in
  min_off <- _get_node_value "Offset" byte_sequence ;;
  max_off <- _get_node_value "MaxOffset" byte_sequence ;;
  _get_node_value "IndirectOffsetLocation" byte_sequence ;;;
  _get_node_value "IndirectOffsetLength" byte_sequence ;;;
  endian <- _get_node_value "Endianness" byte_sequence ;;
  seq_value <- _get_node_value "ByteSequenceValue" byte_sequence ;;
  checked <- validate_value seq_value ;;
  match checked with
  | None => ret sequence_list
  | Some seq_value =>
      ret (sequence_list
             ++ [{| ByteSequence.id := seq_id;
                    ByteSequence.pos := pos_type;
                    ByteSequence.min_off := min_off;
                    ByteSequence.max_off := max_off;
                    ByteSequence.endian := endian;
                    ByteSequence.value := seq_value |}])
  end.

Definition get_bytes (byte_sequences : list node) : M (list ByteSequence.t) :=
  for_in byte_sequences get_bytes_body [].

Definition get_internal_body (internal : node)
    (internal_sigs : list InternalSignature.t)
  : M (list InternalSignature.t) :=
  sig_id <- _get_node_value "SignatureID" internal ;;
  sig_name <- _get_node_value "SignatureName" internal ;;
  _get_node_value "SignatureNote" internal ;;;
  got <- try_except
           (let byte_sequences := getElementsByTagName "ByteSequence" internal in
            sequences <- get_bytes byte_sequences ;;
            ret (Some sequences))
           IndexError
           (ret None) ;;
  match got with
  | None => ret internal_sigs
  | Some sequences =>
      ret (internal_sigs
             ++ [{| InternalSignature.id := sig_id;
                    InternalSignature.name := sig_name;
                    InternalSignature.byte_sequences := sequences |}])
  end.

Definition get_internal (internal_signatures : list node)
  : M (list InternalSignature.t) :=
  for_in internal_signatures get_internal_body [].

(** [escape(x)] where [x] may be [None]: [None.replace] is an
    [AttributeError]. *)
Definition escape (x : pystr) : M string :=
  s <- attr x ;; ret (Py.escape s).

Definition process_pronom_body (dom : node) (formats : list Format.t)
  : M (list Format.t) :=
  format_id <- _get_node_value "FormatID" dom ;;
  format_name <- _get_node_value "FormatName" dom ;;
  format_version <- _get_node_value "FormatVersion" dom ;;
  external_signatures <- get_external (getElementsByTagName "ExternalSignature" dom) ;;
  internal_signatures <- get_internal (getElementsByTagName "InternalSignature" dom) ;;
  ids <- get_identifiers (getElementsByTagName "FileFormatIdentifier" dom) ;;
  let (puid, mime) := ids : pystr * pystr in
  match external_signatures, internal_signatures with
  | [], [] => ret formats
  | _, _ =>
      format_types <- _get_node_value "FormatTypes" dom ;;
      priorities <- get_priorities (getElementsByTagName "RelatedFormat" dom) ;;
      name <- escape format_name ;;
      version <- escape format_version ;;
      ret (formats
             ++ [{| Format.id := format_id;
                    Format.name := name;
                    Format.version := version;
                    Format.puid := puid;
                    Format.mime := mime;
                    Format.classification := format_types;
                    Format.external_signatures := external_signatures;
                    Format.internal_signatures := internal_signatures;
                    Format.priorities := priorities |}])
  end.

(** The formats collected by the loop of [process_pronom] from the parsed
    reports. *)
Definition collect_formats (report_list : list node) : M (list Format.t) :=
  for_in report_list process_pronom_body [].

(** [process_pronom] on the parsed reports; the result is the document text
    of [process_formats_and_save]. The whole function, which opens and
    parses each report in its loop, is [process_pronom_file]. *)
Definition process_pronom (report_list : list node) (now : string) : M string :=
  formats <- collect_formats report_list ;;
  let idx := Nat.pred (List.length report_list) in
  logger_info ("number of reports: " +++ Py.str_of_int (Z.of_nat idx)) ;;;
  logger_info ("number of formats processed for the signature file: "
               +++ Py.str_of_int (Z.of_nat (List.length formats))) ;;;
  process_formats_and_save formats now.

(* ------------------------------------------------------------------ *)
(** ** The offset quantifier, as the specification words it *)

(** The value of a bound that is present (not empty) and positive. *)
Definition positive_bound (s : string) : option Z :=
  if String.eqb s "" then None
  else
    match Py.int s with
    | Some n => if (0 <? n)%Z then Some n else None
    | None => None
    end.

(** A bound as the extractor delivers it from a well-formed report: empty,
    or a decimal integer. *)
Definition empty_or_decimal (s : string) : bool :=
  String.eqb s ""
  || match Py.int s with
     | Some _ => true
     | None => false
     end.

(** Both bounds: a range from [min] to [min + max]; only [max]: a range from
    0; only [min]: a fixed count; neither: nothing. *)
Definition offset_quantifier (min_off max_off : string) : string :=
  match positive_bound min_off, positive_bound max_off with
  | Some lo, Some hi => "{" +++ min_off +++ "-" +++ Py.str_of_int (lo + hi) +++ "}"
  | None, Some _ => "{0-" +++ max_off +++ "}"
  | Some _, None => "{" +++ min_off +++ "}"
  | None, None => ""
  end.


(* ------------------------------------------------------------------ *)
(** ** Reading a byte-sequence block *)

(** The value [get_bytes] stores for a raw value that passes the length
    check: normalised, and escaped when the normal form has an ampersand. *)
Definition stored_value (seq_value : string) : string :=
  let v := pre_process_signature seq_value in
  if Py.contains "&" v then Py.escape v else v.

(** Every label that [get_bytes] reads on a block is read without an
    exception, with these results. *)
Definition byte_sequence_reads (byte_sequence : node)
    (seq_id pos_type min_off max_off endian seq_value : pystr) : Prop :=
  _get_node_value "ByteSequenceID" byte_sequence = ret seq_id
  /\ _get_node_value "PositionType" byte_sequence = ret pos_type
  /\ _get_node_value "Offset" byte_sequence = ret min_off
  /\ _get_node_value "MaxOffset" byte_sequence = ret max_off
  /\ (exists x, _get_node_value "IndirectOffsetLocation" byte_sequence = ret x)
  /\ (exists x, _get_node_value "IndirectOffsetLength" byte_sequence = ret x)
  /\ _get_node_value "Endianness" byte_sequence = ret endian
  /\ _get_node_value "ByteSequenceValue" byte_sequence = ret seq_value.

Definition error (message : string) : LogRecord :=
  {| levelname := ERROR; message := message |}.

(** The record [get_bytes] appends for a block that passes the length
    check. *)
Definition accepted_item (seq_id pos_type min_off max_off endian : pystr)
    (seq_value : string) : ByteSequence.t :=
  {| ByteSequence.id := seq_id;
     ByteSequence.pos := canonical_anchor pos_type;
     ByteSequence.min_off := min_off;
     ByteSequence.max_off := max_off;
     ByteSequence.endian := endian;
     ByteSequence.value := stored_value seq_value |}.

(** What [get_bytes] logs for one raw value. *)
Definition validation_log (seq_value : string) : list LogRecord :=
  (if fullmatch_PRONOM_REGEX_ALLOWED seq_value then []
   else [error ("signature '" +++ seq_value +++ "' is not valid")])
  ++ (if length_rejects seq_value
      then [error ("rejecting sig data: '" +++ seq_value +++ "' based on length")]
      else if Py.contains "&" (pre_process_signature seq_value)
           then [error ("signature might not function properly: '"
                        +++ pre_process_signature seq_value +++ "'")]
           else []).

(** The characters the specification calls pattern-control characters. *)
Definition pattern_control_chars : list ascii :=
  ["*"; "["; "]"; "?"; "!"; "&"; "|"; "("; ")"; "{"; "}"; ":"; "-"]%char.

Fixpoint any_char (p : ascii -> bool) (s : string) : bool :=
  match s with
  | EmptyString => false
  | String c r => p c || any_char p r
  end.

(** The length check as the specification words it: none of the
    pattern-control characters, and an odd length. *)
Definition spec_length_rejects (seq_value : string) : bool :=
  negb (any_char (fun c => existsb (Ascii.eqb c) pattern_control_chars) seq_value)
  && Nat.odd (String.length seq_value).

Definition is_hex (c : ascii) : bool :=
  let n := nat_of_ascii c in
  ((97 <=? n) && (n <=? 102) || (65 <=? n) && (n <=? 70)
   || (48 <=? n) && (n <=? 57))%nat.

(* ------------------------------------------------------------------ *)
(** ** Sample reports *)

Definition text_element (tag text : string) : node :=
  Element tag [CharacterData text].

(** A [ByteSequence] block as a PRONOM export writes it. *)
Definition byte_sequence_block (id pos min_off max_off endian value : string) : node :=
  Element "ByteSequence"
    [ text_element "ByteSequenceID" id;
      text_element "PositionType" pos;
      text_element "Offset" min_off;
      text_element "MaxOffset" max_off;
      text_element "IndirectOffsetLocation" nl;
      text_element "IndirectOffsetLength" nl;
      text_element "Endianness" endian;
      text_element "ByteSequenceValue" value ].

(* ------------------------------------------------------------------ *)
(** ** Shapes of strings *)

(** The first character is no white space. *)
Definition starts_tight (s : string) : bool :=
  match s with
  | EmptyString => false
  | String c _ => negb (Py.isspace c)
  end.

(** The last character is no white space. *)
Fixpoint ends_tight (s : string) : bool :=
  match s with
  | EmptyString => false
  | String c EmptyString => negb (Py.isspace c)
  | String _ r => ends_tight r
  end.

Definition tight (s : string) : bool := starts_tight s && ends_tight s.

Definition all_space (s : string) : bool := all_chars Py.isspace s.

(* ------------------------------------------------------------------ *)
(** ** The document as an in-order rendering of the records *)

(** The encoded sequence of an item whose encoding does not raise. *)
Definition sequence_of (item : ByteSequence.t) : string :=
  match encoded_sequence item with
  | (_, Ok seq) => seq
  | (_, Raise _) => ""
  end.

(** The encoding of the item returns. *)
Definition encodes (item : ByteSequence.t) : Prop :=
  encoded_sequence item = ret (sequence_of item).

Definition byte_sequence_sep : string := nl +++ "    ".
Definition internal_signature_sep : string := nl +++ "        ".

(** The byte sequences of one signature: their elements, in list order. *)
Definition byte_sequences_text (items : list ByteSequence.t) : string :=
  String.concat byte_sequence_sep
    (map (fun item => byte_sequence_element item (sequence_of item)) items).

(** The element of one signature around its byte sequences. *)
Definition group_of (sig : InternalSignature.t) : string :=
  internal_signature_element (InternalSignature.id sig)
    (byte_sequences_text (InternalSignature.byte_sequences sig)).

(** The signatures of one format: their elements, in list order. *)
Definition internal_signatures_text (sigs : list InternalSignature.t) : string :=
  String.concat internal_signature_sep (map group_of sigs).

Definition has_internal (fmt : Format.t) : bool :=
  match Format.internal_signatures fmt with
  | [] => false
  | _ :: _ => true
  end.

(** The groups of the internal signature collection: one per format that
    has internal signatures, in list order. *)
Definition internal_signature_groups (formats : list Format.t) : list string :=
  map (fun fmt => internal_signatures_text (Format.internal_signatures fmt))
    (filter has_internal formats).

(** The entries of the file format collection: one per format, in list
    order. *)
Definition file_format_entries (formats : list Format.t) : list string :=
  map create_file_format_collection formats.

(** The document: the groups, then the entries, each list joined in its
    order, inside the template. *)
Definition document_text (formats : list Format.t) (now : string) : string :=
  Py.replace "010"%char ""
    (Py.strip
       (droid_template now
          (Py.join_empty (internal_signature_groups formats))
          (Py.join_empty (file_format_entries formats)))).

(** All byte sequences of a list of formats. *)
Definition all_byte_sequences (formats : list Format.t) : list ByteSequence.t :=
  flat_map (fun fmt => flat_map InternalSignature.byte_sequences
                         (Format.internal_signatures fmt)) formats.

(** The content of a [FileFormat] element. *)
Definition file_format_element (fmt : Format.t) : string :=
  "<FileFormat ID=" +++ dq +++ Py.fmt (Format.id fmt) +++ dq
  +++ " Name=" +++ dq +++ Format.name fmt +++ dq
  +++ " PUID=" +++ dq +++ Py.fmt (Format.puid fmt) +++ dq
  +++ " Version=" +++ dq +++ Format.version fmt +++ dq
  +++ " MIMEType=" +++ dq +++ Py.fmt (Format.mime fmt) +++ dq +++ ">" +++ nl
  +++ "    " +++ Py.strip (Py.join_empty (map internal_sig_ref (Format.internal_signatures fmt))) +++ nl
  +++ "    " +++ Py.strip (Py.join_empty
                            (map extension_ref
                               (filter (fun sig => Py.eq_str (ExternalSignature.type sig) EXT)
                                  (Format.external_signatures fmt)))) +++ nl
  +++ "    " +++ Py.strip (Py.join_empty (map priority_ref (Format.priorities fmt))) +++ nl
  +++ "</FileFormat>".

(** A joined list with the separator behind its last element too. *)
Definition trailing (sep : string) (done : list string) : string :=
  match done with
  | [] => ""
  | _ :: _ => String.concat sep done +++ sep
  end.

(** A block whose value has characters outside the allowed set and an even
    length. *)
Definition block_ZZ : node :=
  byte_sequence_block "315" "Absolute from BOF" "10" "5" "Little-endian" "zz".

Definition block_41_bang : node :=
  byte_sequence_block "7" "Absolute from BOF" "0" nl "Big-endian" "41!".

Definition block_41_amp : node :=
  byte_sequence_block "8" "Absolute from BOF" "0" nl "Big-endian" "41&".

Definition block_amp : node :=
  byte_sequence_block "9" "Absolute from EOF" nl "4" nl "[&01]ff".

Definition item_10_5 : ByteSequence.t :=
  {| ByteSequence.id := Some "315";
     ByteSequence.pos := BOF;
     ByteSequence.min_off := Some "10";
     ByteSequence.max_off := Some "5";
     ByteSequence.endian := Some "Little-endian";
     ByteSequence.value := "4F53" |}.

Definition item_bounds (pos min_off max_off : string) : ByteSequence.t :=
  {| ByteSequence.id := Some "1";
     ByteSequence.pos := pos;
     ByteSequence.min_off := Some min_off;
     ByteSequence.max_off := Some max_off;
     ByteSequence.endian := Some "";
     ByteSequence.value := "4F53" |}.

Definition internal_signature_block (id name : string) (byte_sequences : list node)
  : node :=
  Element "InternalSignature"
    ([ text_element "SignatureID" id;
       text_element "SignatureName" name;
       text_element "SignatureNote" nl ] ++ byte_sequences).

Definition external_signature_block (id signature type : string) : node :=
  Element "ExternalSignature"
    [ text_element "ExternalSignatureID" id;
      text_element "Signature" signature;
      text_element "SignatureType" type ].

Definition identifier_block (value type : string) : node :=
  Element "FileFormatIdentifier"
    [ text_element "Identifier" value; text_element "IdentifierType" type ].

Definition related_format_block (relationship id name version : string) : node :=
  Element "RelatedFormat"
    [ text_element "RelationshipType" relationship;
      text_element "RelatedFormatID" id;
      text_element "RelatedFormatName" name;
      text_element "RelatedFormatVersion" version ].

(** A report: the scalar labels of the format, then its blocks. *)
Definition report (scalars blocks : list node) : node :=
  Document
    [ Element "PRONOM-Report"
        [ Element "report_format_detail"
            [ Element "FileFormat" (scalars ++ blocks) ] ] ].

Definition scalars_of (id name version types : string) : list node :=
  [ text_element "FormatID" id;
    text_element "FormatName" name;
    text_element "FormatVersion" version;
    text_element "FormatTypes" types ].

(** A report whose only byte sequence is the odd-length pure-hex ["41F"]. *)
Definition report_41F : node :=
  report (scalars_of "49" "Adobe Illustrator" "1.0" "Image (Vector)")
    [ internal_signature_block "880" "AI v1"
        [ byte_sequence_block "100" "Absolute from BOF" "0" nl nl "41F" ] ].

(** A block with no [ByteSequenceValue] label. *)
Definition block_no_value : node :=
  Element "ByteSequence"
    [ text_element "ByteSequenceID" "100";
      text_element "PositionType" "Absolute from BOF";
      text_element "Offset" "0";
      text_element "MaxOffset" nl;
      text_element "Endianness" nl ].

Definition report_no_value : node :=
  report (scalars_of "49" "Adobe Illustrator" "1.0" "Image (Vector)")
    [ internal_signature_block "880" "AI v1" [ block_no_value ] ].

(** A report with no [FormatName] label. *)
Definition report_no_name : node :=
  report [ text_element "FormatID" "49"; text_element "FormatVersion" "1.0" ]
    [ external_signature_block "1" "ai" "File extension" ].

(** A block with no [Offset] and no [MaxOffset] label. *)
Definition block_no_offsets : node :=
  Element "ByteSequence"
    [ text_element "ByteSequenceID" "100";
      text_element "PositionType" "Absolute from BOF";
      text_element "Endianness" nl;
      text_element "ByteSequenceValue" "41FA" ].

Definition empty_signature : InternalSignature.t :=
  {| InternalSignature.id := Some "880";
     InternalSignature.name := Some "AI v1";
     InternalSignature.byte_sequences := [] |}.


Definition item_no_offsets : ByteSequence.t :=
  {| ByteSequence.id := Some "100";
     ByteSequence.pos := BOF;
     ByteSequence.min_off := None;
     ByteSequence.max_off := None;
     ByteSequence.endian := Some "";
     ByteSequence.value := "41FA" |}.

(** The labels [get_priorities] reads on a [RelatedFormat] block are read
    without an exception: the relationship, and for a kept block the rest. *)
Definition relation_reads (related : node) (r : pystr * pystr) : Prop :=
  _get_node_value "RelationshipType" related = ret (fst r)
  /\ (Py.eq_str (fst r) priority_over = true ->
      _get_node_value "RelatedFormatID" related = ret (snd r)
      /\ (exists x, _get_node_value "RelatedFormatName" related = ret x)
      /\ (exists x, _get_node_value "RelatedFormatVersion" related = ret x)).

Definition priority_of (r : pystr * pystr) : Priority.t :=
  {| Priority.type := fst r; Priority.id := snd r |}.

Definition has_priority_over (r : pystr * pystr) : bool :=
  Py.eq_str (fst r) priority_over.

Definition related_formats_sample : list node :=
  [ related_format_block "Has lower priority than" "613" "Acrobat PDF 1.0" "1.0";
    related_format_block "Has priority over" "86" "Encapsulated PostScript" "1.2";
    related_format_block "Is subsequent version of" "20" "Adobe Illustrator" "1.0";
    related_format_block "Has priority over" "331" "PostScript" "1.0" ].

Definition related_reads_sample : list (pystr * pystr) :=
  [ (Some "Has lower priority than", Some "613");
    (Some "Has priority over", Some "86");
    (Some "Is subsequent version of", Some "20");
    (Some "Has priority over", Some "331") ].

(** A report without any signature, and one with an extension only. *)
Definition report_unsigned : node :=
  report (scalars_of "7" "Plain" "1" "Text") [ identifier_block "fmt/7" "PUID" ].

Definition report_ai : node :=
  report (scalars_of "49" "Adobe Illustrator" "1.0" "Image (Vector)")
    [ identifier_block "application/postscript" "MIME";
      identifier_block "x-fmt/20" "PUID";
      external_signature_block "1" "ai" "File extension";
      related_format_block "Has priority over" "86" "EPS" "1.2";
      related_format_block "Has lower priority than" "613" "PDF" "1.0" ].

Definition format_ai : Format.t :=
  {| Format.id := Some "49";
     Format.name := "Adobe Illustrator";
     Format.version := "1.0";
     Format.puid := Some "x-fmt/20";
     Format.mime := Some "application/postscript";
     Format.classification := Some "Image (Vector)";
     Format.external_signatures :=
       [{| ExternalSignature.id := Some "1";
           ExternalSignature.signature := Some "ai";
           ExternalSignature.type := Some "File extension" |}];
     Format.internal_signatures := [];
     Format.priorities :=
       [{| Priority.type := Some "Has priority over"; Priority.id := Some "86" |}] |}.

(* ------------------------------------------------------------------ *)
(** ** Values that are stored and never rendered *)

Definition hidden_label (t : string) : bool :=
  String.eqb t "Endianness" || String.eqb t "FormatTypes".

(** The report with the character data of every [Endianness] and
    [FormatTypes] element blanked: two reports differ only in these values
    when they are equal after blanking. *)
Fixpoint blank_values (under_hidden : bool) (n : node) : node :=
  match n with
  | Document cs => Document (map (blank_values false) cs)
  | Element t cs => Element t (map (blank_values (hidden_label t)) cs)
  | CharacterData d => if under_hidden then CharacterData "" else CharacterData d
  end.

Definition blank_report (dom : node) : node := blank_values false dom.

Definition forget_endian (item : ByteSequence.t) : ByteSequence.t :=
  {| ByteSequence.id := ByteSequence.id item;
     ByteSequence.pos := ByteSequence.pos item;
     ByteSequence.min_off := ByteSequence.min_off item;
     ByteSequence.max_off := ByteSequence.max_off item;
     ByteSequence.endian := None;
     ByteSequence.value := ByteSequence.value item |}.

Definition forget_endian_sig (sig : InternalSignature.t) : InternalSignature.t :=
  {| InternalSignature.id := InternalSignature.id sig;
     InternalSignature.name := InternalSignature.name sig;
     InternalSignature.byte_sequences :=
       map forget_endian (InternalSignature.byte_sequences sig) |}.

Definition forget_hidden (fmt : Format.t) : Format.t :=
  {| Format.id := Format.id fmt;
     Format.name := Format.name fmt;
     Format.version := Format.version fmt;
     Format.puid := Format.puid fmt;
     Format.mime := Format.mime fmt;
     Format.classification := None;
     Format.external_signatures := Format.external_signatures fmt;
     Format.internal_signatures :=
       map forget_endian_sig (Format.internal_signatures fmt);
     Format.priorities := Format.priorities fmt |}.

(** The result of a computation under a function; logs and exceptions are
    kept. *)
Definition fmap {A B} (g : A -> B) (m : M A) : M B :=
  match m with
  | (l, Ok a) => (l, Ok (g a))
  | (l, Raise e) => (l, Raise e)
  end.

(** The elements named [name] below a list of children, in document order. *)
Definition descend (name : string) (cs : list node) : list node :=
  flat_map (fun c => (if element_named name c then [c] else [])
                       ++ getElementsByTagName name c) cs.

(* ------------------------------------------------------------------ *)
(** ** Sample records *)

Definition item_eof : ByteSequence.t :=
  {| ByteSequence.id := Some "316";
     ByteSequence.pos := EOF;
     ByteSequence.min_off := Some "";
     ByteSequence.max_off := Some "20";
     ByteSequence.endian := Some "";
     ByteSequence.value := "FFD9" |}.

Definition signature_881 : InternalSignature.t :=
  {| InternalSignature.id := Some "881";
     InternalSignature.name := Some "AI v2";
     InternalSignature.byte_sequences := [item_eof; item_10_5; item_eof] |}.

Definition signature_880 : InternalSignature.t :=
  {| InternalSignature.id := Some "880";
     InternalSignature.name := Some "AI v1";
     InternalSignature.byte_sequences := [item_10_5] |}.

Definition format_signed : Format.t :=
  {| Format.id := Some "50";
     Format.name := "Adobe Illustrator";
     Format.version := "2.0";
     Format.puid := Some "x-fmt/21";
     Format.mime := Some "";
     Format.classification := Some "Image (Vector)";
     Format.external_signatures := [];
     Format.internal_signatures := [signature_881; signature_880; signature_881];
     Format.priorities := [] |}.

(** Formats out of any order, one of them twice. *)
Definition formats_sample : list Format.t :=
  [format_signed; format_ai; format_signed].

Definition report_little : node :=
  report (scalars_of "49" "Adobe Illustrator" "1.0" "Image (Vector)")
    [ internal_signature_block "880" "AI v1"
        [ byte_sequence_block "100" "Absolute from BOF" "10" "5" "Little-endian"
            "4f53" ] ].

Definition report_big : node :=
  report (scalars_of "49" "Adobe Illustrator" "1.0" "Text (Structured)")
    [ internal_signature_block "880" "AI v1"
        [ byte_sequence_block "100" "Absolute from BOF" "10" "5" "Big-endian"
            "4f53" ] ].

(** The two reports of the end-to-end scenario: one BOF signature ["04"]
    without offsets, and one extension without internal signature. *)
Definition report_dev : node :=
  report (scalars_of "1" "Development Signature" "1.0" "Text")
    [ identifier_block "dev/1" "PUID";
      internal_signature_block "3" "dev"
        [ byte_sequence_block "5" "Absolute from BOF" nl nl nl "04" ] ].

Definition report_ext : node :=
  report (scalars_of "49" "Adobe Illustrator" "1.0" "Image (Vector)")
    [ identifier_block "application/postscript" "MIME";
      external_signature_block "1" "ai" "File extension" ].

Definition attribute (name value : string) : string :=
  " " +++ name +++ "=" +++ dq +++ value +++ dq.

Definition document_dev_ext : string :=
  "<?xml" +++ attribute "version" "1.0" +++ attribute "encoding" "UTF-8" +++ "?>"
  +++ "<FFSignatureFile xmlns='http://www.nationalarchives.gov.uk/pronom/SignatureFile' Version='1' DateCreated='2024-09-18T12:46:55Z'>"
  +++ "    <InternalSignatureCollection>"
  +++ "        <InternalSignature" +++ attribute "ID" "3"
  +++ attribute "Specificity" "Specific" +++ ">"
  +++ "    <ByteSequence" +++ attribute "Reference" "BOFoffset"
  +++ attribute "Sequence" "04" +++ attribute "MinOffset" ""
  +++ attribute "MaxOffset" "" +++ "/>"
  +++ "</InternalSignature>"
  +++ "    </InternalSignatureCollection>"
  +++ "    <FileFormatCollection>"
  +++ "        <FileFormat" +++ attribute "ID" "1"
  +++ attribute "Name" "Development Signature" +++ attribute "PUID" "dev/1"
  +++ attribute "Version" "1.0" +++ attribute "MIMEType" "" +++ ">"
  +++ "    <InternalSignatureID>3</InternalSignatureID>"
  +++ "        </FileFormat>"
  +++ "<FileFormat" +++ attribute "ID" "49"
  +++ attribute "Name" "Adobe Illustrator" +++ attribute "PUID" ""
  +++ attribute "Version" "1.0" +++ attribute "MIMEType" "application/postscript"
  +++ ">"
  +++ "        <Extension>ai</Extension>"
  +++ "    </FileFormat>"
  +++ "    </FileFormatCollection>"
  +++ "</FFSignatureFile>".

(* ------------------------------------------------------------------ *)
(** ** Further definitions: shapes of computations and of values *)

(** The computation logs nothing. *)
Definition quiet {A} (m : M A) : Prop := fst m = [].

(** The computation raises nothing but exceptions of [P]. *)
Definition raises_only {A} (P : exn -> Prop) (m : M A) : Prop :=
  forall l e, m = (l, Raise e) -> P e.

(** A loop body that only appends to its accumulator. *)
Definition appends {A} (f : list A -> M (list A)) : Prop :=
  forall acc, f acc = r <- f [] ;; ret (acc ++ r).

Definition no_char (c : ascii) (s : string) : bool :=
  negb (any_char (Ascii.eqb c) s).

Definition is_lower (c : ascii) : bool :=
  let n := nat_of_ascii c in ((97 <=? n) && (n <=? 122))%nat.

(** [s.endswith(p)] *)
Fixpoint endswith (s p : string) : bool :=
  String.eqb s p
  || match s with
     | EmptyString => false
     | String _ r => endswith r p
     end.

(** The labels [get_identifiers] reads on a [FileFormatIdentifier] block are
    read without an exception: the value, then the type. *)
Definition identifier_reads (identifier : node) (r : pystr * pystr) : Prop :=
  _get_node_value "Identifier" identifier = ret (fst r)
  /\ _get_node_value "IdentifierType" identifier = ret (snd r).

(** The value of the last reading of type [type], or [default]. *)
Fixpoint last_of_type (type : string) (default : pystr) (reads : list (pystr * pystr))
  : pystr :=
  match reads with
  | [] => default
  | r :: rest =>
      last_of_type type (if Py.eq_str (snd r) type then fst r else default) rest
  end.

(** The labels [get_external] reads on an [ExternalSignature] block are read
    without an exception. *)
Definition external_reads (external : node) (sig : ExternalSignature.t) : Prop :=
  _get_node_value "ExternalSignatureID" external = ret (ExternalSignature.id sig)
  /\ _get_node_value "Signature" external = ret (ExternalSignature.signature sig)
  /\ _get_node_value "SignatureType" external = ret (ExternalSignature.type sig).

Definition is_rejection (r : LogRecord) : bool :=
  Py.startswith (message r) "rejecting sig data: '".

(** The anchor of the item makes [create_one_to_many_byte_sequence] read its
    bounds. *)
Definition anchored (item : ByteSequence.t) : bool :=
  Py.startswith (ByteSequence.pos item) "EOF"
  || Py.startswith (ByteSequence.pos item) "BOF".

(** The encoding of the item raises [e], for its bounds. *)
Definition fails_with (e : exn) (item : ByteSequence.t) : Prop :=
  encoded_sequence item = raise e
  /\ anchored item = true /\ (e = TypeError \/ e = ValueError).

(** The file name chosen by [main]: [output] is [args.output],
    [output_date] is [args.output_date], [now] the value of
    [get_utc_timestamp_now()]. *)
Definition output_filename (output : string) (output_date : bool) (now : string)
  : string :=
  if output_date
  then "DROID_SignatureFile_Simple_" +++ Py.replace ":" "-" now +++ ".xml"
  else output.

(** The fields of the records that no element of the document shows, and
    the external signatures that are no file extension, removed. *)
Definition forget_unrendered_item (item : ByteSequence.t) : ByteSequence.t :=
  {| ByteSequence.id := None;
     ByteSequence.pos := ByteSequence.pos item;
     ByteSequence.min_off := ByteSequence.min_off item;
     ByteSequence.max_off := ByteSequence.max_off item;
     ByteSequence.endian := None;
     ByteSequence.value := ByteSequence.value item |}.

Definition forget_unrendered_sig (sig : InternalSignature.t) : InternalSignature.t :=
  {| InternalSignature.id := InternalSignature.id sig;
     InternalSignature.name := None;
     InternalSignature.byte_sequences :=
       map forget_unrendered_item (InternalSignature.byte_sequences sig) |}.

Definition forget_unrendered_ext (sig : ExternalSignature.t) : ExternalSignature.t :=
  {| ExternalSignature.id := None;
     ExternalSignature.signature := ExternalSignature.signature sig;
     ExternalSignature.type := ExternalSignature.type sig |}.

Definition forget_unrendered_priority (p : Priority.t) : Priority.t :=
  {| Priority.type := None; Priority.id := Priority.id p |}.

Definition forget_unrendered (fmt : Format.t) : Format.t :=
  {| Format.id := Format.id fmt;
     Format.name := Format.name fmt;
     Format.version := Format.version fmt;
     Format.puid := Format.puid fmt;
     Format.mime := Format.mime fmt;
     Format.classification := None;
     Format.external_signatures :=
       map forget_unrendered_ext
         (filter (fun sig => Py.eq_str (ExternalSignature.type sig) EXT)
            (Format.external_signatures fmt));
     Format.internal_signatures :=
       map forget_unrendered_sig (Format.internal_signatures fmt);
     Format.priorities := map forget_unrendered_priority (Format.priorities fmt) |}.

(** The XML declaration and the opening tag of the root, on one line. *)
Definition document_head (now : string) : string :=
  "<?xml" +++ attribute "version" "1.0" +++ attribute "encoding" "UTF-8" +++ "?>"
  +++ "<FFSignatureFile xmlns='http://www.nationalarchives.gov.uk/pronom/SignatureFile' Version='1' DateCreated='"
  +++ Py.replace "010"%char "" now +++ "'>".

Definition mime_without_value : list node :=
  [ identifier_block "x-fmt/20" "PUID";
    identifier_block "fmt/19" "PUID";
    Element "FileFormatIdentifier" [ text_element "IdentifierType" "MIME" ];
    identifier_block "doi:1" "DOI" ].

Definition mime_without_value_reads : list (pystr * pystr) :=
  [ (Some "x-fmt/20", Some "PUID"); (Some "fmt/19", Some "PUID");
    (None, Some "MIME"); (Some "doi:1", Some "DOI") ].

Definition externals_sample : list node :=
  [ external_signature_block "1" "ai" "File extension";
    external_signature_block "2" "Adobe" "Other";
    external_signature_block "1" "ai" "File extension" ].

Definition external_of (id signature type : string) : ExternalSignature.t :=
  {| ExternalSignature.id := Some id;
     ExternalSignature.signature := Some signature;
     ExternalSignature.type := Some type |}.

Definition item_bad_bound : ByteSequence.t :=
  {| ByteSequence.id := Some "1";
     ByteSequence.pos := BOF;
     ByteSequence.min_off := Some "0";
     ByteSequence.max_off := Some "1k";
     ByteSequence.endian := Some "";
     ByteSequence.value := "4F53" |}.

Definition format_bad_bound : Format.t :=
  {| Format.id := Some "51";
     Format.name := "Broken";
     Format.version := "1";
     Format.puid := Some "";
     Format.mime := Some "";
     Format.classification := None;
     Format.external_signatures := [];
     Format.internal_signatures :=
       [{| InternalSignature.id := Some "9";
           InternalSignature.name := None;
           InternalSignature.byte_sequences := [item_10_5; item_bad_bound] |}];
     Format.priorities := [] |}.

Definition report_markup_name : node :=
  report (scalars_of "49" "A<B>&C" "<1>" "Text")
    [ external_signature_block "1" "ai" "File extension" ].

Definition blocks_mixed : list node :=
  [ block_ZZ; block_41_bang; block_amp; block_41_amp;
    byte_sequence_block "3" "Relative" "x" nl nl "4f 5 3" ].

Definition blocks_mixed_log : list LogRecord :=
  Eval vm_compute in fst (get_bytes blocks_mixed).

Definition blocks_mixed_records : list ByteSequence.t :=
  [ accepted_item (Some "315") (Some "Absolute from BOF") (Some "10") (Some "5")
      (Some "Little-endian") "zz";
    accepted_item (Some "9") (Some "Absolute from EOF") (Some "") (Some "4")
      (Some "") "[&01]ff";
    accepted_item (Some "3") (Some "Relative") (Some "x") (Some "") (Some "")
      "4f 5 3" ].

(** The template of [process_formats_and_save] without the white space
    around it. *)
Definition document_body (now isc ffc : string) : string :=
  "<?xml version=" +++ dq +++ "1.0" +++ dq
  +++ " encoding=" +++ dq +++ "UTF-8" +++ dq +++ "?>" +++ nl
  +++ "<FFSignatureFile xmlns='http://www.nationalarchives.gov.uk/pronom/SignatureFile' Version='1' DateCreated='"
  +++ now +++ "'>" +++ nl
  +++ "    <InternalSignatureCollection>" +++ nl
  +++ "        " +++ isc +++ nl
  +++ "    </InternalSignatureCollection>" +++ nl
  +++ "    <FileFormatCollection>" +++ nl
  +++ "        " +++ ffc +++ nl
  +++ "    </FileFormatCollection>" +++ nl
  +++ "</FFSignatureFile>".

(** What stands between the head and the closing tag of the document. *)
Definition document_inner (isc ffc : string) : string :=
  "    <InternalSignatureCollection>        "
  +++ Py.replace "010"%char "" isc
  +++ "    </InternalSignatureCollection>    <FileFormatCollection>        "
  +++ Py.replace "010"%char "" ffc
  +++ "    </FileFormatCollection>".

Definition no_markup (s : string) : Prop :=
  no_char "<" s = true /\ no_char ">" s = true.

Definition formats_dev_ext : list Format.t :=
  Eval vm_compute in
    match collect_formats [report_dev; report_ext] with
    | (_, Ok fs) => fs
    | (_, Raise _) => []
    end.

(* ------------------------------------------------------------------ *)
(** ** The whole run: reading the reports, writing the file *)

(** The exceptions of the calls into the file system and the XML library. *)
Inductive library_exn := OSError | UnicodeDecodeError | ExpatError.

(** How a run ends that does not return: with an exception raised by the
    code of the module, or with one raised inside a library call. *)
Inductive failure :=
| Raised (e : exn)
| Library (e : library_exn).

Inductive outcome (A : Type) :=
| Done (a : A)
| Crash (e : failure).
Arguments Done {A} a.
Arguments Crash {A} e.

Definition info (message : string) : LogRecord :=
  {| levelname := INFO; message := message |}.

(** A computation of the module's own code as the end of a run. *)
Definition outcome_of {A} (m : M A) : list LogRecord * outcome A :=
  match m with
  | (l, Ok a) => (l, Done a)
  | (l, Raise e) => (l, Crash (Raised e))
  end.

(** Where a scan of an XML text stands: in character content, right after
    a [<], inside a processing instruction (and after a [?] in it), inside
    an end tag, inside a start tag, inside a quoted attribute value, or in
    markup that the scan does not follow (comments, CDATA sections,
    declarations). *)
Inductive scan :=
| Content | Markup | Instruction | InstructionEnd | EndTag | StartTag
| DoubleQuoted | SingleQuoted | NotFollowed.

(** XML 1.0, well-formedness constraint "No < in Attribute Values": the text
    has a [<] inside a quoted attribute value of a start tag. No parser
    accepts such a text: [xml.dom.minidom.parseString] raises [ExpatError]
    on it. The scan answers [false] where it does not follow the markup. *)
Fixpoint lt_in_attribute_from (st : scan) (text : string) : bool :=
  match text with
  | EmptyString => false
  | String c rest =>
      match st with
      | Content =>
          lt_in_attribute_from (if Ascii.eqb c "<" then Markup else Content) rest
      | Markup =>
          if Ascii.eqb c "?" then lt_in_attribute_from Instruction rest
          else if Ascii.eqb c "!" then false
          else if Ascii.eqb c "/" then lt_in_attribute_from EndTag rest
          else lt_in_attribute_from StartTag rest
      | Instruction =>
          lt_in_attribute_from
            (if Ascii.eqb c "?" then InstructionEnd else Instruction) rest
      | InstructionEnd =>
          if Ascii.eqb c ">" then lt_in_attribute_from Content rest
          else if Ascii.eqb c "?" then lt_in_attribute_from InstructionEnd rest
          else lt_in_attribute_from Instruction rest
      | EndTag =>
          lt_in_attribute_from (if Ascii.eqb c ">" then Content else EndTag) rest
      | StartTag =>
          if Ascii.eqb c "034" then lt_in_attribute_from DoubleQuoted rest
          else if Ascii.eqb c "'" then lt_in_attribute_from SingleQuoted rest
          else if Ascii.eqb c ">" then lt_in_attribute_from Content rest
          else lt_in_attribute_from StartTag rest
      | DoubleQuoted =>
          if Ascii.eqb c "<" then true
          else if Ascii.eqb c "034" then lt_in_attribute_from StartTag rest
          else lt_in_attribute_from DoubleQuoted rest
      | SingleQuoted =>
          if Ascii.eqb c "<" then true
          else if Ascii.eqb c "'" then lt_in_attribute_from StartTag rest
          else lt_in_attribute_from SingleQuoted rest
      | NotFollowed => false
      end
  end.

Definition lt_in_attribute_value (text : string) : bool :=
  lt_in_attribute_from Content text.

(** What is asked of any function that stands for the XML library in
    [process_formats_and_save]: it returns nothing on a text with a [<]
    inside an attribute value. *)
Definition rejects_lt_in_attribute_value (serialize : string -> option string)
  : Prop :=
  forall text, lt_in_attribute_value text = true -> serialize text = None.

Section Run.

(** [open(report)] and [parse] of [process_pronom] on one path: the parsed
    report, or the exception of the file system or of the parser. *)
Variable load : string -> node + library_exn.

(** Lines 498 to 500 of [process_formats_and_save]: [parseString] on the
    text, [toprettyxml] and [new_prettify] on its result. [None] when the
    parser raises [ExpatError]. *)
Variable serialize : string -> option string.

(** [open(filename, "w")] and [write]: the exception, if one is raised. *)
Variable write : string -> string -> option library_exn.

(** The end of [process_formats_and_save], from the text on: the parser and
    the pretty printer, the record "outputting to", the file. The result is
    the file name and the text written to it. *)
Definition save_document (filename : string) (text : M string)
  : list LogRecord * outcome (string * string) :=
  match text with
  | (l, Raise e) => (l, Crash (Raised e))
  | (l, Ok text) =>
      match serialize text with
      | None => (l, Crash (Library ExpatError))
      | Some prettier_xml =>
          let l := l ++ [info ("outputting to: " +++ filename)] in
          match write filename prettier_xml with
          | Some e => (l, Crash (Library e))
          | None => (l, Done (filename, prettier_xml))
          end
      end
  end.

(** The whole of [process_formats_and_save]. *)
Definition process_formats_and_save_file (formats : list Format.t)
    (filename now : string) : list LogRecord * outcome (string * string) :=
  save_document filename (process_formats_and_save formats now).

(** The loop of [process_pronom] over the paths of the reports: each report
    is opened and parsed right before its labels are read. *)
Fixpoint process_pronom_loop (report_list : list string) (formats : list Format.t)
  : list LogRecord * outcome (list Format.t) :=
  match report_list with
  | [] => ([], Done formats)
  | report :: rest =>
      match load report with
      | inr e => ([], Crash (Library e))
      | inl dom =>
          match process_pronom_body dom formats with
          | (l, Raise e) => (l, Crash (Raised e))
          | (l, Ok formats) =>
              let (l', r) := process_pronom_loop rest formats in (l ++ l', r)
          end
      end
  end.

(** The whole of [process_pronom]. *)
Definition process_pronom_file (report_list : list string) (filename now : string)
  : list LogRecord * outcome (string * string) :=
  match process_pronom_loop report_list [] with
  | (l, Crash e) => (l, Crash e)
  | (l, Done formats) =>
      let idx := Nat.pred (List.length report_list) in
      let counts :=
        [ info ("number of reports: " +++ Py.str_of_int (Z.of_nat idx));
          info ("number of formats processed for the signature file: "
                +++ Py.str_of_int (Z.of_nat (List.length formats))) ] in
      let (l', r) := process_formats_and_save_file formats filename now in
      (l ++ counts ++ l', r)
  end.

End Run.

(** A file system that holds the reports [files] and nothing else. *)
Fixpoint load_from (files : list (string * node)) (path : string)
  : node + library_exn :=
  match files with
  | [] => inr OSError
  | (name, dom) :: rest =>
      if String.eqb name path then inl dom else load_from rest path
  end.

(** An XML library that accepts every text but those with a [<] inside an
    attribute value, and prints what it was given. *)
Definition serialize_plain (text : string) : option string :=
  if lt_in_attribute_value text then None else Some text.

Definition write_any (filename text : string) : option library_exn := None.

(* ------------------------------------------------------------------ *)
(** ** Further sample reports *)

(** A block whose value is what a report holds as [4&lt;]: outside the
    allowed set, of even length, and with the one character that no
    attribute value may hold. *)
Definition block_4lt : node :=
  byte_sequence_block "700" "Absolute from BOF" nl nl "Big-endian" "4<".

Definition item_4lt : ByteSequence.t :=
  {| ByteSequence.id := Some "700";
     ByteSequence.pos := BOF;
     ByteSequence.min_off := Some "";
     ByteSequence.max_off := Some "";
     ByteSequence.endian := Some "Big-endian";
     ByteSequence.value := "4<" |}.

Definition report_4lt : node :=
  report (scalars_of "60" "Sample" "1" "Text")
    [ internal_signature_block "880" "sample" [ block_4lt ] ].

Definition document_4lt (now : string) : string :=
  "<?xml version=" +++ dq +++ "1.0" +++ dq
  +++ " encoding=" +++ dq +++ "UTF-8" +++ dq +++ "?>"
  +++ "<FFSignatureFile xmlns='http://www.nationalarchives.gov.uk/pronom/SignatureFile' Version='1' DateCreated='"
  +++ Py.replace "010"%char "" now +++ "'>"
  +++ "    <InternalSignatureCollection>"
  +++ "        <InternalSignature ID=" +++ dq +++ "880" +++ dq
  +++ " Specificity=" +++ dq +++ "Specific" +++ dq +++ ">"
  +++ "    <ByteSequence Reference=" +++ dq +++ "BOFoffset" +++ dq
  +++ " Sequence=" +++ dq +++ "4<" +++ dq
  +++ " MinOffset=" +++ dq +++ dq +++ " MaxOffset=" +++ dq +++ dq +++ "/>"
  +++ "</InternalSignature>"
  +++ "    </InternalSignatureCollection>"
  +++ "    <FileFormatCollection>"
  +++ "        <FileFormat ID=" +++ dq +++ "60" +++ dq
  +++ " Name=" +++ dq +++ "Sample" +++ dq +++ " PUID=" +++ dq +++ dq
  +++ " Version=" +++ dq +++ "1" +++ dq +++ " MIMEType=" +++ dq +++ dq +++ ">"
  +++ "    <InternalSignatureID>880</InternalSignatureID>"
  +++ "        </FileFormat>"
  +++ "    </FileFormatCollection>"
  +++ "</FFSignatureFile>".

(** A report with one byte sequence, whose block has the elements
    [endianness] between [IndirectOffsetLength] and [ByteSequenceValue]:
    none when the label is absent, [<Endianness></Endianness>] as
    [Element "Endianness" []], and an element with a value as
    [text_element "Endianness" value]. *)
Definition report_endianness (endianness : list node) : node :=
  report (scalars_of "49" "Adobe Illustrator" "1.0" "Image (Vector)")
    [ internal_signature_block "880" "AI v1"
        [ Element "ByteSequence"
            ([ text_element "ByteSequenceID" "100";
               text_element "PositionType" "Absolute from BOF";
               text_element "Offset" "10";
               text_element "MaxOffset" "5";
               text_element "IndirectOffsetLocation" nl;
               text_element "IndirectOffsetLength" nl ]
               ++ endianness
               ++ [ text_element "ByteSequenceValue" "4f53" ]) ] ].

(** The same for the [FormatTypes] element of a report with one file
    extension. *)
Definition report_format_types (format_types : list node) : node :=
  report
    ([ text_element "FormatID" "49";
       text_element "FormatName" "Adobe Illustrator";
       text_element "FormatVersion" "1.0" ]
       ++ format_types)
    [ external_signature_block "1" "ai" "File extension" ].

(** A report with an extension and four related formats, two of which it
    has priority over. *)
Definition report_related : node :=
  report (scalars_of "49" "Adobe Illustrator" "1.0" "Image (Vector)")
    ([ external_signature_block "1" "ai" "File extension" ]
       ++ related_formats_sample).

(** The format collected from [report_endianness], whatever the value of
    its [Endianness] element. *)
Definition formats_endianness : list Format.t :=
  [ {| Format.id := Some "49";
       Format.name := "Adobe Illustrator";
       Format.version := "1.0";
       Format.puid := Some "";
       Format.mime := Some "";
       Format.classification := Some "Image (Vector)";
       Format.external_signatures := [];
       Format.internal_signatures :=
         [ {| InternalSignature.id := Some "880";
              InternalSignature.name := Some "AI v1";
              InternalSignature.byte_sequences :=
                [ {| ByteSequence.id := Some "100";
                     ByteSequence.pos := BOF;
                     ByteSequence.min_off := Some "10";
                     ByteSequence.max_off := Some "5";
                     ByteSequence.endian := Some "Big-endian";
                     ByteSequence.value := "4F53" |} ] |} ];
       Format.priorities := [] |} ].
(* ------------------------------------------------------------------ *)
(** ** Laws of the monad *)

Lemma bind_ret {A B} (a : A) (f : A -> M B) : bind (ret a) f = f a.
Proof. unfold bind, ret. destruct (f a); reflexivity. Qed.

Lemma bind_raise {A B} (e : exn) (f : A -> M B) : bind (raise e) f = raise e.
Proof. reflexivity. Qed.

Lemma bind_ret_r {A} (m : M A) : bind m ret = m.
Proof.
  destruct m as [l [a | e]]; simpl; [rewrite app_nil_r|]; reflexivity.
Qed.

Lemma bind_assoc {A B C} (m : M A) (f : A -> M B) (g : B -> M C) :
  bind (bind m f) g = bind m (fun a => bind (f a) g).
Proof.
  destruct m as [l [a | e]]; simpl; [|reflexivity].
  destruct (f a) as [l1 [b | e]]; simpl; [|reflexivity].
  destruct (g b) as [l2 r]. rewrite app_assoc. reflexivity.
Qed.

(* ------------------------------------------------------------------ *)
(** ** Loops *)

Lemma bind_Ok {A B} (m : M A) (f : A -> M B) (l : list LogRecord) (b : B) :
  bind m f = (l, Ok b) ->
  exists l1 a l2, m = (l1, Ok a) /\ f a = (l2, Ok b) /\ l = l1 ++ l2.
Proof.
  destruct m as [l1 [a | e]]; simpl; [|discriminate].
  destruct (f a) as [l2 r] eqn:E. intros H. inversion H; subst.
  exists l1, a, l2. auto.
Qed.

Lemma ret_Ok {A} (a b : A) (l : list LogRecord) : ret a = (l, Ok b) -> a = b.
Proof. unfold ret. intros H. inversion H. reflexivity. Qed.

Lemma for_in_invariant {A S} (P : S -> Prop) (body : A -> S -> M S) (xs : list A) :
  (forall x acc l acc', P acc -> body x acc = (l, Ok acc') -> P acc') ->
  forall acc l r, P acc -> for_in xs body acc = (l, Ok r) -> P r.
Proof.
  intros Hbody. induction xs as [|x xs IH]; intros acc l r Hacc Hrun.
  - apply ret_Ok in Hrun. subst. exact Hacc.
  - simpl in Hrun. apply bind_Ok in Hrun as (l1 & acc' & l2 & H1 & H2 & _).
    eapply IH; [|exact H2]. eapply Hbody; eauto.
Qed.

Ltac bind_inv H :=
  let l1 := fresh "l" in
  let a := fresh "a" in
  let l2 := fresh "l" in
  let Hm := fresh "Hm" in
  let El := fresh "El" in
  apply bind_Ok in H as (l1 & a & l2 & Hm & H & El).

(* ------------------------------------------------------------------ *)
(** ** Reading a label *)

Lemma _get_node_value_cases (tag : string) (n : node) :
  _get_node_value tag n
  = match getElementsByTagName tag n with
    | [] => ret None
    | e :: _ =>
        match firstChild e with
        | None => raise AttributeError
        | Some c =>
            match nodeValue c with
            | None => raise AttributeError
            | Some v => ret (Some (Py.strip v))
            end
        end
    end.
Proof.
  unfold _get_node_value.
  destruct (getElementsByTagName tag n) as [|e es]; [reflexivity|].
  simpl. destruct (firstChild e) as [c|]; [|reflexivity].
  simpl. destruct (nodeValue c); reflexivity.
Qed.

(* ------------------------------------------------------------------ *)
(** ** Facts on strings *)

Lemma append_empty_r (s : string) : s +++ "" = s.
Proof. induction s as [|c s IH]; simpl; [|rewrite IH]; reflexivity. Qed.

Lemma append_assoc (a b c : string) : (a +++ b) +++ c = a +++ b +++ c.
Proof. induction a as [|x a IH]; simpl; [|rewrite IH]; reflexivity. Qed.

Lemma lstrip_spaces (w s : string) :
  all_space w = true -> Py.lstrip (w +++ s) = Py.lstrip s.
Proof.
  induction w as [|c w IH]; simpl; [reflexivity|].
  intros H. apply andb_true_iff in H as [Hc Hw]. rewrite Hc. auto.
Qed.

Lemma lstrip_tight (s : string) : starts_tight s = true -> Py.lstrip s = s.
Proof.
  destruct s as [|c s]; simpl; [discriminate|].
  intros H. apply negb_true_iff in H. rewrite H. reflexivity.
Qed.

Lemma rstrip_spaces (w : string) : all_space w = true -> Py.rstrip w = "".
Proof.
  induction w as [|c w IH]; simpl; [reflexivity|].
  intros H. apply andb_true_iff in H as [Hc Hw]. rewrite (IH Hw), Hc. reflexivity.
Qed.

Lemma rstrip_app_spaces (s w : string) :
  all_space w = true -> Py.rstrip (s +++ w) = Py.rstrip s.
Proof.
  intros H. induction s as [|c s IH]; simpl.
  - apply rstrip_spaces, H.
  - rewrite IH. reflexivity.
Qed.

Lemma rstrip_tight (s : string) : ends_tight s = true -> Py.rstrip s = s.
Proof.
  induction s as [|c s IH]; [discriminate|].
  destruct s as [|d s].
  - simpl. intros H. apply negb_true_iff in H. rewrite H. reflexivity.
  - intros H. change (ends_tight (String c (String d s))) with (ends_tight (String d s)) in H.
    specialize (IH H). change (Py.rstrip (String c (String d s)))
      with (match Py.rstrip (String d s) with
            | EmptyString => if Py.isspace c then EmptyString else String c EmptyString
            | r' => String c r'
            end).
    rewrite IH. reflexivity.
Qed.

Lemma starts_tight_app (a b : string) :
  starts_tight a = true -> starts_tight (a +++ b) = true.
Proof. destruct a; simpl; [discriminate | auto]. Qed.

Lemma ends_tight_app (a b : string) :
  ends_tight b = true -> ends_tight (a +++ b) = true.
Proof.
  intros H. induction a as [|c a IH]; simpl; [exact H|].
  destruct (a +++ b) eqn:E; [|exact IH].
  destruct a; simpl in E; [subst b|]; discriminate.
Qed.

Lemma tight_app (a m b : string) :
  starts_tight a = true -> ends_tight b = true -> tight (a +++ m +++ b) = true.
Proof.
  intros Ha Hb. unfold tight. rewrite starts_tight_app by exact Ha.
  rewrite ends_tight_app; [reflexivity|]. apply ends_tight_app, Hb.
Qed.

Lemma tight_inv (s : string) :
  tight s = true -> starts_tight s = true /\ ends_tight s = true.
Proof. unfold tight. intros H. apply andb_true_iff in H. exact H. Qed.

(** Stripping removes a frame of white space around a tight string. *)
Lemma strip_padded (w1 s w2 : string) :
  tight s = true -> all_space w1 = true -> all_space w2 = true ->
  Py.strip (w1 +++ s +++ w2) = s.
Proof.
  intros Hs H1 H2. apply tight_inv in Hs as [Hl Hr]. unfold Py.strip.
  rewrite lstrip_spaces by exact H1.
  rewrite lstrip_tight by (apply starts_tight_app, Hl).
  rewrite rstrip_app_spaces by exact H2. apply rstrip_tight, Hr.
Qed.

Lemma strip_tight (s : string) : tight s = true -> Py.strip s = s.
Proof.
  intros H. rewrite <- (append_empty_r s) at 1.
  apply (strip_padded "" s ""); auto.
Qed.

(* ------------------------------------------------------------------ *)
(** ** Offset encoding *)


Lemma present_and_positive_str (s : string) :
  empty_or_decimal s = true ->
  present_and_positive (Some s)
  = ret (match positive_bound s with Some _ => true | None => false end).
Proof.
  unfold empty_or_decimal, present_and_positive, positive_bound, int_of. simpl.
  destruct (String.eqb s ""); simpl; [reflexivity|].
  destruct (Py.int s) as [n|]; [|discriminate]. intros _.
  rewrite bind_ret. destruct (0 <? n)%Z; reflexivity.
Qed.

Lemma int_of_positive_bound (s : string) (n : Z) :
  positive_bound s = Some n -> int_of (Some s) = ret n.
Proof.
  unfold positive_bound, int_of.
  destruct (String.eqb s ""); [discriminate|].
  destruct (Py.int s) as [m|]; [|discriminate].
  destruct (0 <? m)%Z; [|discriminate]. congruence.
Qed.

Lemma calculate_variable_off_bof_str (item : ByteSequence.t) (lo hi : string) :
  ByteSequence.min_off item = Some lo ->
  ByteSequence.max_off item = Some hi ->
  empty_or_decimal lo = true ->
  empty_or_decimal hi = true ->
  calculate_variable_off_bof item
  = ret (offset_quantifier lo hi +++ ByteSequence.value item).
Proof.
  intros Hlo Hhi Dlo Dhi.
  unfold calculate_variable_off_bof, and_then, offset_quantifier.
  rewrite Hlo, Hhi.
  rewrite (present_and_positive_str lo Dlo), (present_and_positive_str hi Dhi).
  destruct (positive_bound lo) as [a|] eqn:Ea;
    destruct (positive_bound hi) as [b|] eqn:Eb;
    repeat rewrite bind_ret;
    try rewrite (int_of_positive_bound lo a Ea);
    try rewrite (int_of_positive_bound hi b Eb);
    repeat rewrite bind_ret; simpl; repeat (rewrite ?append_assoc; simpl);
    reflexivity.
Qed.

Lemma calculate_variable_off_eof_str (item : ByteSequence.t) (lo hi : string) :
  ByteSequence.min_off item = Some lo ->
  ByteSequence.max_off item = Some hi ->
  empty_or_decimal lo = true ->
  empty_or_decimal hi = true ->
  calculate_variable_off_eof item
  = ret (ByteSequence.value item +++ offset_quantifier lo hi).
Proof.
  intros Hlo Hhi Dlo Dhi.
  unfold calculate_variable_off_eof, and_then, offset_quantifier.
  rewrite Hlo, Hhi.
  rewrite (present_and_positive_str lo Dlo), (present_and_positive_str hi Dhi).
  destruct (positive_bound lo) as [a|] eqn:Ea;
    destruct (positive_bound hi) as [b|] eqn:Eb;
    repeat rewrite bind_ret;
    try rewrite (int_of_positive_bound lo a Ea);
    try rewrite (int_of_positive_bound hi b Eb);
    repeat rewrite bind_ret; simpl; rewrite ?append_empty_r; reflexivity.
Qed.

Lemma startswith_BOF_not_EOF (s : string) :
  Py.startswith s "BOF" = true -> Py.startswith s "EOF" = false.
Proof.
  destruct s as [|c s]; simpl; [discriminate|].
  destruct (Ascii.eqb c "B") eqn:E; [|discriminate].
  apply Ascii.eqb_eq in E. subst c. reflexivity.
Qed.

(** C1. Offset encoding is a function of the anchor and the two bounds
    alone: on a byte sequence whose bounds are strings, each empty or a
    decimal integer, the BOF encoding is the value behind the quantifier
    [offset_quantifier] ([{min-(min+max)}] when both bounds are present and
    positive, else [{0-max}] when max is, else [{min}] when min is, else
    nothing), the EOF encoding is the value in front of the same quantifier,
    and the anchor of the item chooses between the two. *)
Theorem offset_encoding (item : ByteSequence.t) (lo hi : string) :
  ByteSequence.min_off item = Some lo ->
  ByteSequence.max_off item = Some hi ->
  empty_or_decimal lo = true ->
  empty_or_decimal hi = true ->
  calculate_variable_off_bof item
  = ret (offset_quantifier lo hi +++ ByteSequence.value item)
  /\ calculate_variable_off_eof item
     = ret (ByteSequence.value item +++ offset_quantifier lo hi)
  /\ (Py.startswith (ByteSequence.pos item) "BOF" = true ->
      encoded_sequence item
      = ret (offset_quantifier lo hi +++ ByteSequence.value item))
  /\ (Py.startswith (ByteSequence.pos item) "EOF" = true ->
      encoded_sequence item
      = ret (ByteSequence.value item +++ offset_quantifier lo hi)).
Proof.
  intros Hlo Hhi Dlo Dhi.
  pose proof (calculate_variable_off_bof_str item lo hi Hlo Hhi Dlo Dhi) as Hb.
  pose proof (calculate_variable_off_eof_str item lo hi Hlo Hhi Dlo Dhi) as He.
  repeat split; auto; intros Hp; unfold encoded_sequence.
  - rewrite (startswith_BOF_not_EOF _ Hp), Hp. exact Hb.
  - rewrite Hp. exact He.
Qed.

(* ------------------------------------------------------------------ *)
(** ** Validation of a byte-sequence value *)

Lemma validate_value_str (seq_value : string) :
  validate_value (Some seq_value)
  = (validation_log seq_value,
     Ok (if length_rejects seq_value then None
         else Some (stored_value seq_value))).
Proof.
  unfold validate_value, validation_log, stored_value, error, logger_error.
  destruct (fullmatch_PRONOM_REGEX_ALLOWED seq_value);
    destruct (length_rejects seq_value); simpl; try reflexivity;
    destruct (Py.contains "&" (pre_process_signature seq_value));
    reflexivity.
Qed.

Lemma get_bytes_body_reads (byte_sequence : node)
    (seq_id pos_type min_off max_off endian : pystr) (seq_value : string)
    (sequence_list : list ByteSequence.t) :
  byte_sequence_reads byte_sequence seq_id pos_type min_off max_off endian
    (Some seq_value) ->
  get_bytes_body byte_sequence sequence_list
  = (validation_log seq_value,
     Ok (if length_rejects seq_value then sequence_list
         else sequence_list
                ++ [accepted_item seq_id pos_type min_off max_off endian
                      seq_value])).
Proof.
  intros (H1 & H2 & H3 & H4 & [x5 H5] & [x6 H6] & H7 & H8).
  unfold get_bytes_body.
  rewrite H1, H2, H3, H4, H5, H6, H7, H8. repeat rewrite bind_ret.
  rewrite validate_value_str.
  destruct (length_rejects seq_value); simpl; rewrite app_nil_r; reflexivity.
Qed.

(* ------------------------------------------------------------------ *)
(** ** Joining tight strings *)

Lemma concat_snoc (sep : string) (done : list string) (e : string) :
  String.concat sep (done ++ [e])
  = match done with
    | [] => e
    | _ :: _ => String.concat sep done +++ sep +++ e
    end.
Proof.
  induction done as [|d ds IH]; [reflexivity|].
  destruct ds as [|x xs]; [reflexivity|].
  change (String.concat sep ((d :: x :: xs) ++ [e]))
    with (d +++ sep +++ String.concat sep ((x :: xs) ++ [e])).
  rewrite IH.
  change (String.concat sep (d :: x :: xs))
    with (d +++ sep +++ String.concat sep (x :: xs)).
  rewrite !append_assoc. reflexivity.
Qed.

Lemma concat_tight (sep : string) (done : list string) :
  done <> [] -> Forall (fun s => tight s = true) done ->
  tight (String.concat sep done) = true.
Proof.
  induction done as [|d ds IH]; [congruence|].
  intros _ H. inversion H as [|? ? Hd Hds]; subst.
  destruct ds as [|x xs]; [exact Hd|].
  change (String.concat sep (d :: x :: xs))
    with (d +++ sep +++ String.concat sep (x :: xs)).
  apply tight_app.
  - apply tight_inv in Hd. tauto.
  - apply tight_inv. apply IH; [discriminate | exact Hds].
Qed.

Lemma strip_spaces (w : string) : all_space w = true -> Py.strip w = "".
Proof.
  intros H. unfold Py.strip. rewrite <- (append_empty_r w).
  rewrite lstrip_spaces by exact H. reflexivity.
Qed.

(** Stripping a joined list of tight strings changes nothing. *)
Lemma strip_concat_tight (sep : string) (done : list string) :
  Forall (fun s => tight s = true) done ->
  Py.strip (String.concat sep done) = String.concat sep done.
Proof.
  intros H. destruct done as [|d ds]; [reflexivity|].
  apply strip_tight, concat_tight; [discriminate | exact H].
Qed.

(* ------------------------------------------------------------------ *)
(** ** Assembly of the byte sequences of one signature *)

Lemma byte_sequence_element_tight (item : ByteSequence.t) (seq : string) :
  tight (byte_sequence_element item seq) = true.
Proof.
  unfold tight, byte_sequence_element. apply andb_true_iff. split.
  - reflexivity.
  - repeat apply ends_tight_app. reflexivity.
Qed.

(** One turn of the loop of [create_one_to_many_byte_sequence]: the stripped
    accumulator gains the element of the item at its end. *)
Lemma one_to_many_step (acc e : string) (done : list string) :
  Py.strip acc = String.concat byte_sequence_sep done ->
  Forall (fun s => tight s = true) done ->
  tight e = true ->
  Py.strip (nl +++ Py.strip acc +++ nl +++ "    " +++ e +++ nl +++ "        ")
  = String.concat byte_sequence_sep (done ++ [e]).
Proof.
  intros Hacc Hdone He. rewrite Hacc, concat_snoc.
  destruct done as [|d ds].
  - exact (strip_padded (nl +++ nl +++ "    ") e (nl +++ "        ")
             He eq_refl eq_refl).
  - set (S := String.concat byte_sequence_sep (d :: ds)).
    assert (HS : tight S = true) by (apply concat_tight; [discriminate | exact Hdone]).
    replace (nl +++ S +++ nl +++ "    " +++ e +++ nl +++ "        ")
      with (nl +++ (S +++ byte_sequence_sep +++ e) +++ nl +++ "        ").
    + apply strip_padded; try reflexivity.
      apply tight_inv in HS as [HS1 _]. apply tight_inv in He as [_ He2].
      apply tight_app; assumption.
    + unfold byte_sequence_sep. rewrite !append_assoc. reflexivity.
Qed.

Lemma one_to_many_loop (items : list ByteSequence.t) :
  Forall encodes items ->
  forall (acc : string) (done : list string),
    Py.strip acc = String.concat byte_sequence_sep done ->
    Forall (fun s => tight s = true) done ->
    exists acc',
      for_in items create_one_to_many_byte_sequence_body acc = ret acc'
      /\ Py.strip acc'
         = String.concat byte_sequence_sep
             (done ++ map (fun item => byte_sequence_element item (sequence_of item))
                        items).
Proof.
  induction 1 as [|item items Hitem _ IH]; intros acc done Hacc Hdone.
  - exists acc. simpl. rewrite app_nil_r. auto.
  - simpl. unfold create_one_to_many_byte_sequence_body at 1.
    rewrite Hitem, !bind_ret.
    set (e := byte_sequence_element item (sequence_of item)).
    destruct (IH (nl +++ Py.strip acc +++ nl +++ "    " +++ e +++ nl +++ "        ")
                (done ++ [e])) as (acc' & Hrun & Hstrip).
    + apply one_to_many_step; auto. apply byte_sequence_element_tight.
    + apply Forall_app. split; [exact Hdone|].
      constructor; [apply byte_sequence_element_tight | constructor].
    + exists acc'. split; [exact Hrun|].
      rewrite Hstrip, <- app_assoc. reflexivity.
Qed.

(** The byte sequences of a signature are rendered in list order. *)
Lemma create_one_to_many_byte_sequence_text (items : list ByteSequence.t) :
  Forall encodes items ->
  create_one_to_many_byte_sequence items = ret (byte_sequences_text items).
Proof.
  intros H. unfold create_one_to_many_byte_sequence.
  destruct (one_to_many_loop items H "" [] eq_refl (Forall_nil _))
    as (acc' & Hrun & Hstrip).
  rewrite Hrun, bind_ret, Hstrip. reflexivity.
Qed.

Lemma byte_sequences_text_shape (items : list ByteSequence.t) :
  byte_sequences_text items = "" \/ tight (byte_sequences_text items) = true.
Proof.
  destruct items as [|i items]; [left; reflexivity|right].
  apply concat_tight; [discriminate|].
  apply Forall_map, Forall_forall. intros x _. apply byte_sequence_element_tight.
Qed.

(* ------------------------------------------------------------------ *)
(** ** Assembly of the signatures of one format *)

Lemma internal_signature_element_tight (id_ : pystr) (bs : string) :
  tight (internal_signature_element id_ bs) = true.
Proof.
  unfold tight, internal_signature_element. apply andb_true_iff. split.
  - reflexivity.
  - repeat apply ends_tight_app. reflexivity.
Qed.

Lemma trailing_snoc (sep : string) (done : list string) (g : string) :
  trailing sep done +++ g +++ sep = trailing sep (done ++ [g]).
Proof.
  unfold trailing. rewrite concat_snoc.
  destruct done as [|d ds]; simpl app; cbv iota.
  - reflexivity.
  - rewrite !append_assoc. reflexivity.
Qed.

Lemma strip_trailing (sep w : string) (done : list string) :
  all_space w = true -> all_space sep = true ->
  Forall (fun s => tight s = true) done ->
  Py.strip (w +++ trailing sep done) = String.concat sep done.
Proof.
  intros Hw Hsep Hdone. destruct done as [|d ds]; simpl trailing.
  - rewrite append_empty_r. apply strip_spaces, Hw.
  - apply strip_padded; auto. apply concat_tight; [discriminate | exact Hdone].
Qed.

Lemma all_space_app (a b : string) :
  all_space a = true -> all_space b = true -> all_space (a +++ b) = true.
Proof.
  intros Ha Hb. induction a as [|c a IH]; simpl; [exact Hb|].
  apply andb_true_iff in Ha as [Hc Ha]. unfold all_space in *. simpl.
  rewrite Hc. simpl. apply IH, Ha.
Qed.

Lemma many_to_one_loop (sigs : list InternalSignature.t) :
  Forall (fun sig => Forall encodes (InternalSignature.byte_sequences sig)) sigs ->
  forall (w : string) (done : list string),
    all_space w = true ->
    exists w',
      all_space w' = true
      /\ for_in sigs create_many_to_one_byte_sequence_body
           (w +++ trailing internal_signature_sep done)
         = ret (w' +++ trailing internal_signature_sep (done ++ map group_of sigs)).
Proof.
  induction 1 as [|sig sigs Hsig _ IH]; intros w done Hw.
  - exists w. simpl. rewrite app_nil_r. auto.
  - simpl. unfold create_many_to_one_byte_sequence_body at 1.
    rewrite (create_one_to_many_byte_sequence_text _ Hsig), !bind_ret.
    destruct (IH (nl +++ w) (done ++ [group_of sig])) as (w' & Hw' & Hrun).
    + apply all_space_app; [reflexivity | exact Hw].
    + exists w'. split; [exact Hw'|].
      rewrite <- app_assoc in Hrun. simpl app in Hrun. rewrite <- Hrun.
      f_equal. rewrite <- trailing_snoc. unfold group_of, internal_signature_sep.
      rewrite !append_assoc. reflexivity.
Qed.

(** The signatures of a format are rendered in list order. *)
Lemma create_many_to_one_byte_sequence_text (sigs : list InternalSignature.t) :
  Forall (fun sig => Forall encodes (InternalSignature.byte_sequences sig)) sigs ->
  create_many_to_one_byte_sequence sigs = ret (internal_signatures_text sigs).
Proof.
  intros H. unfold create_many_to_one_byte_sequence.
  destruct (many_to_one_loop sigs H "" [] eq_refl) as (w' & Hw' & Hrun).
  simpl in Hrun. rewrite Hrun, bind_ret. f_equal. f_equal.
  apply strip_trailing; [exact Hw' | reflexivity|].
  apply Forall_map, Forall_forall. intros x _.
  apply internal_signature_element_tight.
Qed.

(* ------------------------------------------------------------------ *)
(** ** Assembly of the document *)

Lemma file_format_element_tight (fmt : Format.t) :
  tight (file_format_element fmt) = true.
Proof.
  unfold tight, file_format_element. apply andb_true_iff. split.
  - reflexivity.
  - repeat apply ends_tight_app. reflexivity.
Qed.

Lemma create_file_format_collection_element (fmt : Format.t) :
  create_file_format_collection fmt = file_format_element fmt.
Proof.
  unfold create_file_format_collection.
  pose proof (strip_padded nl (file_format_element fmt) (nl +++ "    ")
                (file_format_element_tight fmt) eq_refl eq_refl) as H.
  unfold file_format_element in H at 1. rewrite !append_assoc in H.
  exact H.
Qed.

Lemma internal_signatures_text_tight (sigs : list InternalSignature.t) :
  sigs <> [] -> tight (internal_signatures_text sigs) = true.
Proof.
  intros H. apply concat_tight.
  - destruct sigs; [congruence | discriminate].
  - apply Forall_map, Forall_forall. intros x _.
    apply internal_signature_element_tight.
Qed.

Lemma process_formats_and_save_loop (formats : list Format.t) :
  Forall encodes (all_byte_sequences formats) ->
  forall isc ffc,
    for_in formats process_formats_and_save_body (isc, ffc)
    = ret (isc ++ internal_signature_groups formats,
           ffc ++ file_format_entries formats).
Proof.
  induction formats as [|fmt formats IH]; intros H isc ffc.
  - simpl. rewrite !app_nil_r. reflexivity.
  - unfold all_byte_sequences in H. simpl in H. apply Forall_app in H as [Hf Hrest].
    simpl for_in. unfold process_formats_and_save_body at 1.
    unfold internal_signature_groups, file_format_entries, has_internal.
    simpl filter. simpl map.
    destruct (Format.internal_signatures fmt) as [|sig sigs] eqn:E.
    + rewrite bind_ret, (IH Hrest). unfold internal_signature_groups, file_format_entries.
      rewrite <- app_assoc. reflexivity.
    + rewrite create_many_to_one_byte_sequence_text.
      * rewrite !bind_ret, (IH Hrest).
        unfold internal_signature_groups, file_format_entries.
        simpl map. rewrite E, <- !app_assoc. reflexivity.
      * apply Forall_forall. intros s Hs. apply Forall_forall. intros b Hb.
        rewrite Forall_forall in Hf. apply Hf. apply in_flat_map. eauto.
Qed.

(** The document is the in-order rendering of the formats. *)
Lemma process_formats_and_save_text (formats : list Format.t) (now : string) :
  Forall encodes (all_byte_sequences formats) ->
  process_formats_and_save formats now = ret (document_text formats now).
Proof.
  intros H. unfold process_formats_and_save.
  rewrite (process_formats_and_save_loop formats H), bind_ret. simpl app.
  unfold document_text, Py.join_empty. rewrite !strip_concat_tight.
  - reflexivity.
  - apply Forall_map, Forall_forall. intros f _.
    rewrite create_file_format_collection_element. apply file_format_element_tight.
  - apply Forall_map, Forall_forall. intros f Hf. apply filter_In in Hf as [_ Hf].
    apply internal_signatures_text_tight. unfold has_internal in Hf.
    destruct (Format.internal_signatures f); [discriminate | discriminate].
Qed.

(* ------------------------------------------------------------------ *)
(** ** Acceptance of values *)

Lemma encoded_sequence_str (item : ByteSequence.t) (lo hi : string) :
  ByteSequence.min_off item = Some lo ->
  ByteSequence.max_off item = Some hi ->
  empty_or_decimal lo = true ->
  empty_or_decimal hi = true ->
  exists before after,
    encoded_sequence item = ret (before +++ ByteSequence.value item +++ after).
Proof.
  intros Hlo Hhi Dlo Dhi. unfold encoded_sequence.
  destruct (Py.startswith (ByteSequence.pos item) "EOF").
  - exists "", (offset_quantifier lo hi).
    apply calculate_variable_off_eof_str; assumption.
  - destruct (Py.startswith (ByteSequence.pos item) "BOF").
    + exists (offset_quantifier lo hi), "". rewrite append_empty_r.
      apply calculate_variable_off_bof_str; assumption.
    + exists "", "". rewrite append_empty_r. reflexivity.
Qed.

Lemma encodes_of_ret (item : ByteSequence.t) (seq : string) :
  encoded_sequence item = ret seq -> encodes item /\ sequence_of item = seq.
Proof.
  intros H. unfold encodes, sequence_of. rewrite H. split; reflexivity.
Qed.


(* ------------------------------------------------------------------ *)
(** ** The length check *)

Lemma existsb_false_Forall {A} (p : A -> bool) (xs : list A) :
  existsb p xs = false <-> Forall (fun x => p x = false) xs.
Proof.
  induction xs as [|x xs IH]; simpl.
  - split; auto.
  - rewrite orb_false_iff, IH. split.
    + intros [H1 H2]. constructor; assumption.
    + intros H. inversion H; auto.
Qed.

Lemma odd_Odd (n : nat) : Nat.odd n = true <-> Nat.Odd n.
Proof. apply Nat.odd_spec. Qed.

Lemma length_rejects_iff (seq_value : string) :
  length_rejects seq_value = true
  <-> Forall (fun tok => Py.contains tok seq_value = false) pattern_tokens
      /\ Nat.Odd (String.length seq_value).
Proof.
  unfold length_rejects.
  rewrite andb_true_iff, negb_true_iff, existsb_false_Forall, odd_Odd.
  reflexivity.
Qed.

Lemma hex_char_facts (c : ascii) :
  is_hex c = true ->
  Py.isspace c = false
  /\ Ascii.eqb (Py.upper_char c) " " = false
  /\ Ascii.eqb (Py.upper_char c) "&" = false
  /\ allowed_char c = true.
Proof.
  destruct c as [[] [] [] [] [] [] [] []]; vm_compute;
    intros H; try discriminate H; repeat split.
Qed.

Lemma all_chars_tight (s : string) :
  s <> "" -> all_chars (fun c => negb (Py.isspace c)) s = true -> tight s = true.
Proof.
  intros Hne H. unfold tight. apply andb_true_iff. split.
  - destruct s; [congruence|]. simpl in *. apply andb_true_iff in H. tauto.
  - destruct s as [|c s]; [congruence|]. clear Hne. revert c H.
    induction s as [|d s IH]; intros c H; simpl in H;
      apply andb_true_iff in H as [Hc Hs].
    + exact Hc.
    + apply (IH d). exact Hs.
Qed.

Lemma all_chars_impl (p q : ascii -> bool) (s : string) :
  (forall c, p c = true -> q c = true) ->
  all_chars p s = true -> all_chars q s = true.
Proof.
  intros Hpq. induction s as [|c s IH]; simpl; [auto|].
  intros H. apply andb_true_iff in H as [Hc Hs].
  rewrite (Hpq c Hc), (IH Hs). reflexivity.
Qed.

Lemma strip_hex (s : string) : all_chars is_hex s = true -> Py.strip s = s.
Proof.
  intros H. destruct (String.eqb s "") eqn:E.
  { apply String.eqb_eq in E. subst s. reflexivity. }
  apply String.eqb_neq in E.
  apply strip_tight, all_chars_tight; [exact E|].
  apply (all_chars_impl is_hex); [|exact H].
  intros x Hx. apply hex_char_facts in Hx as [Hx _]. rewrite Hx. reflexivity.
Qed.

Lemma upper_hex_plain (s : string) :
  all_chars is_hex s = true ->
  Py.replace " " "" (Py.upper s) = Py.upper s
  /\ Py.contains "&" (Py.upper s) = false.
Proof.
  induction s as [|c s IH]; simpl; [auto|].
  intros H. apply andb_true_iff in H as [Hc Hs].
  destruct (IH Hs) as [IH1 IH2].
  apply hex_char_facts in Hc as (_ & Hsp & Hamp & _).
  rewrite Hsp, Hamp, IH1, IH2. auto.
Qed.

Lemma stored_value_hex (s : string) :
  all_chars is_hex s = true -> stored_value s = Py.upper s.
Proof.
  intros H. unfold stored_value, pre_process_signature.
  rewrite (strip_hex s H). destruct (upper_hex_plain s H) as [-> ->].
  reflexivity.
Qed.

(** C4, as the code has it. The length check of [get_bytes] rejects a value
    exactly when none of the tokens [??], [(], [)], [|], [{], [}], [:], [-],
    [[], []] and [*] occurs in it and its length is odd; a value with one of
    these tokens is accepted whatever its length; an accepted value is
    stored in normal form, which for a pure-hex value is its upper case;
    ["41F"] is rejected and ["41FA"] is accepted as ["41FA"]. *)
Theorem length_check_rejects_exactly (seq_value : string) :
  (snd (validate_value (Some seq_value)) = Ok None
   <-> Forall (fun tok => Py.contains tok seq_value = false) pattern_tokens
       /\ Nat.Odd (String.length seq_value))
  /\ (Exists (fun tok => Py.contains tok seq_value = true) pattern_tokens ->
      snd (validate_value (Some seq_value)) = Ok (Some (stored_value seq_value)))
  /\ (snd (validate_value (Some seq_value)) <> Ok None ->
      snd (validate_value (Some seq_value))
      = Ok (Some (if Py.contains "&" (pre_process_signature seq_value)
                  then Py.escape (pre_process_signature seq_value)
                  else Py.replace " " "" (Py.upper (Py.strip seq_value)))))
  /\ (all_chars is_hex seq_value = true -> Nat.Even (String.length seq_value) ->
      snd (validate_value (Some seq_value)) = Ok (Some (Py.upper seq_value)))
  /\ validate_value (Some "41F")
     = ([error "rejecting sig data: '41F' based on length"], Ok None)
  /\ validate_value (Some "41FA") = ret (Some "41FA").
Proof.
  rewrite validate_value_str. simpl snd.
  split; [split|split; [|split; [|split; [|split; reflexivity]]]].
  - intros H. apply length_rejects_iff.
    destruct (length_rejects seq_value); [reflexivity | discriminate].
  - intros H. apply length_rejects_iff in H. rewrite H. reflexivity.
  - intros H. destruct (length_rejects seq_value) eqn:E; [|reflexivity].
    apply length_rejects_iff in E as [E _].
    apply Exists_exists in H as (tok & Hin & Htok).
    rewrite Forall_forall in E. rewrite (E tok Hin) in Htok. discriminate.
  - intros H. unfold stored_value, pre_process_signature.
    destruct (length_rejects seq_value); [congruence | reflexivity].
  - intros Hhex Heven. destruct (length_rejects seq_value) eqn:E.
    + apply length_rejects_iff in E as [_ E].
      destruct (Nat.Even_Odd_False _ Heven E).
    + rewrite (stored_value_hex _ Hhex). reflexivity.
Qed.

(** C4, as the specification words it, fails: ["41!"] holds a
    pattern-control character of the specification and has an odd length,
    and [get_bytes] rejects it on length. *)
Lemma length_check_counterexample :
  spec_length_rejects "41!" = false
  /\ fullmatch_PRONOM_REGEX_ALLOWED "41!" = true
  /\ get_bytes [block_41_bang]
     = ([error "rejecting sig data: '41!' based on length"], Ok [])
  /\ spec_length_rejects "4?1" = false
  /\ validate_value (Some "4?1")
     = ([error "rejecting sig data: '4?1' based on length"], Ok None).
Proof. repeat split. Qed.

(* ------------------------------------------------------------------ *)
(** ** Ampersands *)




(* ------------------------------------------------------------------ *)
(** ** The shapes of the offset quantifier *)

Lemma offset_encoding_witness :
  calculate_variable_off_bof item_10_5 = ret "{10-15}4F53"
  /\ calculate_variable_off_eof item_10_5 = ret "4F53{10-15}"
  /\ (Py.startswith BOF "BOF" = true ->
      encoded_sequence item_10_5 = ret "{10-15}4F53")
  /\ (Py.startswith BOF "EOF" = true ->
      encoded_sequence item_10_5 = ret "4F53{10-15}").
Proof.
  exact (offset_encoding item_10_5 "10" "5" eq_refl eq_refl eq_refl eq_refl).
Defined.

Example bof_shapes :
  encoded_sequence (item_bounds BOF "10" "5") = ret "{10-15}4F53"
  /\ encoded_sequence (item_bounds BOF "" "20") = ret "{0-20}4F53"
  /\ encoded_sequence (item_bounds BOF "0" "20") = ret "{0-20}4F53"
  /\ encoded_sequence (item_bounds BOF "3" "") = ret "{3}4F53"
  /\ encoded_sequence (item_bounds BOF "3" "0") = ret "{3}4F53"
  /\ encoded_sequence (item_bounds BOF "" "") = ret "4F53"
  /\ encoded_sequence (item_bounds BOF "0" "0") = ret "4F53".
Proof. repeat split. Qed.

Example eof_shapes :
  encoded_sequence (item_bounds EOF "10" "5") = ret "4F53{10-15}"
  /\ encoded_sequence (item_bounds EOF "" "20") = ret "4F53{0-20}"
  /\ encoded_sequence (item_bounds EOF "3" "") = ret "4F53{3}"
  /\ encoded_sequence (item_bounds EOF "" "") = ret "4F53".
Proof. repeat split. Qed.

Example unknown_anchor_has_no_quantifier :
  encoded_sequence (item_bounds "" "10" "5") = ret "4F53".
Proof. reflexivity. Qed.

(* ------------------------------------------------------------------ *)
(** ** Signatures without byte sequences *)

Lemma bind_Raise {A B} (m : M A) (f : A -> M B) (l : list LogRecord) (e : exn) :
  bind m f = (l, Raise e) ->
  m = (l, Raise e)
  \/ exists l1 a l2, m = (l1, Ok a) /\ f a = (l2, Raise e) /\ l = l1 ++ l2.
Proof.
  destruct m as [l1 [a | e1]]; simpl.
  - destruct (f a) as [l2 r] eqn:E. intros H. inversion H; subst.
    right. exists l1, a, l2. auto.
  - intros H. inversion H; subst. left. reflexivity.
Qed.

Lemma _get_node_value_raises (tag : string) (n : node) (l : list LogRecord) (e : exn) :
  _get_node_value tag n = (l, Raise e) -> e = AttributeError.
Proof.
  rewrite _get_node_value_cases.
  destruct (getElementsByTagName tag n) as [|x xs]; [discriminate|].
  destruct (firstChild x) as [c|]; [|intros H; inversion H; reflexivity].
  destruct (nodeValue c); [discriminate|]. intros H. inversion H. reflexivity.
Qed.

Lemma validate_value_raises (seq_value : pystr) (l : list LogRecord) (e : exn) :
  validate_value seq_value = (l, Raise e) -> e = TypeError.
Proof.
  destruct seq_value as [v|].
  - rewrite validate_value_str. discriminate.
  - intros H. inversion H. reflexivity.
Qed.

Ltac raise_inv H :=
  let l1 := fresh "l" in
  let a := fresh "a" in
  let l2 := fresh "l" in
  let Hm := fresh "Hm" in
  let El := fresh "El" in
  apply bind_Raise in H as [H | (l1 & a & l2 & Hm & H & El)];
  [apply _get_node_value_raises in H; subst; discriminate|].

Lemma get_bytes_body_never_IndexError (n : node) (acc : list ByteSequence.t)
    (l : list LogRecord) (e : exn) :
  get_bytes_body n acc = (l, Raise e) -> e <> IndexError.
Proof.
  unfold get_bytes_body. intros H. do 8 raise_inv H.
  apply bind_Raise in H as [H | (lv & c & lc & Hv & H & Elv)].
  - apply validate_value_raises in H. subst. discriminate.
  - destruct c; discriminate H.
Qed.

Lemma for_in_raises {A S} (P : exn -> Prop) (body : A -> S -> M S) (xs : list A) :
  (forall x acc l e, body x acc = (l, Raise e) -> P e) ->
  forall acc l e, for_in xs body acc = (l, Raise e) -> P e.
Proof.
  intros Hbody. induction xs as [|x xs IH]; intros acc l e H; [discriminate|].
  simpl in H. apply bind_Raise in H as [H | (lx & a & lr & Hm & H & El)].
  - exact (Hbody _ _ _ _ H).
  - exact (IH _ _ _ H).
Qed.

(** The handler of [get_internal] is never entered. *)
Lemma get_bytes_never_IndexError (byte_sequences : list node)
    (l : list LogRecord) (e : exn) :
  get_bytes byte_sequences = (l, Raise e) -> e <> IndexError.
Proof.
  apply (for_in_raises (fun e => e <> IndexError)).
  intros x acc l' e'. apply get_bytes_body_never_IndexError.
Qed.

Lemma get_internal_body_appends (internal : node)
    (internal_sigs internal_sigs' : list InternalSignature.t) (l : list LogRecord) :
  get_internal_body internal internal_sigs = (l, Ok internal_sigs') ->
  exists sig, internal_sigs' = internal_sigs ++ [sig].
Proof.
  unfold get_internal_body. intros H. do 4 bind_inv H.
  destruct (get_bytes (getElementsByTagName "ByteSequence" internal))
    as [lb [s | e]] eqn:E; simpl in Hm2.
  - rewrite app_nil_r in Hm2. inversion Hm2; subst.
    apply ret_Ok in H. subst. eexists. reflexivity.
  - pose proof (get_bytes_never_IndexError _ _ _ E) as Hne.
    destruct e; try congruence; discriminate Hm2.
Qed.

(** [get_internal] never drops a block. *)
Lemma get_internal_keeps_every_block (internal_signatures : list node) :
  forall acc l sigs,
    for_in internal_signatures get_internal_body acc = (l, Ok sigs) ->
    List.length sigs = List.length acc + List.length internal_signatures.
Proof.
  induction internal_signatures as [|x xs IH]; intros acc l sigs H.
  - apply ret_Ok in H. subst. simpl. lia.
  - simpl in H. bind_inv H.
    apply get_internal_body_appends in Hm as [sig ->].
    rewrite (IH _ _ _ H), length_app. simpl. lia.
Qed.

(** C2. The code keeps an internal signature whose byte sequences were all
    rejected: [get_internal] returns one signature per block, whatever
    [get_bytes] accepted; on the report whose only byte sequence is ["41F"],
    the format is collected with the signature 880 and an empty list of byte
    sequences, and the signature is rendered as an element without byte
    sequences. *)
Theorem signature_without_sequences_is_kept :
  (forall internal_signatures l sigs,
      get_internal internal_signatures = (l, Ok sigs) ->
      List.length sigs = List.length internal_signatures)
  /\ (exists fmt,
      collect_formats [report_41F]
      = ([error "rejecting sig data: '41F' based on length"], Ok [fmt])
      /\ Format.internal_signatures fmt = [empty_signature])
  /\ create_many_to_one_byte_sequence [empty_signature]
     = ret ("<InternalSignature" +++ attribute "ID" "880"
            +++ attribute "Specificity" "Specific" +++ ">"
            +++ nl +++ "    " +++ nl +++ "</InternalSignature>")
  /\ (exists l document,
         process_pronom [report_41F] "2024-09-18T12:46:55Z" = (l, Ok document)
         /\ Py.contains
              ("<InternalSignature" +++ attribute "ID" "880"
               +++ attribute "Specificity" "Specific" +++ ">"
               +++ "    </InternalSignature>") document = true
         /\ Py.contains "<ByteSequence" document = false).
Proof.
  split; [|split; [|split; [reflexivity|]]].
  - intros xs l sigs H. exact (get_internal_keeps_every_block xs [] l sigs H).
  - eexists. split; reflexivity.
  - eexists. eexists. split; [reflexivity|]. split; reflexivity.
Qed.

Lemma get_internal_body_keeps (internal : node) (sig_id sig_name : pystr)
    (l : list LogRecord) (sequences : list ByteSequence.t)
    (internal_sigs : list InternalSignature.t) :
  _get_node_value "SignatureID" internal = ret sig_id ->
  _get_node_value "SignatureName" internal = ret sig_name ->
  (exists note, _get_node_value "SignatureNote" internal = ret note) ->
  get_bytes (getElementsByTagName "ByteSequence" internal) = (l, Ok sequences) ->
  get_internal_body internal internal_sigs
  = (l, Ok (internal_sigs
              ++ [{| InternalSignature.id := sig_id;
                     InternalSignature.name := sig_name;
                     InternalSignature.byte_sequences := sequences |}])).
Proof.
  intros H1 H2 [note H3] H4. unfold get_internal_body.
  rewrite H1, H2, H3, H4, !bind_ret. simpl. rewrite !app_nil_r. reflexivity.
Qed.

(* ------------------------------------------------------------------ *)
(** ** Missing labels *)

Lemma _get_node_value_absent (tag : string) (n : node) :
  getElementsByTagName tag n = [] -> _get_node_value tag n = ret None.
Proof. intros H. unfold _get_node_value. rewrite H. reflexivity. Qed.

(** C5. A label that is absent is read as [None], and the code does not
    always survive that value: a block without [ByteSequenceValue] makes
    [get_bytes], and with it the whole run, raise [TypeError]; a report with
    a signature and without [FormatName] raises [AttributeError]; a
    BOF-anchored block without offsets is extracted with [None] bounds and
    raises [TypeError] when it is encoded. *)
Theorem missing_label_can_fail_the_run :
  (forall tag n, getElementsByTagName tag n = [] -> _get_node_value tag n = ret None)
  /\ (forall n seq_id pos_type min_off max_off endian acc,
         byte_sequence_reads n seq_id pos_type min_off max_off endian None ->
         get_bytes_body n acc = raise TypeError)
  /\ _get_node_value "ByteSequenceValue" block_no_value = ret None
  /\ get_bytes [block_no_value] = raise TypeError
  /\ process_pronom [report_no_value] "2024-09-18T12:46:55Z" = raise TypeError
  /\ _get_node_value "FormatName" report_no_name = ret None
  /\ process_pronom [report_no_name] "2024-09-18T12:46:55Z" = raise AttributeError
  /\ get_bytes [block_no_offsets] = ret [item_no_offsets]
  /\ encoded_sequence item_no_offsets = raise TypeError.
Proof.
  split; [exact _get_node_value_absent|].
  split; [|repeat split].
  intros n seq_id pos_type min_off max_off endian acc
    (H1 & H2 & H3 & H4 & [x5 H5] & [x6 H6] & H7 & H8).
  unfold get_bytes_body. rewrite H1, H2, H3, H4, H5, H6, H7, H8, !bind_ret.
  reflexivity.
Qed.

(* ------------------------------------------------------------------ *)
(** ** Formats without signatures *)




Lemma process_pronom_body_keeps (dom : node) (formats : list Format.t)
    (format_id : pystr) (format_name format_version : string)
    (external_signatures : list ExternalSignature.t) (l : list LogRecord)
    (internal_signatures : list InternalSignature.t)
    (puid mime format_types : pystr) (priorities : list Priority.t) :
  _get_node_value "FormatID" dom = ret format_id ->
  _get_node_value "FormatName" dom = ret (Some format_name) ->
  _get_node_value "FormatVersion" dom = ret (Some format_version) ->
  get_external (getElementsByTagName "ExternalSignature" dom)
  = ret external_signatures ->
  get_internal (getElementsByTagName "InternalSignature" dom)
  = (l, Ok internal_signatures) ->
  get_identifiers (getElementsByTagName "FileFormatIdentifier" dom)
  = ret (puid, mime) ->
  _get_node_value "FormatTypes" dom = ret format_types ->
  get_priorities (getElementsByTagName "RelatedFormat" dom) = ret priorities ->
  external_signatures <> [] \/ internal_signatures <> [] ->
  process_pronom_body dom formats
  = (l, Ok (formats
              ++ [{| Format.id := format_id;
                     Format.name := Py.escape format_name;
                     Format.version := Py.escape format_version;
                     Format.puid := puid;
                     Format.mime := mime;
                     Format.classification := format_types;
                     Format.external_signatures := external_signatures;
                     Format.internal_signatures := internal_signatures;
                     Format.priorities := priorities |}])).
Proof.
  intros H1 H2 H3 H4 H5 H6 H7 H8 Hsigned. unfold process_pronom_body.
  rewrite H1, H2, H3, H4, H5, H6, !bind_ret.
  destruct external_signatures as [|e es];
    [destruct internal_signatures as [|i iss]; [destruct Hsigned; congruence|]|];
    rewrite H7, H8; simpl; rewrite !app_nil_r; reflexivity.
Qed.


Example unsigned_report_is_dropped :
  collect_formats [report_unsigned; report_ai; report_unsigned] = ret [format_ai].
Proof. reflexivity. Qed.

(* ------------------------------------------------------------------ *)
(** ** Priority relations *)

Lemma get_priorities_body_reads (related : node) (r : pystr * pystr)
    (priorities : list Priority.t) :
  relation_reads related r ->
  get_priorities_body related priorities
  = ret (if has_priority_over r then priorities ++ [priority_of r]
         else priorities).
Proof.
  intros [H1 H2]. unfold get_priorities_body, has_priority_over.
  rewrite H1, bind_ret. destruct (Py.eq_str (fst r) priority_over); [|reflexivity].
  destruct (H2 eq_refl) as (H3 & [x H4] & [y H5]).
  rewrite H3, H4, H5, !bind_ret. reflexivity.
Qed.

Lemma get_priorities_loop (relationships : list node) (reads : list (pystr * pystr)) :
  Forall2 relation_reads relationships reads ->
  forall priorities,
    for_in relationships get_priorities_body priorities
    = ret (priorities ++ map priority_of (filter has_priority_over reads)).
Proof.
  induction 1 as [|related r relationships reads Hr _ IH]; intros priorities.
  - simpl. rewrite app_nil_r. reflexivity.
  - simpl. rewrite (get_priorities_body_reads _ _ _ Hr), bind_ret, IH.
    destruct (has_priority_over r); simpl; [rewrite <- app_assoc|]; reflexivity.
Qed.

Lemma has_priority_over_type (r : pystr * pystr) :
  has_priority_over r = true <-> fst r = Some priority_over.
Proof.
  unfold has_priority_over, Py.eq_str. destruct (fst r) as [s|].
  - rewrite String.eqb_eq. split; congruence.
  - split; discriminate.
Qed.

(** C7. A [RelatedFormat] block yields a priority exactly when its
    relationship label is "Has priority over", and no other block reaches
    the output. On blocks whose labels are read, [get_priorities] returns
    the kept blocks in order; a priority is in the result exactly when it
    comes from a block with that label; the format that [process_pronom]
    collects from a report with these blocks has exactly these priorities,
    and its entry ends with one [HasPriorityOverFileFormatID] element per
    kept block, in order, and nothing else before [</FileFormat>]; the
    document holds the entries of the formats, joined in order. *)
Theorem priorities_kept_iff_has_priority_over
    (relationships : list node) (reads : list (pystr * pystr)) :
  Forall2 relation_reads relationships reads ->
  get_priorities relationships
  = ret (map priority_of (filter has_priority_over reads))
  /\ (forall p,
         In p (map priority_of (filter has_priority_over reads))
         <-> exists r, In r reads /\ fst r = Some priority_over /\ p = priority_of r)
  /\ (forall dom formats format_id format_name format_version
             external_signatures l internal_signatures puid mime format_types,
         getElementsByTagName "RelatedFormat" dom = relationships ->
         _get_node_value "FormatID" dom = ret format_id ->
         _get_node_value "FormatName" dom = ret (Some format_name) ->
         _get_node_value "FormatVersion" dom = ret (Some format_version) ->
         get_external (getElementsByTagName "ExternalSignature" dom)
         = ret external_signatures ->
         get_internal (getElementsByTagName "InternalSignature" dom)
         = (l, Ok internal_signatures) ->
         get_identifiers (getElementsByTagName "FileFormatIdentifier" dom)
         = ret (puid, mime) ->
         _get_node_value "FormatTypes" dom = ret format_types ->
         external_signatures <> [] \/ internal_signatures <> [] ->
         exists fmt before,
           process_pronom_body dom formats = (l, Ok (formats ++ [fmt]))
           /\ Format.priorities fmt
              = map priority_of (filter has_priority_over reads)
           /\ create_file_format_collection fmt
              = before +++ nl +++ "    "
                +++ Py.strip
                      (String.concat ""
                         (map (fun r => "<HasPriorityOverFileFormatID>"
                                        +++ Py.fmt (snd r)
                                        +++ "</HasPriorityOverFileFormatID>")
                            (filter has_priority_over reads)))
                +++ nl +++ "</FileFormat>")
  /\ (forall formats now,
         Forall encodes (all_byte_sequences formats) ->
         process_formats_and_save formats now
         = ret (Py.replace "010"%char ""
                  (Py.strip
                     (droid_template now
                        (String.concat "" (internal_signature_groups formats))
                        (String.concat ""
                           (map create_file_format_collection formats)))))).
Proof.
  intros H.
  assert (Hget : get_priorities relationships
                 = ret (map priority_of (filter has_priority_over reads))).
  { unfold get_priorities. rewrite (get_priorities_loop _ _ H). reflexivity. }
  split; [exact Hget|]. split; [|split].
  - intros p. rewrite in_map_iff. split.
    + intros (r & Hp & Hin). apply filter_In in Hin as [Hin Hk].
      exists r. rewrite <- has_priority_over_type. auto.
    + intros (r & Hin & Hk & Hp). exists r. split; [auto|].
      apply filter_In. rewrite has_priority_over_type. auto.
  - intros dom formats format_id format_name format_version external_signatures
      l internal_signatures puid mime format_types Hrel H1 H2 H3 H4 H5 H6 H7 Hs.
    rewrite <- Hrel in Hget.
    eexists. eexists. split; [|split].
    + eapply process_pronom_body_keeps; eauto.
    + reflexivity.
    + rewrite create_file_format_collection_element. unfold file_format_element.
      cbn [Format.priorities Format.id Format.name Format.puid Format.version
           Format.mime Format.internal_signatures Format.external_signatures].
      rewrite map_map. unfold Py.join_empty.
      change (map (fun x => priority_ref (priority_of x)))
        with (map (fun r : pystr * pystr =>
                     "<HasPriorityOverFileFormatID>" +++ Py.fmt (snd r)
                     +++ "</HasPriorityOverFileFormatID>")).
      rewrite <- !append_assoc. reflexivity.
  - intros formats now Hf. rewrite (process_formats_and_save_text formats now Hf).
    reflexivity.
Qed.

Lemma related_sample_reads :
  Forall2 relation_reads related_formats_sample related_reads_sample.
Proof.
  unfold related_formats_sample, related_reads_sample.
  repeat (apply Forall2_cons;
          [split;
           [reflexivity
           |intros H;
            first [ discriminate H
                  | split; [reflexivity | split; eexists; reflexivity] ]]
          |]).
  apply Forall2_nil.
Qed.

Lemma priorities_kept_iff_has_priority_over_witness :
  get_priorities related_formats_sample
  = ret [ {| Priority.type := Some "Has priority over"; Priority.id := Some "86" |};
          {| Priority.type := Some "Has priority over"; Priority.id := Some "331" |} ]
  /\ exists fmt before,
       process_pronom_body report_related [] = ret [fmt]
       /\ Format.priorities fmt
          = [ {| Priority.type := Some "Has priority over"; Priority.id := Some "86" |};
              {| Priority.type := Some "Has priority over"; Priority.id := Some "331" |} ]
       /\ create_file_format_collection fmt
          = before +++ nl
            +++ "    <HasPriorityOverFileFormatID>86</HasPriorityOverFileFormatID><HasPriorityOverFileFormatID>331</HasPriorityOverFileFormatID>"
            +++ nl +++ "</FileFormat>".
Proof.
  pose proof (priorities_kept_iff_has_priority_over related_formats_sample
                related_reads_sample related_sample_reads) as (H1 & _ & H3 & _).
  split; [exact H1|].
  exact (H3 report_related [] (Some "49") "Adobe Illustrator" "1.0"
           [external_of "1" "ai" "File extension"] [] [] (Some "") (Some "")
           (Some "Image (Vector)")
           eq_refl eq_refl eq_refl eq_refl eq_refl eq_refl eq_refl eq_refl
           (or_introl (fun E => nil_cons (eq_sym E)))).
Defined.

(* ------------------------------------------------------------------ *)
(** ** Order of the document *)

(** C8. Assembly keeps the order of its input at every level: when every
    byte sequence can be encoded, the document is [document_text], whose
    file-format entries are the entries of the formats in list order and
    whose groups are those of the formats with internal signatures in list
    order; the group of a format holds the elements of its signatures in
    list order, and the element of a signature holds the elements of its byte
    sequences in list order.  Nothing is sorted and nothing is merged. *)
Theorem assembly_preserves_order (formats : list Format.t) (now : string) :
  Forall encodes (all_byte_sequences formats) ->
  process_formats_and_save formats now = ret (document_text formats now)
  /\ file_format_entries formats = map file_format_element formats
  /\ internal_signature_groups formats
     = map (fun fmt => String.concat internal_signature_sep
                         (map group_of (Format.internal_signatures fmt)))
         (filter has_internal formats)
  /\ (forall fmt,
         In fmt formats ->
         create_many_to_one_byte_sequence (Format.internal_signatures fmt)
         = ret (String.concat internal_signature_sep
                  (map group_of (Format.internal_signatures fmt))))
  /\ (forall fmt sig,
         In fmt formats -> In sig (Format.internal_signatures fmt) ->
         create_one_to_many_byte_sequence (InternalSignature.byte_sequences sig)
         = ret (String.concat byte_sequence_sep
                  (map (fun item => byte_sequence_element item (sequence_of item))
                     (InternalSignature.byte_sequences sig)))).
Proof.
  intros H. split; [exact (process_formats_and_save_text formats now H)|].
  split.
  { unfold file_format_entries. apply map_ext.
    exact create_file_format_collection_element. }
  split; [reflexivity|].
  rewrite Forall_forall in H. split.
  - intros fmt Hf. apply create_many_to_one_byte_sequence_text.
    apply Forall_forall. intros s Hs. apply Forall_forall. intros b Hb.
    apply H. unfold all_byte_sequences. apply in_flat_map. exists fmt.
    split; [exact Hf|]. apply in_flat_map. eauto.
  - intros fmt sig Hf Hs. apply create_one_to_many_byte_sequence_text.
    apply Forall_forall. intros b Hb.
    apply H. unfold all_byte_sequences. apply in_flat_map. exists fmt.
    split; [exact Hf|]. apply in_flat_map. eauto.
Qed.

(* ------------------------------------------------------------------ *)
(** ** Rendering ignores the endianness and the classification *)

Lemma for_in_ext {A S} (body body' : A -> S -> M S) (xs : list A) :
  (forall x acc, In x xs -> body x acc = body' x acc) ->
  forall acc, for_in xs body acc = for_in xs body' acc.
Proof.
  induction xs as [|x xs IH]; intros H acc; simpl; [reflexivity|].
  rewrite (H x acc (or_introl eq_refl)).
  destruct (body' x acc) as [l [a | e]]; simpl; [|reflexivity].
  rewrite IH; [reflexivity|]. intros y b Hy. apply H. right. exact Hy.
Qed.

Lemma for_in_map {A B S} (g : A -> B) (body : B -> S -> M S) (xs : list A) :
  forall acc, for_in (map g xs) body acc = for_in xs (fun x => body (g x)) acc.
Proof.
  induction xs as [|x xs IH]; intros acc; simpl; [reflexivity|].
  destruct (body (g x) acc) as [l [a | e]]; simpl; [|reflexivity].
  rewrite IH. reflexivity.
Qed.

Lemma encoded_sequence_forget (item : ByteSequence.t) :
  encoded_sequence (forget_endian item) = encoded_sequence item.
Proof. reflexivity. Qed.

Lemma create_one_to_many_byte_sequence_forget (items : list ByteSequence.t) :
  create_one_to_many_byte_sequence (map forget_endian items)
  = create_one_to_many_byte_sequence items.
Proof.
  unfold create_one_to_many_byte_sequence. rewrite for_in_map. reflexivity.
Qed.

Lemma create_many_to_one_byte_sequence_forget (sigs : list InternalSignature.t) :
  create_many_to_one_byte_sequence (map forget_endian_sig sigs)
  = create_many_to_one_byte_sequence sigs.
Proof.
  unfold create_many_to_one_byte_sequence. rewrite for_in_map.
  rewrite (for_in_ext _ create_many_to_one_byte_sequence_body); [reflexivity|].
  intros sig acc _. unfold create_many_to_one_byte_sequence_body. simpl.
  rewrite create_one_to_many_byte_sequence_forget. reflexivity.
Qed.

Lemma create_file_format_collection_forget (fmt : Format.t) :
  create_file_format_collection (forget_hidden fmt)
  = create_file_format_collection fmt.
Proof.
  unfold create_file_format_collection. simpl. rewrite map_map. reflexivity.
Qed.

Lemma process_formats_and_save_forget (formats : list Format.t) (now : string) :
  process_formats_and_save (map forget_hidden formats) now
  = process_formats_and_save formats now.
Proof.
  unfold process_formats_and_save. rewrite for_in_map.
  rewrite (for_in_ext _ process_formats_and_save_body); [reflexivity|].
  intros fmt [isc ffc] _. unfold process_formats_and_save_body.
  rewrite create_file_format_collection_forget.
  cbn [Format.internal_signatures forget_hidden].
  pose proof (create_many_to_one_byte_sequence_forget
                (Format.internal_signatures fmt)) as H.
  destruct (Format.internal_signatures fmt) as [|sig sigs]; [reflexivity|].
  cbn [map] in *. rewrite H. reflexivity.
Qed.

(* ------------------------------------------------------------------ *)
(** ** Reading a blanked report *)

Fixpoint node_induction (P : node -> Prop)
    (HD : forall cs, Forall P cs -> P (Document cs))
    (HE : forall t cs, Forall P cs -> P (Element t cs))
    (HC : forall d, P (CharacterData d))
    (n : node) : P n :=
  let fix all (cs : list node) : Forall P cs :=
    match cs with
    | [] => Forall_nil P
    | c :: rest => Forall_cons c (node_induction P HD HE HC c) (all rest)
    end in
  match n with
  | Document cs => HD cs (all cs)
  | Element t cs => HE t cs (all cs)
  | CharacterData d => HC d
  end.

Lemma getElementsByTagName_descend (name : string) (n : node) :
  getElementsByTagName name n = descend name (childNodes n).
Proof.
  assert (H : forall cs,
             (fix over (cs : list node) : list node :=
                match cs with
                | [] => []
                | c :: rest =>
                    (if element_named name c then [c] else [])
                      ++ getElementsByTagName name c ++ over rest
                end) cs = descend name cs).
  { induction cs as [|c cs IH]; [reflexivity|].
    rewrite IH. unfold descend. simpl. rewrite app_assoc. reflexivity. }
  destruct n as [cs | t cs | d]; simpl; [apply H | apply H | reflexivity].
Qed.

Lemma element_named_blank (name : string) (h : bool) (c : node) :
  element_named name (blank_values h c) = element_named name c.
Proof. destruct c; simpl; try reflexivity. destruct h; reflexivity. Qed.

Lemma blank_named_element (name : string) (h : bool) (c : node) :
  element_named name c = true -> blank_values h c = blank_report c.
Proof. destruct c; simpl; try discriminate. reflexivity. Qed.

Lemma getElementsByTagName_blank (name : string) (n : node) :
  forall h,
    getElementsByTagName name (blank_values h n)
    = map blank_report (getElementsByTagName name n).
Proof.
  assert (Hcs : forall cs,
             Forall (fun n => forall h,
                         getElementsByTagName name (blank_values h n)
                         = map blank_report (getElementsByTagName name n)) cs ->
             forall h, descend name (map (blank_values h) cs)
                       = map blank_report (descend name cs)).
  { induction 1 as [|c cs Hc _ IH]; intros h; [reflexivity|].
    unfold descend in *. simpl. rewrite IH, Hc, element_named_blank, !map_app.
    f_equal. destruct (element_named name c) eqn:E; [|reflexivity].
    simpl. rewrite (blank_named_element name h c E). reflexivity. }
  induction n as [cs IH | t cs IH | d] using node_induction; intros h.
  - rewrite !getElementsByTagName_descend. simpl. apply Hcs, IH.
  - rewrite !getElementsByTagName_descend. simpl. apply Hcs, IH.
  - destruct h; reflexivity.
Qed.

Lemma descend_named (name : string) (cs : list node) (e : node) :
  In e (descend name cs) -> element_named name e = true.
Proof.
  assert (H : forall n, In e (getElementsByTagName name n) ->
                        element_named name e = true).
  { induction n as [cs' IH | t cs' IH | d] using node_induction;
      rewrite getElementsByTagName_descend; simpl; try tauto;
      unfold descend; rewrite in_flat_map; intros (c & Hc & Hin);
      rewrite Forall_forall in IH; apply in_app_or in Hin as [Hin | Hin];
      try (apply (IH c Hc Hin));
      destruct (element_named name c) eqn:E; simpl in Hin;
      try tauto; destruct Hin as [<- | []]; exact E. }
  unfold descend. rewrite in_flat_map. intros (c & Hc & Hin).
  apply in_app_or in Hin as [Hin | Hin]; [|exact (H c Hin)].
  destruct (element_named name c) eqn:E; simpl in Hin; [|tauto].
  destruct Hin as [<- | []]. exact E.
Qed.

Lemma getElementsByTagName_named (name : string) (n e : node) :
  In e (getElementsByTagName name n) -> element_named name e = true.
Proof. rewrite getElementsByTagName_descend. apply descend_named. Qed.

(** A label that is not hidden reads the same in the blanked report. *)
Lemma _get_node_value_blank (tag : string) (h : bool) (n : node) :
  hidden_label tag = false -> String.eqb tag "*" = false ->
  _get_node_value tag (blank_values h n) = _get_node_value tag n.
Proof.
  intros Hhid Hstar. rewrite !_get_node_value_cases, getElementsByTagName_blank.
  destruct (getElementsByTagName tag n) as [|e es] eqn:E; [reflexivity|].
  assert (He : element_named tag e = true).
  { apply (getElementsByTagName_named tag n). rewrite E. left. reflexivity. }
  destruct e as [cs | t cs | d]; simpl in He; try discriminate.
  rewrite Hstar in He. simpl in He. apply String.eqb_eq in He. subst t.
  simpl. unfold firstChild. simpl. rewrite Hhid.
  destruct cs as [|c cs]; [reflexivity|]. simpl.
  destruct c; reflexivity.
Qed.

(** Any label is read in the blanked report with the same outcome: a value
    on both sides, or the same exception. *)
Lemma _get_node_value_blank_outcome (tag : string) (h : bool) (n : node) :
  fmap (fun _ => tt) (_get_node_value tag (blank_values h n))
  = fmap (fun _ => tt) (_get_node_value tag n).
Proof.
  rewrite !_get_node_value_cases, getElementsByTagName_blank.
  destruct (getElementsByTagName tag n) as [|e es] eqn:E; [reflexivity|].
  assert (He : element_named tag e = true).
  { apply (getElementsByTagName_named tag n). rewrite E. left. reflexivity. }
  destruct e as [cs | t cs | d]; simpl in He; try discriminate.
  simpl. unfold firstChild. simpl.
  destruct cs as [|c cs]; [reflexivity|]. simpl.
  destruct c; simpl; try reflexivity. destruct (hidden_label t); reflexivity.
Qed.

(* ------------------------------------------------------------------ *)
(** ** Computations that agree up to a function *)

Lemma fmap_bind_rel {A B C T} (g1 : A -> T) (g : B -> C)
    (m m' : M A) (f f' : A -> M B) :
  fmap g1 m = fmap g1 m' ->
  (forall a a', g1 a = g1 a' -> fmap g (f a) = fmap g (f' a')) ->
  fmap g (bind m f) = fmap g (bind m' f').
Proof.
  intros Hm Hf.
  destruct m as [l [a | e]], m' as [l' [a' | e']]; simpl in Hm;
    inversion Hm; subst; simpl; [|reflexivity].
  match goal with H : g1 a = g1 a' |- _ => specialize (Hf a a' H) end.
  destruct (f a) as [l2 [b | e]], (f' a') as [l2' [b' | e']]; simpl in *;
    inversion Hf; subst; reflexivity.
Qed.

Lemma fmap_bind_congr {A B C} (g : B -> C) (m : M A) (f f' : A -> M B) :
  (forall a, fmap g (f a) = fmap g (f' a)) ->
  fmap g (bind m f) = fmap g (bind m f').
Proof.
  intros H. apply (fmap_bind_rel (fun a => a)); [reflexivity|].
  intros a a' <-. apply H.
Qed.

Lemma for_in_rel {A S T} (g : S -> T) (body body' : A -> S -> M S) (xs : list A) :
  (forall x acc acc', g acc = g acc' ->
                      fmap g (body x acc) = fmap g (body' x acc')) ->
  forall acc acc', g acc = g acc' ->
                   fmap g (for_in xs body acc) = fmap g (for_in xs body' acc').
Proof.
  intros Hbody. induction xs as [|x xs IH]; intros acc acc' Hacc; simpl.
  - rewrite Hacc. reflexivity.
  - apply (fmap_bind_rel g); [apply Hbody, Hacc | exact IH].
Qed.

(* ------------------------------------------------------------------ *)
(** ** Extraction from a blanked report *)

Lemma get_bytes_body_blank (n : node) (h : bool) (acc acc' : list ByteSequence.t) :
  map forget_endian acc = map forget_endian acc' ->
  fmap (map forget_endian) (get_bytes_body (blank_values h n) acc)
  = fmap (map forget_endian) (get_bytes_body n acc').
Proof.
  intros Hacc. unfold get_bytes_body.
  rewrite (_get_node_value_blank "ByteSequenceID" h n eq_refl eq_refl),
    (_get_node_value_blank "PositionType" h n eq_refl eq_refl),
    (_get_node_value_blank "Offset" h n eq_refl eq_refl),
    (_get_node_value_blank "MaxOffset" h n eq_refl eq_refl),
    (_get_node_value_blank "IndirectOffsetLocation" h n eq_refl eq_refl),
    (_get_node_value_blank "IndirectOffsetLength" h n eq_refl eq_refl),
    (_get_node_value_blank "ByteSequenceValue" h n eq_refl eq_refl).
  do 6 (apply fmap_bind_congr; intros ?).
  apply (fmap_bind_rel (fun _ => tt)); [apply _get_node_value_blank_outcome|].
  intros endian endian' _.
  do 2 (apply fmap_bind_congr; intros ?).
  match goal with |- context [match ?c with Some _ => _ | None => _ end] =>
    destruct c end; simpl; rewrite ?map_app, Hacc; reflexivity.
Qed.

Lemma get_bytes_blank (byte_sequences : list node) :
  fmap (map forget_endian) (get_bytes (map blank_report byte_sequences))
  = fmap (map forget_endian) (get_bytes byte_sequences).
Proof.
  unfold get_bytes. rewrite for_in_map.
  apply (for_in_rel (map forget_endian)); [|reflexivity].
  intros x acc acc' Hacc. apply get_bytes_body_blank, Hacc.
Qed.

Lemma get_internal_body_blank (n : node) (h : bool)
    (acc acc' : list InternalSignature.t) :
  map forget_endian_sig acc = map forget_endian_sig acc' ->
  fmap (map forget_endian_sig) (get_internal_body (blank_values h n) acc)
  = fmap (map forget_endian_sig) (get_internal_body n acc').
Proof.
  intros Hacc. unfold get_internal_body.
  rewrite (_get_node_value_blank "SignatureID" h n eq_refl eq_refl),
    (_get_node_value_blank "SignatureName" h n eq_refl eq_refl),
    (_get_node_value_blank "SignatureNote" h n eq_refl eq_refl),
    getElementsByTagName_blank.
  do 3 (apply fmap_bind_congr; intros ?).
  apply (fmap_bind_rel (option_map (map forget_endian))).
  - pose proof (get_bytes_blank (getElementsByTagName "ByteSequence" n)) as H.
    destruct (get_bytes (map blank_report (getElementsByTagName "ByteSequence" n)))
      as [l [s | e]],
      (get_bytes (getElementsByTagName "ByteSequence" n)) as [l' [s' | e']];
      simpl in H; inversion H; subst; simpl; rewrite ?app_nil_r.
    + congruence.
    + destruct e'; reflexivity.
  - intros [s|] [s'|] Hs; simpl in Hs; try discriminate; simpl.
    + rewrite !map_app, Hacc. simpl. unfold forget_endian_sig at 2 4. simpl.
      inversion Hs as [Hs']. rewrite Hs'. reflexivity.
    + rewrite Hacc. reflexivity.
Qed.

Lemma get_internal_blank (internal_signatures : list node) :
  fmap (map forget_endian_sig) (get_internal (map blank_report internal_signatures))
  = fmap (map forget_endian_sig) (get_internal internal_signatures).
Proof.
  unfold get_internal. rewrite for_in_map.
  apply (for_in_rel (map forget_endian_sig)); [|reflexivity].
  intros x acc acc' Hacc. apply get_internal_body_blank, Hacc.
Qed.

Lemma get_external_blank (external_identifiers : list node) :
  get_external (map blank_report external_identifiers)
  = get_external external_identifiers.
Proof.
  unfold get_external. rewrite for_in_map. apply for_in_ext.
  intros x acc _. unfold get_external_body, blank_report.
  rewrite (_get_node_value_blank "ExternalSignatureID" false x eq_refl eq_refl),
    (_get_node_value_blank "Signature" false x eq_refl eq_refl),
    (_get_node_value_blank "SignatureType" false x eq_refl eq_refl).
  reflexivity.
Qed.

Lemma get_identifiers_blank (identifiers : list node) :
  get_identifiers (map blank_report identifiers) = get_identifiers identifiers.
Proof.
  unfold get_identifiers. rewrite for_in_map. apply for_in_ext.
  intros x [puid mime] _. unfold get_identifiers_body, blank_report.
  rewrite (_get_node_value_blank "Identifier" false x eq_refl eq_refl),
    (_get_node_value_blank "IdentifierType" false x eq_refl eq_refl).
  reflexivity.
Qed.

Lemma get_priorities_blank (relationships : list node) :
  get_priorities (map blank_report relationships) = get_priorities relationships.
Proof.
  unfold get_priorities. rewrite for_in_map. apply for_in_ext.
  intros x acc _. unfold get_priorities_body, blank_report.
  rewrite (_get_node_value_blank "RelationshipType" false x eq_refl eq_refl),
    (_get_node_value_blank "RelatedFormatID" false x eq_refl eq_refl),
    (_get_node_value_blank "RelatedFormatName" false x eq_refl eq_refl),
    (_get_node_value_blank "RelatedFormatVersion" false x eq_refl eq_refl).
  reflexivity.
Qed.

Lemma process_pronom_body_blank (dom : node) (h : bool) (acc acc' : list Format.t) :
  map forget_hidden acc = map forget_hidden acc' ->
  fmap (map forget_hidden) (process_pronom_body (blank_values h dom) acc)
  = fmap (map forget_hidden) (process_pronom_body dom acc').
Proof.
  intros Hacc. unfold process_pronom_body.
  rewrite (_get_node_value_blank "FormatID" h dom eq_refl eq_refl),
    (_get_node_value_blank "FormatName" h dom eq_refl eq_refl),
    (_get_node_value_blank "FormatVersion" h dom eq_refl eq_refl),
    !getElementsByTagName_blank,
    get_external_blank, get_identifiers_blank, get_priorities_blank.
  do 4 (apply fmap_bind_congr; intros ?).
  apply (fmap_bind_rel (map forget_endian_sig)); [apply get_internal_blank|].
  intros int int' Hint.
  apply fmap_bind_congr. intros [puid mime].
  assert (Hkeep :
    forall ext,
      fmap (map forget_hidden)
        (format_types <- _get_node_value "FormatTypes" (blank_values h dom) ;;
         priorities <- get_priorities (getElementsByTagName "RelatedFormat" dom) ;;
         name <- escape a0 ;;
         version <- escape a1 ;;
         ret (acc ++ [{| Format.id := a;
                         Format.name := name;
                         Format.version := version;
                         Format.puid := puid;
                         Format.mime := mime;
                         Format.classification := format_types;
                         Format.external_signatures := ext;
                         Format.internal_signatures := int;
                         Format.priorities := priorities |}]))
      = fmap (map forget_hidden)
          (format_types <- _get_node_value "FormatTypes" dom ;;
           priorities <- get_priorities (getElementsByTagName "RelatedFormat" dom) ;;
           name <- escape a0 ;;
           version <- escape a1 ;;
           ret (acc' ++ [{| Format.id := a;
                            Format.name := name;
                            Format.version := version;
                            Format.puid := puid;
                            Format.mime := mime;
                            Format.classification := format_types;
                            Format.external_signatures := ext;
                            Format.internal_signatures := int';
                            Format.priorities := priorities |}]))).
  { intros ext.
    apply (fmap_bind_rel (fun _ => tt)); [apply _get_node_value_blank_outcome|].
    intros types types' _.
    do 3 (apply fmap_bind_congr; intros ?).
    simpl. rewrite !map_app, Hacc. unfold forget_hidden at 2 4. simpl.
    rewrite Hint. reflexivity. }
  destruct a2 as [|e es].
  - destruct int as [|i iss], int' as [|i' iss']; try discriminate Hint.
    + simpl. rewrite Hacc. reflexivity.
    + apply Hkeep.
  - apply Hkeep.
Qed.

Lemma collect_formats_blank (report_list : list node) :
  fmap (map forget_hidden) (collect_formats (map blank_report report_list))
  = fmap (map forget_hidden) (collect_formats report_list).
Proof.
  unfold collect_formats. rewrite for_in_map.
  apply (for_in_rel (map forget_hidden)); [|reflexivity].
  intros x acc acc' Hacc. apply process_pronom_body_blank, Hacc.
Qed.

Lemma process_pronom_collected (report_list report_list' : list node) (now : string) :
  List.length report_list = List.length report_list' ->
  fmap (map forget_hidden) (collect_formats report_list)
  = fmap (map forget_hidden) (collect_formats report_list') ->
  process_pronom report_list now = process_pronom report_list' now.
Proof.
  intros Hlen H. unfold process_pronom. rewrite Hlen.
  destruct (collect_formats report_list) as [l [fs | e]],
    (collect_formats report_list') as [l' [fs' | e']];
    simpl in H; inversion H as [[Hl Hfs]]; subst; [|reflexivity].
  assert (Hn : List.length fs = List.length fs').
  { rewrite <- (length_map forget_hidden fs), Hfs. apply length_map. }
  assert (Htail : process_formats_and_save fs now
                  = process_formats_and_save fs' now).
  { rewrite <- (process_formats_and_save_forget fs),
      <- (process_formats_and_save_forget fs'), Hfs. reflexivity. }
  unfold bind. rewrite Hn, Htail. reflexivity.
Qed.

(** The document does not depend on the character data of the
    [Endianness] and [FormatTypes] elements: two lists of reports that are equal once the
    character data of these elements is blanked give the same result of
    [process_pronom], the same document, the same log and the same
    exception if one escapes; and assembling records that differ only in
    their endianness and classification fields gives the same document. *)
Theorem document_ignores_endianness_and_format_types
    (report_list report_list' : list node) (now : string) :
  map blank_report report_list = map blank_report report_list' ->
  process_pronom report_list now = process_pronom report_list' now
  /\ (forall formats,
         process_formats_and_save (map forget_hidden formats) now
         = process_formats_and_save formats now).
Proof.
  intros H. split; [|intros; apply process_formats_and_save_forget].
  apply process_pronom_collected.
  - rewrite <- (length_map blank_report report_list), H. apply length_map.
  - rewrite <- collect_formats_blank, H. apply collect_formats_blank.
Qed.

(* ------------------------------------------------------------------ *)
(** ** The properties on sample inputs *)

Lemma assembly_preserves_order_witness :
  Forall encodes (all_byte_sequences formats_sample)
  /\ process_formats_and_save formats_sample "2024-09-18T12:46:55Z"
     = ret (document_text formats_sample "2024-09-18T12:46:55Z")
  /\ file_format_entries formats_sample
     = [file_format_element format_signed; file_format_element format_ai;
        file_format_element format_signed]
  /\ internal_signature_groups formats_sample
     = [String.concat internal_signature_sep
          [group_of signature_881; group_of signature_880; group_of signature_881];
        String.concat internal_signature_sep
          [group_of signature_881; group_of signature_880; group_of signature_881]].
Proof.
  assert (H : Forall encodes (all_byte_sequences formats_sample))
    by (repeat constructor).
  destruct (assembly_preserves_order formats_sample "2024-09-18T12:46:55Z" H)
    as (H1 & H2 & H3 & _).
  split; [exact H|]. split; [exact H1|]. split; [exact H2 | exact H3].
Defined.

Lemma document_ignores_endianness_and_format_types_witness :
  map blank_report [report_little] = map blank_report [report_big]
  /\ process_pronom [report_little] "2024-09-18T12:46:55Z"
     = process_pronom [report_big] "2024-09-18T12:46:55Z".
Proof.
  split; [reflexivity|].
  exact (proj1 (document_ignores_endianness_and_format_types
                  [report_little] [report_big] "2024-09-18T12:46:55Z" eq_refl)).
Defined.

Example reports_differ :
  report_little <> report_big
  /\ fmap (map Format.classification) (collect_formats [report_little])
     = ret [Some "Image (Vector)"]
  /\ fmap (map Format.classification) (collect_formats [report_big])
     = ret [Some "Text (Structured)"].
Proof. split; [discriminate|]. split; reflexivity. Qed.

Example end_to_end :
  process_pronom [report_dev; report_ext] "2024-09-18T12:46:55Z"
  = ([ {| levelname := INFO; message := "number of reports: 1" |};
       {| levelname := INFO;
          message := "number of formats processed for the signature file: 2" |} ],
     Ok document_dev_ext).
Proof. reflexivity. Qed.

Example strip_demo : Py.strip ("  4f 53 " +++ nl) = "4f 53".
Proof. reflexivity. Qed.

Example int_demo :
  Py.int " 010 " = Some 10%Z /\ Py.int "1_000" = Some 1000%Z
  /\ Py.int "-7" = Some (-7)%Z /\ Py.int "" = None /\ Py.int "1__0" = None
  /\ Py.int "12a" = None.
Proof. repeat split. Qed.

Example str_of_int_demo : Py.str_of_int 15 = "15" /\ Py.str_of_int (-3) = "-3".
Proof. split; reflexivity. Qed.

Example escape_demo : Py.escape "[&01]<>" = "[&amp;01]&lt;&gt;".
Proof. reflexivity. Qed.

Example pre_process_signature_demo : pre_process_signature " 4f 53 2f " = "4F532F".
Proof. reflexivity. Qed.

(* ------------------------------------------------------------------ *)
(** ** Identifiers and external signatures *)

Lemma get_identifiers_body_reads (identifier : node) (r : pystr * pystr)
    (puid mime : pystr) :
  identifier_reads identifier r ->
  get_identifiers_body identifier (puid, mime)
  = ret (if Py.eq_str (snd r) "PUID" then fst r else puid,
         if Py.eq_str (snd r) "MIME" then fst r else mime).
Proof.
  intros [H1 H2]. unfold get_identifiers_body. rewrite H1, H2, !bind_ret.
  reflexivity.
Qed.

Lemma get_identifiers_loop (identifiers : list node) (reads : list (pystr * pystr)) :
  Forall2 identifier_reads identifiers reads ->
  forall puid mime,
    for_in identifiers get_identifiers_body (puid, mime)
    = ret (last_of_type "PUID" puid reads, last_of_type "MIME" mime reads).
Proof.
  induction 1 as [|identifier r identifiers reads Hr _ IH]; intros puid mime.
  - reflexivity.
  - cbn [for_in]. rewrite (get_identifiers_body_reads _ _ _ _ Hr), bind_ret.
    apply IH.
Qed.

Lemma last_of_type_absent (type : string) (default : pystr)
    (reads : list (pystr * pystr)) :
  Forall (fun r => Py.eq_str (snd r) type = false) reads ->
  last_of_type type default reads = default.
Proof.
  intros H. revert default. induction H as [|r reads Hr _ IH]; intros default.
  - reflexivity.
  - simpl. rewrite Hr. apply IH.
Qed.

Lemma last_of_type_app (type : string) (default : pystr)
    (front back : list (pystr * pystr)) (r : pystr * pystr) :
  Py.eq_str (snd r) type = true ->
  Forall (fun r => Py.eq_str (snd r) type = false) back ->
  last_of_type type default (front ++ r :: back) = fst r.
Proof.
  intros Hr Hback. revert default.
  induction front as [|x front IH]; intros default; simpl.
  - rewrite Hr. apply last_of_type_absent, Hback.
  - apply IH.
Qed.

(** X1. [get_identifiers] keeps, for each of the types PUID and MIME, the
    value of the last identifier block of that type, whatever stands before
    it, and the empty string when no block has the type; blocks of other
    types change nothing. *)
Theorem get_identifiers_last_wins
    (identifiers : list node) (reads : list (pystr * pystr)) :
  Forall2 identifier_reads identifiers reads ->
  get_identifiers identifiers
  = ret (last_of_type "PUID" (Some "") reads, last_of_type "MIME" (Some "") reads)
  /\ (forall type default front back r,
         reads = front ++ r :: back ->
         Py.eq_str (snd r) type = true ->
         Forall (fun r => Py.eq_str (snd r) type = false) back ->
         last_of_type type default reads = fst r)
  /\ (forall type default,
         Forall (fun r => Py.eq_str (snd r) type = false) reads ->
         last_of_type type default reads = default).
Proof.
  intros H. split; [|split].
  - unfold get_identifiers. apply get_identifiers_loop, H.
  - intros type default front back r -> Hr Hback.
    apply last_of_type_app; assumption.
  - intros type default. apply last_of_type_absent.
Qed.

Lemma mime_without_value_are_read :
  Forall2 identifier_reads mime_without_value mime_without_value_reads.
Proof. repeat (constructor; [split; reflexivity|]). constructor. Qed.

Lemma get_identifiers_last_wins_witness :
  get_identifiers mime_without_value = ret (Some "fmt/19", None).
Proof.
  exact (proj1 (get_identifiers_last_wins mime_without_value
                  mime_without_value_reads mime_without_value_are_read)).
Defined.

Lemma get_external_loop (external_identifiers : list node)
    (sigs : list ExternalSignature.t) :
  Forall2 external_reads external_identifiers sigs ->
  forall acc, for_in external_identifiers get_external_body acc = ret (acc ++ sigs).
Proof.
  induction 1 as [|external sig externals sigs (H1 & H2 & H3) _ IH]; intros acc.
  - simpl. rewrite app_nil_r. reflexivity.
  - cbn [for_in]. unfold get_external_body at 1.
    rewrite H1, H2, H3, !bind_ret, IH.
    destruct sig. simpl. rewrite <- app_assoc. reflexivity.
Qed.

(** X2. [get_external] returns one record per [ExternalSignature] block, in
    block order, of whatever type and without removing repeats: no block is
    dropped and none is merged, and the call logs nothing. *)
Theorem get_external_keeps_every_block
    (external_identifiers : list node) (sigs : list ExternalSignature.t) :
  Forall2 external_reads external_identifiers sigs ->
  get_external external_identifiers = ret sigs
  /\ List.length sigs = List.length external_identifiers.
Proof.
  intros H. split.
  - unfold get_external. apply (get_external_loop _ _ H []).
  - symmetry. eapply Forall2_length, H.
Qed.

Lemma externals_sample_read :
  Forall2 external_reads externals_sample
    [ external_of "1" "ai" "File extension"; external_of "2" "Adobe" "Other";
      external_of "1" "ai" "File extension" ].
Proof. repeat (constructor; [repeat split|]). constructor. Qed.

Lemma get_external_keeps_every_block_witness :
  get_external externals_sample
  = ret [ external_of "1" "ai" "File extension"; external_of "2" "Adobe" "Other";
          external_of "1" "ai" "File extension" ].
Proof.
  exact (proj1 (get_external_keeps_every_block externals_sample _
                  externals_sample_read)).
Defined.

(* ------------------------------------------------------------------ *)
(** ** Trimmed values *)

Lemma lstrip_shape (s : string) :
  Py.lstrip s = "" \/ starts_tight (Py.lstrip s) = true.
Proof.
  induction s as [|c s IH]; simpl; [left; reflexivity|].
  destruct (Py.isspace c) eqn:E; [exact IH|]. right. simpl. rewrite E. reflexivity.
Qed.

Lemma rstrip_shape (s : string) :
  Py.rstrip s = "" \/ ends_tight (Py.rstrip s) = true.
Proof.
  induction s as [|c s IH]; simpl; [left; reflexivity|].
  destruct (Py.rstrip s) as [|d r] eqn:E.
  - destruct (Py.isspace c) eqn:Ec; [left; reflexivity|].
    right. simpl. rewrite Ec. reflexivity.
  - right. destruct IH as [IH | IH]; [discriminate|]. exact IH.
Qed.

Lemma rstrip_starts_tight (s : string) :
  starts_tight s = true -> starts_tight (Py.rstrip s) = true.
Proof.
  destruct s as [|c s]; simpl; [discriminate|]. intros H.
  destruct (Py.rstrip s); [|exact H].
  apply negb_true_iff in H. rewrite H. simpl. rewrite H. reflexivity.
Qed.

Lemma strip_shape (s : string) : Py.strip s = "" \/ tight (Py.strip s) = true.
Proof.
  unfold Py.strip. destruct (lstrip_shape s) as [E | E].
  - rewrite E. left. reflexivity.
  - pose proof (rstrip_starts_tight _ E) as Hs.
    destruct (rstrip_shape (Py.lstrip s)) as [E' | E'].
    + rewrite E' in Hs. discriminate.
    + right. unfold tight. rewrite Hs, E'. reflexivity.
Qed.

Lemma strip_idempotent (s : string) : Py.strip (Py.strip s) = Py.strip s.
Proof.
  destruct (strip_shape s) as [E | E].
  - rewrite E. reflexivity.
  - apply strip_tight, E.
Qed.

Lemma _get_node_value_quiet (tag : string) (n : node) : quiet (_get_node_value tag n).
Proof.
  unfold quiet. rewrite _get_node_value_cases.
  destruct (getElementsByTagName tag n) as [|e es]; [reflexivity|].
  destruct (firstChild e) as [c|]; [|reflexivity].
  destruct (nodeValue c); reflexivity.
Qed.

Lemma _get_node_value_Some (tag : string) (n : node) (l : list LogRecord) (v : string) :
  _get_node_value tag n = (l, Ok (Some v)) ->
  exists e rest c d,
    getElementsByTagName tag n = e :: rest
    /\ childNodes e = CharacterData d :: c
    /\ v = Py.strip d.
Proof.
  rewrite _get_node_value_cases.
  destruct (getElementsByTagName tag n) as [|e es]; [discriminate|].
  unfold firstChild. destruct (childNodes e) as [|c cs] eqn:E; [discriminate|].
  destruct c as [? | ? ? | d]; simpl; try discriminate.
  intros H. inversion H. exists e, es, cs, d. auto.
Qed.

(** X3. A value read by [_get_node_value] is the stripped character data
    that starts the first element of the tag in document order: it has no
    white space at either end, stripping it again changes nothing, and
    reading never logs and raises nothing but [AttributeError]. *)
Theorem label_values_are_trimmed (tag : string) (n : node) (v : string) :
  _get_node_value tag n = ret (Some v) ->
  (exists e rest c d,
      getElementsByTagName tag n = e :: rest
      /\ childNodes e = CharacterData d :: c
      /\ v = Py.strip d)
  /\ Py.strip v = v
  /\ (v = "" \/ tight v = true)
  /\ quiet (_get_node_value tag n)
  /\ raises_only (fun e => e = AttributeError) (_get_node_value tag n).
Proof.
  intros H. pose proof (_get_node_value_Some _ _ _ _ H) as Hv.
  split; [exact Hv|]. destruct Hv as (e & rest & c & d & _ & _ & ->).
  split; [apply strip_idempotent|]. split; [apply strip_shape|].
  split; [apply _get_node_value_quiet|].
  intros l e' He. eapply _get_node_value_raises, He.
Qed.

Lemma label_values_are_trimmed_witness :
  Py.strip "Absolute from BOF" = "Absolute from BOF".
Proof.
  exact (proj1 (proj2 (label_values_are_trimmed "PositionType"
                         (byte_sequence_block "1" ("  Absolute from BOF" +++ nl)
                            "0" nl nl "41FA")
                         "Absolute from BOF" eq_refl))).
Defined.

(* ------------------------------------------------------------------ *)
(** ** The normal form of a value *)

Lemma upper_char_facts (c : ascii) :
  Py.isspace (Py.upper_char c) = Py.isspace c
  /\ Py.upper_char (Py.upper_char c) = Py.upper_char c
  /\ Ascii.eqb (Py.upper_char c) " " = Ascii.eqb c " "
  /\ is_lower (Py.upper_char c) = false.
Proof. destruct c as [[] [] [] [] [] [] [] []]; vm_compute; repeat split. Qed.

Lemma space_isspace (c : ascii) : Ascii.eqb c " " = true -> Py.isspace c = true.
Proof. intros H. apply Ascii.eqb_eq in H. subst. reflexivity. Qed.

Lemma upper_idempotent (s : string) : Py.upper (Py.upper s) = Py.upper s.
Proof.
  induction s as [|c s IH]; simpl; [reflexivity|].
  destruct (upper_char_facts c) as (_ & -> & _). rewrite IH. reflexivity.
Qed.

Lemma upper_replace_space (s : string) :
  Py.upper (Py.replace " " "" s) = Py.replace " " "" (Py.upper s).
Proof.
  induction s as [|c s IH]; simpl; [reflexivity|].
  destruct (upper_char_facts c) as (_ & _ & -> & _).
  destruct (Ascii.eqb c " "); simpl; rewrite IH; reflexivity.
Qed.

Lemma replace_empty_no_char (c : ascii) (s : string) :
  no_char c (Py.replace c "" s) = true.
Proof.
  unfold no_char. apply negb_true_iff.
  induction s as [|x s IH]; simpl; [reflexivity|].
  destruct (Ascii.eqb x c) eqn:E; simpl; [exact IH|].
  rewrite Ascii.eqb_sym, E. exact IH.
Qed.

Lemma replace_space_no_space (s : string) :
  no_char " " (Py.replace " " "" s) = true.
Proof. apply replace_empty_no_char. Qed.

Lemma replace_absent (c : ascii) (new s : string) :
  no_char c s = true -> Py.replace c new s = s.
Proof.
  unfold no_char. rewrite negb_true_iff.
  induction s as [|x s IH]; simpl; [reflexivity|].
  intros H. apply orb_false_iff in H as [Hx Hs].
  rewrite Ascii.eqb_sym, Hx, (IH Hs). reflexivity.
Qed.

Lemma upper_tight (s : string) : tight s = true -> tight (Py.upper s) = true.
Proof.
  intros H. apply tight_inv in H as [H1 H2]. unfold tight.
  apply andb_true_iff. split.
  - destruct s as [|c s]; [discriminate|]. simpl in *.
    destruct (upper_char_facts c) as (-> & _). exact H1.
  - clear H1. induction s as [|c s IH]; [discriminate|].
    destruct s as [|d s].
    + simpl in *. destruct (upper_char_facts c) as (-> & _). exact H2.
    + change (ends_tight (Py.upper (String d s)) = true). apply IH. exact H2.
Qed.

Lemma replace_space_tight (s : string) :
  tight s = true -> tight (Py.replace " " "" s) = true.
Proof.
  intros H. apply tight_inv in H as [H1 H2]. unfold tight.
  apply andb_true_iff. split.
  - destruct s as [|c s]; [discriminate|]. simpl in *.
    destruct (Ascii.eqb c " ") eqn:E.
    + apply space_isspace in E. rewrite E in H1. discriminate.
    + exact H1.
  - clear H1. induction s as [|c s IH]; [discriminate|].
    destruct s as [|d s].
    + simpl in *. destruct (Ascii.eqb c " ") eqn:E.
      * apply space_isspace in E. rewrite E in H2. discriminate.
      * exact H2.
    + specialize (IH H2).
      change (Py.replace " " "" (String c (String d s)))
        with (if Ascii.eqb c " " then "" +++ Py.replace " " "" (String d s)
              else String c (Py.replace " " "" (String d s))).
      destruct (Ascii.eqb c " "); [exact IH|].
      destruct (Py.replace " " "" (String d s)); [discriminate | exact IH].
Qed.

Lemma pre_process_signature_shape (item : string) :
  pre_process_signature item = "" \/ tight (pre_process_signature item) = true.
Proof.
  unfold pre_process_signature. destruct (strip_shape item) as [E | E].
  - rewrite E. left. reflexivity.
  - right. apply replace_space_tight, upper_tight, E.
Qed.

Lemma upper_no_lower (s : string) : any_char is_lower (Py.upper s) = false.
Proof.
  induction s as [|c s IH]; simpl; [reflexivity|].
  destruct (upper_char_facts c) as (_ & _ & _ & ->). exact IH.
Qed.

Lemma replace_empty_keeps (p : ascii -> bool) (c : ascii) (s : string) :
  any_char p s = false -> any_char p (Py.replace c "" s) = false.
Proof.
  induction s as [|x s IH]; simpl; [auto|].
  intros H. apply orb_false_iff in H as [Hx Hs].
  destruct (Ascii.eqb x c); simpl; [|rewrite Hx]; auto.
Qed.

(** X4. The normal form of [pre_process_signature] is a fixed point: it has
    no space and no lower-case ASCII letter, no white space at either end,
    and normalising it again changes nothing. *)
Theorem pre_process_signature_idempotent (item : string) :
  pre_process_signature (pre_process_signature item) = pre_process_signature item
  /\ no_char " " (pre_process_signature item) = true
  /\ any_char is_lower (pre_process_signature item) = false
  /\ Py.strip (pre_process_signature item) = pre_process_signature item.
Proof.
  assert (Hstrip : Py.strip (pre_process_signature item) = pre_process_signature item).
  { destruct (pre_process_signature_shape item) as [E | E].
    - rewrite E. reflexivity.
    - apply strip_tight, E. }
  split; [|split; [|split; [|exact Hstrip]]].
  - unfold pre_process_signature at 1. rewrite Hstrip.
    unfold pre_process_signature.
    rewrite upper_replace_space, upper_idempotent.
    apply replace_absent, replace_space_no_space.
  - apply replace_space_no_space.
  - apply replace_empty_keeps, upper_no_lower.
Qed.

(* ------------------------------------------------------------------ *)
(** ** What [get_bytes] returns *)

Lemma _get_node_value_Ok (tag : string) (n : node) (l : list LogRecord) (a : pystr) :
  _get_node_value tag n = (l, Ok a) -> _get_node_value tag n = ret a.
Proof.
  intros H. pose proof (_get_node_value_quiet tag n) as Hq.
  unfold quiet in Hq. rewrite H in Hq. simpl in Hq. subst l. exact H.
Qed.

Lemma get_bytes_body_Ok (n : node) (acc acc' : list ByteSequence.t)
    (l : list LogRecord) :
  get_bytes_body n acc = (l, Ok acc') ->
  exists seq_id pos_type min_off max_off endian seq_value,
    byte_sequence_reads n seq_id pos_type min_off max_off endian (Some seq_value)
    /\ l = validation_log seq_value
    /\ acc' = if length_rejects seq_value then acc
              else acc ++ [accepted_item seq_id pos_type min_off max_off endian
                             seq_value].
Proof.
  intros H. pose proof H as H0. unfold get_bytes_body in H.
  do 9 bind_inv H.
  repeat match goal with
         | Hm : _get_node_value _ _ = (_, Ok _) |- _ =>
             apply _get_node_value_Ok in Hm
         end.
  destruct a6 as [v|]; [|discriminate].
  assert (Hreads : byte_sequence_reads n a a0 a1 a2 a5 (Some v)).
  { unfold byte_sequence_reads. repeat split; eauto. }
  exists a, a0, a1, a2, a5, v. split; [exact Hreads|].
  rewrite (get_bytes_body_reads _ _ _ _ _ _ _ acc Hreads) in H0.
  inversion H0. auto.
Qed.

Lemma any_char_app (p : ascii -> bool) (a b : string) :
  any_char p (a +++ b) = any_char p a || any_char p b.
Proof.
  induction a as [|c a IH]; simpl; [reflexivity|].
  rewrite IH, orb_assoc. reflexivity.
Qed.

Lemma replace_keeps_absent (p : ascii -> bool) (c : ascii) (new s : string) :
  any_char p new = false -> any_char p s = false ->
  any_char p (Py.replace c new s) = false.
Proof.
  intros Hnew. induction s as [|x s IH]; simpl; [auto|].
  intros H. apply orb_false_iff in H as [Hx Hs].
  destruct (Ascii.eqb x c).
  - rewrite any_char_app, Hnew, (IH Hs). reflexivity.
  - simpl. rewrite Hx, (IH Hs). reflexivity.
Qed.

Lemma escape_keeps_absent (p : ascii -> bool) (s : string) :
  any_char p "&amp;" = false -> any_char p "&gt;" = false ->
  any_char p "&lt;" = false -> any_char p s = false ->
  any_char p (Py.escape s) = false.
Proof.
  intros H1 H2 H3 Hs. unfold Py.escape.
  repeat apply replace_keeps_absent; assumption.
Qed.

Lemma stored_value_no_space (seq_value : string) :
  no_char " " (stored_value seq_value) = true.
Proof.
  unfold stored_value.
  pose proof (replace_space_no_space (Py.upper (Py.strip seq_value))) as H.
  fold (pre_process_signature seq_value) in H.
  destruct (Py.contains "&" (pre_process_signature seq_value)); [|exact H].
  unfold no_char in *. apply negb_true_iff. apply negb_true_iff in H.
  apply escape_keeps_absent; try reflexivity. exact H.
Qed.

Lemma canonical_anchor_cases (pos_type : pystr) :
  canonical_anchor pos_type = BOF /\ pos_type = Some BOF_XML
  \/ canonical_anchor pos_type = EOF /\ pos_type = Some EOF_XML
  \/ canonical_anchor pos_type = ""
     /\ pos_type <> Some BOF_XML /\ pos_type <> Some EOF_XML.
Proof.
  unfold canonical_anchor, Py.eq_str. destruct pos_type as [s|].
  - destruct (String.eqb s BOF_XML) eqn:E1.
    + apply String.eqb_eq in E1. subst. left. auto.
    + destruct (String.eqb s EOF_XML) eqn:E2.
      * apply String.eqb_eq in E2. subst. right. left. auto.
      * apply String.eqb_neq in E1, E2. right. right.
        repeat split; congruence.
  - right. right. repeat split; discriminate.
Qed.

(** X5. Every record that [get_bytes] returns has one of the three anchor
    tags, "BOFoffset" only for the position type "Absolute from BOF" and
    "EOFoffset" only for "Absolute from EOF"; its value has no space; and a
    record with the empty anchor is encoded as its bare value, whatever its
    bounds are. *)
Theorem get_bytes_records_are_canonical
    (byte_sequences : list node) (l : list LogRecord) (seqs : list ByteSequence.t) :
  get_bytes byte_sequences = (l, Ok seqs) ->
  Forall (fun item =>
            (ByteSequence.pos item = BOF \/ ByteSequence.pos item = EOF
             \/ ByteSequence.pos item = "")
            /\ no_char " " (ByteSequence.value item) = true
            /\ (ByteSequence.pos item = "" ->
                encoded_sequence item = ret (ByteSequence.value item)))
    seqs.
Proof.
  unfold get_bytes. intros H.
  eapply (for_in_invariant (Forall _)); [| |exact H]; [|constructor].
  intros n acc l' acc' Hacc Hb.
  apply get_bytes_body_Ok in Hb
    as (seq_id & pos_type & lo & hi & endian & v & _ & _ & ->).
  destruct (length_rejects v); [exact Hacc|].
  apply Forall_app. split; [exact Hacc|]. constructor; [|constructor].
  split; [|split].
  - simpl. destruct (canonical_anchor_cases pos_type) as [[-> _] | [[-> _] | [-> _]]];
      auto.
  - apply stored_value_no_space.
  - simpl. intros Hp. unfold encoded_sequence. simpl. rewrite Hp. reflexivity.
Qed.

Lemma get_bytes_records_are_canonical_witness :
  Forall (fun item =>
            (ByteSequence.pos item = BOF \/ ByteSequence.pos item = EOF
             \/ ByteSequence.pos item = "")
            /\ no_char " " (ByteSequence.value item) = true
            /\ (ByteSequence.pos item = "" ->
                encoded_sequence item = ret (ByteSequence.value item)))
    blocks_mixed_records.
Proof.
  exact (get_bytes_records_are_canonical blocks_mixed blocks_mixed_log
           blocks_mixed_records eq_refl).
Defined.

Lemma startswith_app (p x : string) : Py.startswith (p +++ x) p = true.
Proof.
  induction p as [|c p IH]; simpl; [destruct x; reflexivity|].
  rewrite Ascii.eqb_refl, IH. reflexivity.
Qed.

Lemma filter_rejections (seq_value : string) :
  List.length (filter is_rejection (validation_log seq_value))
  = if length_rejects seq_value then 1 else 0.
Proof.
  assert (Hrej : is_rejection
                   (error ("rejecting sig data: '" +++ seq_value
                           +++ "' based on length")) = true)
    by apply startswith_app.
  unfold validation_log.
  destruct (fullmatch_PRONOM_REGEX_ALLOWED seq_value);
    destruct (length_rejects seq_value); cbn [app filter];
    rewrite ?Hrej; try reflexivity;
    destruct (Py.contains "&" (pre_process_signature seq_value)); reflexivity.
Qed.

Lemma get_bytes_accounts (byte_sequences : list node) :
  forall acc l seqs,
    for_in byte_sequences get_bytes_body acc = (l, Ok seqs) ->
    List.length seqs + List.length (filter is_rejection l)
    = List.length acc + List.length byte_sequences.
Proof.
  induction byte_sequences as [|n ns IH]; intros acc l seqs H.
  - inversion H. simpl. lia.
  - cbn [for_in] in H. bind_inv H. subst l.
    apply get_bytes_body_Ok in Hm
      as (seq_id & pos_type & lo & hi & endian & v & _ & -> & ->).
    rewrite filter_app, length_app, filter_rejections, (Nat.add_comm _ (List.length _)).
    rewrite Nat.add_assoc, (IH _ _ _ H).
    destruct (length_rejects v); [|rewrite length_app]; simpl; lia.
Qed.

(** X6. No byte sequence is dropped in silence: when [get_bytes] returns,
    the records it returns and the "rejecting sig data" errors it logged
    add up to the number of blocks it was given, and the records are never
    more than the blocks. *)
Theorem get_bytes_logs_every_drop
    (byte_sequences : list node) (l : list LogRecord) (seqs : list ByteSequence.t) :
  get_bytes byte_sequences = (l, Ok seqs) ->
  List.length seqs + List.length (filter is_rejection l)
  = List.length byte_sequences
  /\ List.length seqs <= List.length byte_sequences.
Proof.
  intros H. pose proof (get_bytes_accounts byte_sequences [] l seqs H) as E.
  simpl in E. split; [exact E | lia].
Qed.

Lemma get_bytes_logs_every_drop_witness :
  List.length blocks_mixed_records
  + List.length (filter is_rejection blocks_mixed_log)
  = List.length blocks_mixed
  /\ List.length blocks_mixed_records <= List.length blocks_mixed.
Proof.
  exact (get_bytes_logs_every_drop blocks_mixed blocks_mixed_log
           blocks_mixed_records eq_refl).
Defined.

(* ------------------------------------------------------------------ *)
(** ** Exceptions and logs of the parts *)

Lemma raises_only_ret {A} (P : exn -> Prop) (a : A) : raises_only P (ret a).
Proof. intros l e H. discriminate. Qed.

Lemma raises_only_raise {A} (P : exn -> Prop) (e : exn) :
  P e -> raises_only P (@raise A e).
Proof. intros He l e' H. inversion H. subst. exact He. Qed.

Lemma raises_only_bind {A B} (P : exn -> Prop) (m : M A) (f : A -> M B) :
  raises_only P m -> (forall a, raises_only P (f a)) -> raises_only P (bind m f).
Proof.
  intros Hm Hf l e H. apply bind_Raise in H as [H | (l1 & a & l2 & _ & H & _)].
  - exact (Hm _ _ H).
  - exact (Hf a _ _ H).
Qed.

Lemma raises_only_weaken {A} (P Q : exn -> Prop) (m : M A) :
  (forall e, P e -> Q e) -> raises_only P m -> raises_only Q m.
Proof. intros HPQ Hm l e H. apply HPQ. exact (Hm _ _ H). Qed.

Lemma raises_only_for_in {A S} (P : exn -> Prop) (body : A -> S -> M S) (xs : list A) :
  (forall x acc, raises_only P (body x acc)) ->
  forall acc, raises_only P (for_in xs body acc).
Proof.
  intros Hbody. induction xs as [|x xs IH]; intros acc; simpl.
  - apply raises_only_ret.
  - apply raises_only_bind; [apply Hbody | exact IH].
Qed.

Lemma raises_only_try_except {A} (P : exn -> Prop) (m h : M A) (e : exn) :
  raises_only P m -> raises_only P h -> raises_only P (try_except m e h).
Proof.
  intros Hm Hh l e' H. unfold try_except in H.
  destruct m as [lm [a | em]]; [discriminate|].
  destruct (exn_eqb em e).
  - destruct h as [lh [a | eh]]; [discriminate|]. inversion H; subst.
    exact (Hh _ _ eq_refl).
  - inversion H; subst. exact (Hm _ _ eq_refl).
Qed.

Lemma raises_only_logger_error (P : exn -> Prop) (s : string) :
  raises_only P (logger_error s).
Proof. intros l e H. discriminate. Qed.

Lemma raises_only_logger_info (P : exn -> Prop) (s : string) :
  raises_only P (logger_info s).
Proof. intros l e H. discriminate. Qed.

Lemma raises_only_label (P : exn -> Prop) (tag : string) (n : node) :
  P AttributeError -> raises_only P (_get_node_value tag n).
Proof.
  intros HP l e H. apply _get_node_value_raises in H. subst. exact HP.
Qed.

Ltac raises :=
  repeat first
    [ apply raises_only_ret
    | apply raises_only_logger_error
    | apply raises_only_logger_info
    | apply raises_only_label; solve [auto]
    | apply raises_only_raise; solve [auto]
    | apply raises_only_bind; [|intros ?]
    | match goal with
      | |- raises_only _ (if ?b then _ else _) => destruct b
      | |- raises_only _ (match ?x with _ => _ end) => destruct x
      | |- raises_only _ (let (_, _) := ?x in _) => destruct x
      end ].

Lemma quiet_ret {A} (a : A) : quiet (ret a).
Proof. reflexivity. Qed.

Lemma quiet_raise {A} (e : exn) : quiet (@raise A e).
Proof. reflexivity. Qed.

Lemma quiet_bind {A B} (m : M A) (f : A -> M B) :
  quiet m -> (forall a, quiet (f a)) -> quiet (bind m f).
Proof.
  unfold quiet. destruct m as [l [a | e]]; simpl; intros -> Hf; [|reflexivity].
  specialize (Hf a). destruct (f a). simpl in *. exact Hf.
Qed.

Lemma quiet_for_in {A S} (body : A -> S -> M S) (xs : list A) :
  (forall x acc, quiet (body x acc)) -> forall acc, quiet (for_in xs body acc).
Proof.
  intros Hbody. induction xs as [|x xs IH]; intros acc; simpl.
  - apply quiet_ret.
  - apply quiet_bind; [apply Hbody | exact IH].
Qed.

Ltac quiets :=
  repeat first
    [ apply quiet_ret
    | apply quiet_raise
    | apply _get_node_value_quiet
    | apply quiet_bind; [|intros ?]
    | match goal with
      | |- quiet (if ?b then _ else _) => destruct b
      | |- quiet (match ?x with _ => _ end) => destruct x
      | |- quiet (let (_, _) := ?x in _) => destruct x
      end ].

Lemma quiet_eq {A} (m : M A) (l : list LogRecord) (r : result A) :
  quiet m -> m = (l, r) -> l = [].
Proof. unfold quiet. intros H ->. exact H. Qed.

Lemma encoded_sequence_quiet (item : ByteSequence.t) : quiet (encoded_sequence item).
Proof.
  unfold encoded_sequence, calculate_variable_off_eof, calculate_variable_off_bof,
    and_then, present_and_positive, int_of.
  quiets.
Qed.

Lemma encoded_sequence_raises (item : ByteSequence.t) :
  raises_only (fun e => e = TypeError \/ e = ValueError) (encoded_sequence item).
Proof.
  unfold encoded_sequence, calculate_variable_off_eof, calculate_variable_off_bof,
    and_then, present_and_positive, int_of.
  raises.
Qed.

Lemma get_external_raises (xs : list node) :
  raises_only (fun e => e = AttributeError) (get_external xs)
  /\ quiet (get_external xs).
Proof.
  split.
  - apply raises_only_for_in. intros x acc. unfold get_external_body. raises.
  - apply quiet_for_in. intros x acc. unfold get_external_body. quiets.
Qed.

Lemma get_identifiers_raises (xs : list node) :
  raises_only (fun e => e = AttributeError) (get_identifiers xs)
  /\ quiet (get_identifiers xs).
Proof.
  split.
  - apply raises_only_for_in. intros x acc. unfold get_identifiers_body. raises.
  - apply quiet_for_in. intros x acc. unfold get_identifiers_body. quiets.
Qed.

Lemma get_priorities_raises (xs : list node) :
  raises_only (fun e => e = AttributeError) (get_priorities xs)
  /\ quiet (get_priorities xs).
Proof.
  split.
  - apply raises_only_for_in. intros x acc. unfold get_priorities_body. raises.
  - apply quiet_for_in. intros x acc. unfold get_priorities_body. quiets.
Qed.

Lemma get_bytes_raises (xs : list node) :
  raises_only (fun e => e = AttributeError \/ e = TypeError) (get_bytes xs).
Proof.
  apply raises_only_for_in. intros x acc. unfold get_bytes_body, validate_value.
  raises.
Qed.

Lemma get_internal_raises (xs : list node) :
  raises_only (fun e => e = AttributeError \/ e = TypeError) (get_internal xs).
Proof.
  apply raises_only_for_in. intros x acc. unfold get_internal_body.
  do 3 (apply raises_only_bind; [apply raises_only_label; auto | intros ?]).
  apply raises_only_bind.
  - apply raises_only_try_except; [|apply raises_only_ret].
    apply raises_only_bind; [apply get_bytes_raises | intros; apply raises_only_ret].
  - intros [s|]; apply raises_only_ret.
Qed.

Lemma process_pronom_body_raises (x : node) (acc : list Format.t) :
  raises_only (fun e => e = AttributeError \/ e = TypeError)
    (process_pronom_body x acc).
Proof.
  unfold process_pronom_body, escape, attr.
  do 3 (apply raises_only_bind; [apply raises_only_label; auto | intros ?]).
  apply raises_only_bind.
  { eapply raises_only_weaken; [|apply get_external_raises]. auto. }
  intros ext. apply raises_only_bind; [apply get_internal_raises|]. intros int.
  apply raises_only_bind.
  { eapply raises_only_weaken; [|apply get_identifiers_raises]. auto. }
  intros [puid mime].
  assert (Hkeep : forall ext' int',
    raises_only (fun e => e = AttributeError \/ e = TypeError)
      (format_types <- _get_node_value "FormatTypes" x ;;
       priorities <- get_priorities (getElementsByTagName "RelatedFormat" x) ;;
       name <- (s <- match a0 with None => raise AttributeError | Some v => ret v end ;;
                ret (Py.escape s)) ;;
       version <- (s <- match a1 with None => raise AttributeError | Some v => ret v end ;;
                   ret (Py.escape s)) ;;
       ret (acc ++ [{| Format.id := a;
                       Format.name := name;
                       Format.version := version;
                       Format.puid := puid;
                       Format.mime := mime;
                       Format.classification := format_types;
                       Format.external_signatures := ext';
                       Format.internal_signatures := int';
                       Format.priorities := priorities |}]))).
  { intros ext' int'.
    apply raises_only_bind; [apply raises_only_label; auto | intros ?].
    apply raises_only_bind.
    { eapply raises_only_weaken; [|apply get_priorities_raises]. auto. }
    intros ?. raises. }
  destruct ext; [destruct int; [apply raises_only_ret|]|]; apply Hkeep.
Qed.

Lemma collect_formats_raises (xs : list node) :
  raises_only (fun e => e = AttributeError \/ e = TypeError) (collect_formats xs).
Proof. apply raises_only_for_in. exact process_pronom_body_raises. Qed.

Lemma create_one_to_many_byte_sequence_raises (items : list ByteSequence.t) :
  raises_only (fun e => e = TypeError \/ e = ValueError)
    (create_one_to_many_byte_sequence items)
  /\ quiet (create_one_to_many_byte_sequence items).
Proof.
  unfold create_one_to_many_byte_sequence. split.
  - apply raises_only_bind; [|intros; apply raises_only_ret].
    apply raises_only_for_in. intros x acc.
    apply raises_only_bind; [apply encoded_sequence_raises|].
    intros; apply raises_only_ret.
  - apply quiet_bind; [|intros; apply quiet_ret].
    apply quiet_for_in. intros x acc.
    apply quiet_bind; [apply encoded_sequence_quiet | intros; apply quiet_ret].
Qed.

Lemma create_many_to_one_byte_sequence_raises (sigs : list InternalSignature.t) :
  raises_only (fun e => e = TypeError \/ e = ValueError)
    (create_many_to_one_byte_sequence sigs)
  /\ quiet (create_many_to_one_byte_sequence sigs).
Proof.
  unfold create_many_to_one_byte_sequence. split.
  - apply raises_only_bind; [|intros; apply raises_only_ret].
    apply raises_only_for_in. intros x acc.
    apply raises_only_bind; [apply create_one_to_many_byte_sequence_raises|].
    intros; apply raises_only_ret.
  - apply quiet_bind; [|intros; apply quiet_ret].
    apply quiet_for_in. intros x acc.
    apply quiet_bind; [apply create_one_to_many_byte_sequence_raises|].
    intros; apply quiet_ret.
Qed.

Lemma process_formats_and_save_raises (formats : list Format.t) (now : string) :
  raises_only (fun e => e = TypeError \/ e = ValueError)
    (process_formats_and_save formats now)
  /\ quiet (process_formats_and_save formats now).
Proof.
  unfold process_formats_and_save. split.
  - apply raises_only_bind; [|intros [? ?]; apply raises_only_ret].
    apply raises_only_for_in. intros x [isc ffc]. unfold process_formats_and_save_body.
    destruct (Format.internal_signatures x); [apply raises_only_ret|].
    apply raises_only_bind; [apply create_many_to_one_byte_sequence_raises|].
    intros; apply raises_only_ret.
  - apply quiet_bind; [|intros [? ?]; apply quiet_ret].
    apply quiet_for_in. intros x [isc ffc]. unfold process_formats_and_save_body.
    destruct (Format.internal_signatures x); [apply quiet_ret|].
    apply quiet_bind; [apply create_many_to_one_byte_sequence_raises|].
    intros; apply quiet_ret.
Qed.

(* ------------------------------------------------------------------ *)
(** ** Bounds that cannot be read *)









(* ------------------------------------------------------------------ *)
(** ** The outcomes of assembly *)

Lemma for_in_app {A S} (body : A -> S -> M S) (xs ys : list A) :
  forall acc,
    for_in (xs ++ ys) body acc
    = acc' <- for_in xs body acc ;; for_in ys body acc'.
Proof.
  induction xs as [|x xs IH]; intros acc; cbn [app for_in].
  - rewrite bind_ret. reflexivity.
  - rewrite bind_assoc. destruct (body x acc) as [l [a | e]]; simpl; [|reflexivity].
    rewrite IH. reflexivity.
Qed.

Lemma first_failure {A} (P : A -> Prop) (Q : A -> exn -> Prop) (xs : list A) :
  (forall x, In x xs -> P x \/ exists e, Q x e) ->
  Forall P xs
  \/ exists front x back e,
       xs = front ++ x :: back /\ Forall P front /\ Q x e.
Proof.
  induction xs as [|x xs IH]; intros H; [left; constructor|].
  destruct (H x (or_introl eq_refl)) as [Hx | [e Hx]].
  - destruct IH as [IH | (front & y & back & e & -> & Hf & Hy)].
    + intros y Hy. apply H. right. exact Hy.
    + left. constructor; assumption.
    + right. exists (x :: front), y, back, e. repeat split; auto.
  - right. exists [], x, xs, e. repeat split; auto.
Qed.

Lemma encoded_sequence_outcome (item : ByteSequence.t) :
  encodes item
  \/ exists e,
       encoded_sequence item = raise e
       /\ anchored item = true /\ (e = TypeError \/ e = ValueError).
Proof.
  destruct (encoded_sequence item) as [l [s | e]] eqn:E.
  - left. pose proof (quiet_eq _ _ _ (encoded_sequence_quiet item) E). subst l.
    apply (encodes_of_ret item s E).
  - right. exists e.
    pose proof (quiet_eq _ _ _ (encoded_sequence_quiet item) E). subst l.
    split; [reflexivity|]. split; [|exact (encoded_sequence_raises item _ _ E)].
    unfold anchored. unfold encoded_sequence in E.
    destruct (Py.startswith (ByteSequence.pos item) "EOF"); [reflexivity|].
    destruct (Py.startswith (ByteSequence.pos item) "BOF"); [reflexivity|].
    discriminate.
Qed.

Lemma create_one_to_many_byte_sequence_fails
    (front back : list ByteSequence.t) (item : ByteSequence.t) (e : exn) :
  Forall encodes front ->
  encoded_sequence item = raise e ->
  create_one_to_many_byte_sequence (front ++ item :: back) = raise e.
Proof.
  intros Hf He. unfold create_one_to_many_byte_sequence. rewrite for_in_app.
  destruct (one_to_many_loop front Hf "" [] eq_refl (Forall_nil _))
    as (acc' & Hrun & _).
  rewrite Hrun, bind_ret. cbn [for_in].
  unfold create_one_to_many_byte_sequence_body at 1. rewrite He. reflexivity.
Qed.

Lemma create_one_to_many_byte_sequence_outcome (items : list ByteSequence.t) :
  Forall encodes items
  \/ exists e item,
       In item items /\ fails_with e item
       /\ create_one_to_many_byte_sequence items = raise e.
Proof.
  destruct (first_failure encodes (fun item e => fails_with e item) items)
    as [H | (front & item & back & e & -> & Hf & Hi)].
  - intros x _. destruct (encoded_sequence_outcome x) as [H | [e H]]; eauto.
  - left. exact H.
  - right. exists e, item. split; [apply in_elt|]. split; [exact Hi|].
    apply create_one_to_many_byte_sequence_fails; [exact Hf | apply Hi].
Qed.

Lemma create_many_to_one_byte_sequence_fails
    (front back : list InternalSignature.t) (sig : InternalSignature.t) (e : exn) :
  Forall (fun sig => Forall encodes (InternalSignature.byte_sequences sig)) front ->
  create_one_to_many_byte_sequence (InternalSignature.byte_sequences sig) = raise e ->
  create_many_to_one_byte_sequence (front ++ sig :: back) = raise e.
Proof.
  intros Hf He. unfold create_many_to_one_byte_sequence. rewrite for_in_app.
  destruct (many_to_one_loop front Hf "" [] eq_refl) as (w' & _ & Hrun).
  simpl in Hrun. rewrite Hrun, bind_ret. cbn [for_in].
  unfold create_many_to_one_byte_sequence_body at 1. rewrite He. reflexivity.
Qed.

Lemma create_many_to_one_byte_sequence_outcome (sigs : list InternalSignature.t) :
  Forall (fun sig => Forall encodes (InternalSignature.byte_sequences sig)) sigs
  \/ exists e item,
       In item (flat_map InternalSignature.byte_sequences sigs)
       /\ fails_with e item
       /\ create_many_to_one_byte_sequence sigs = raise e.
Proof.
  destruct (first_failure
              (fun sig => Forall encodes (InternalSignature.byte_sequences sig))
              (fun sig e =>
                 exists item,
                   In item (InternalSignature.byte_sequences sig)
                   /\ fails_with e item
                   /\ create_one_to_many_byte_sequence
                        (InternalSignature.byte_sequences sig) = raise e)
              sigs)
    as [H | (front & sig & back & e & -> & Hf & item & Hin & Hi & Hr)].
  - intros sig _.
    destruct (create_one_to_many_byte_sequence_outcome
                (InternalSignature.byte_sequences sig))
      as [H | (e & item & H)]; eauto.
  - left. exact H.
  - right. exists e, item. split; [|split; [exact Hi|]].
    + apply in_flat_map. exists sig. split; [apply in_elt | exact Hin].
    + apply create_many_to_one_byte_sequence_fails; assumption.
Qed.

Lemma all_byte_sequences_encode (formats : list Format.t) :
  Forall (fun fmt =>
            Forall (fun sig => Forall encodes (InternalSignature.byte_sequences sig))
              (Format.internal_signatures fmt)) formats ->
  Forall encodes (all_byte_sequences formats).
Proof.
  intros H. apply Forall_forall. intros item Hin.
  unfold all_byte_sequences in Hin. apply in_flat_map in Hin as (fmt & Hf & Hin).
  apply in_flat_map in Hin as (sig & Hs & Hin).
  rewrite Forall_forall in H. specialize (H fmt Hf).
  rewrite Forall_forall in H. specialize (H sig Hs).
  rewrite Forall_forall in H. exact (H item Hin).
Qed.

Lemma process_formats_and_save_fails
    (front back : list Format.t) (fmt : Format.t) (e : exn) (now : string) :
  Forall encodes (all_byte_sequences front) ->
  Format.internal_signatures fmt <> [] ->
  create_many_to_one_byte_sequence (Format.internal_signatures fmt) = raise e ->
  process_formats_and_save (front ++ fmt :: back) now = raise e.
Proof.
  intros Hf Hne He. unfold process_formats_and_save. rewrite for_in_app.
  rewrite (process_formats_and_save_loop front Hf), bind_ret. cbn [for_in].
  unfold process_formats_and_save_body at 1.
  destruct (Format.internal_signatures fmt) as [|sig sigs]; [congruence|].
  rewrite He. reflexivity.
Qed.

(** Up to the text for the parser, assembly logs nothing and either builds
    the text, when every byte sequence of every format can be encoded, or
    raises the [TypeError] or [ValueError] of a byte sequence with a BOF or
    EOF anchor whose bounds cannot be read. *)
Lemma process_formats_and_save_outcome (formats : list Format.t) (now : string) :
  (Forall encodes (all_byte_sequences formats)
   /\ process_formats_and_save formats now = ret (document_text formats now))
  \/ exists e item,
       In item (all_byte_sequences formats)
       /\ encoded_sequence item = raise e
       /\ anchored item = true
       /\ (e = TypeError \/ e = ValueError)
       /\ process_formats_and_save formats now = raise e.
Proof.
  destruct (first_failure
              (fun fmt =>
                 Forall (fun sig => Forall encodes (InternalSignature.byte_sequences sig))
                   (Format.internal_signatures fmt))
              (fun fmt e =>
                 exists item,
                   In item (flat_map InternalSignature.byte_sequences
                              (Format.internal_signatures fmt))
                   /\ fails_with e item
                   /\ create_many_to_one_byte_sequence (Format.internal_signatures fmt)
                      = raise e)
              formats)
    as [H | (front & fmt & back & e & -> & Hf & item & Hin & Hi & Hr)].
  - intros fmt _.
    destruct (create_many_to_one_byte_sequence_outcome (Format.internal_signatures fmt))
      as [H | (e & item & H)]; eauto.
  - left. apply all_byte_sequences_encode in H. split; [exact H|].
    apply process_formats_and_save_text, H.
  - right. exists e, item. destruct Hi as (He & Ha & Hc).
    split; [|split; [exact He | split; [exact Ha | split; [exact Hc|]]]].
    + unfold all_byte_sequences. apply in_flat_map. exists fmt.
      split; [apply in_elt | exact Hin].
    + apply process_formats_and_save_fails; [| |exact Hr].
      * apply all_byte_sequences_encode, Hf.
      * intros E. rewrite E in Hin. exact Hin.
Qed.

Example assembly_fails_on_a_bad_bound :
  process_formats_and_save [format_signed; format_bad_bound; format_ai]
    "2024-09-18T12:46:55Z"
  = raise ValueError.
Proof. reflexivity. Qed.

(* ------------------------------------------------------------------ *)
(** ** The frame of the document *)

Lemma replace_app (c : ascii) (new a b : string) :
  Py.replace c new (a +++ b) = Py.replace c new a +++ Py.replace c new b.
Proof.
  induction a as [|x a IH]; simpl; [reflexivity|].
  rewrite IH. destruct (Ascii.eqb x c); [rewrite append_assoc|]; reflexivity.
Qed.

Lemma document_body_tight (now isc ffc : string) :
  tight (document_body now isc ffc) = true.
Proof.
  unfold tight, document_body. apply andb_true_iff. split.
  - reflexivity.
  - repeat apply ends_tight_app. reflexivity.
Qed.

Lemma strip_droid_template (now isc ffc : string) :
  Py.strip (droid_template now isc ffc) = document_body now isc ffc.
Proof.
  pose proof (strip_padded nl (document_body now isc ffc) (nl +++ "    ")
                (document_body_tight now isc ffc) eq_refl eq_refl) as H.
  unfold document_body in H at 1. rewrite !append_assoc in H. exact H.
Qed.

Lemma replace_document_body (now isc ffc : string) :
  Py.replace "010"%char "" (document_body now isc ffc)
  = document_head now +++ document_inner isc ffc +++ "</FFSignatureFile>".
Proof.
  unfold document_body, document_head, document_inner, attribute.
  rewrite !replace_app, !append_assoc. reflexivity.
Qed.

(** X10. Whatever the records are, the text that assembly returns is one
    line: it has no newline, it starts with the XML declaration and the
    opening tag of the root, which carries the timestamp, and it ends with
    the closing tag of the root; between them stand the two collections,
    the internal signatures before the file formats. *)
Theorem document_is_one_framed_line
    (formats : list Format.t) (now : string) (l : list LogRecord) (document : string) :
  process_formats_and_save formats now = (l, Ok document) ->
  no_char "010"%char document = true
  /\ exists isc ffc,
       document
       = document_head now +++ document_inner isc ffc +++ "</FFSignatureFile>".
Proof.
  unfold process_formats_and_save. intros H. bind_inv H. destruct a as [isc ffc].
  apply ret_Ok in H. subst document. split.
  - apply replace_empty_no_char.
  - eexists. eexists. rewrite strip_droid_template. apply replace_document_body.
Qed.

Lemma document_is_one_framed_line_witness :
  no_char "010"%char document_dev_ext = true
  /\ exists isc ffc,
       document_dev_ext
       = document_head "2024-09-18T12:46:55Z" +++ document_inner isc ffc
         +++ "</FFSignatureFile>".
Proof.
  exact (document_is_one_framed_line
           [ {| Format.id := Some "1"; Format.name := "Development Signature";
                Format.version := "1.0"; Format.puid := Some "dev/1";
                Format.mime := Some ""; Format.classification := Some "Text";
                Format.external_signatures := [];
                Format.internal_signatures :=
                  [{| InternalSignature.id := Some "3";
                      InternalSignature.name := Some "dev";
                      InternalSignature.byte_sequences :=
                        [accepted_item (Some "5") (Some "Absolute from BOF")
                           (Some "") (Some "") (Some "") "04"] |}];
                Format.priorities := [] |};
             {| Format.id := Some "49"; Format.name := "Adobe Illustrator";
                Format.version := "1.0"; Format.puid := Some "";
                Format.mime := Some "application/postscript";
                Format.classification := Some "Image (Vector)";
                Format.external_signatures := [external_of "1" "ai" "File extension"];
                Format.internal_signatures := [];
                Format.priorities := [] |} ]
           "2024-09-18T12:46:55Z" [] document_dev_ext eq_refl).
Defined.

(* ------------------------------------------------------------------ *)
(** ** Names and versions *)

Lemma replace_removes (c : ascii) (new s : string) :
  any_char (Ascii.eqb c) new = false ->
  any_char (Ascii.eqb c) (Py.replace c new s) = false.
Proof.
  intros Hnew. induction s as [|x s IH]; simpl; [reflexivity|].
  destruct (Ascii.eqb x c) eqn:E.
  - rewrite any_char_app, Hnew, IH. reflexivity.
  - simpl. rewrite Ascii.eqb_sym, E, IH. reflexivity.
Qed.

Lemma escape_no_markup (s : string) : no_markup (Py.escape s).
Proof.
  unfold no_markup, no_char, Py.escape. split; apply negb_true_iff.
  - apply replace_removes. reflexivity.
  - apply replace_keeps_absent; [reflexivity|].
    apply replace_removes. reflexivity.
Qed.

Lemma escape_Ok (x : pystr) (l : list LogRecord) (s : string) :
  escape x = (l, Ok s) -> exists raw, x = Some raw /\ s = Py.escape raw.
Proof.
  unfold escape, attr. destruct x as [raw|]; [|discriminate].
  intros H. inversion H. eauto.
Qed.

Lemma process_pronom_body_escapes (dom : node) (formats formats' : list Format.t)
    (l : list LogRecord) :
  Forall (fun fmt => no_markup (Format.name fmt) /\ no_markup (Format.version fmt))
    formats ->
  process_pronom_body dom formats = (l, Ok formats') ->
  Forall (fun fmt => no_markup (Format.name fmt) /\ no_markup (Format.version fmt))
    formats'.
Proof.
  intros Hs H. unfold process_pronom_body in H.
  do 6 bind_inv H. destruct a4 as [puid mime].
  assert (Hkeep : forall ext int lk,
    (format_types <- _get_node_value "FormatTypes" dom ;;
     priorities <- get_priorities (getElementsByTagName "RelatedFormat" dom) ;;
     name <- escape a0 ;;
     version <- escape a1 ;;
     ret (formats ++ [{| Format.id := a;
                         Format.name := name;
                         Format.version := version;
                         Format.puid := puid;
                         Format.mime := mime;
                         Format.classification := format_types;
                         Format.external_signatures := ext;
                         Format.internal_signatures := int;
                         Format.priorities := priorities |}]))
    = (lk, Ok formats') ->
    Forall (fun fmt => no_markup (Format.name fmt) /\ no_markup (Format.version fmt))
      formats').
  { intros ext int lk Hk. do 4 bind_inv Hk. apply ret_Ok in Hk. subst formats'.
    apply escape_Ok in Hm7 as (n & _ & ->). apply escape_Ok in Hm8 as (v & _ & ->).
    apply Forall_app. split; [exact Hs|]. constructor; [|constructor].
    simpl. split; apply escape_no_markup. }
  destruct a2 as [|e es]; [destruct a3 as [|i iss]|].
  - apply ret_Ok in H. subst. exact Hs.
  - exact (Hkeep _ _ _ H).
  - exact (Hkeep _ _ _ H).
Qed.

(** X11. The name and the version of every format that [process_pronom]
    collects have passed through [escape]: neither holds a [<] or a [>],
    whatever the report says. *)
Theorem collected_names_have_no_markup
    (report_list : list node) (l : list LogRecord) (formats : list Format.t) :
  collect_formats report_list = (l, Ok formats) ->
  Forall (fun fmt => no_markup (Format.name fmt) /\ no_markup (Format.version fmt))
    formats.
Proof.
  unfold collect_formats. intros H.
  eapply (for_in_invariant (Forall _)); [| |exact H]; [|constructor].
  intros x acc l' acc' Hacc Hb. eapply process_pronom_body_escapes; eauto.
Qed.

Lemma collected_names_have_no_markup_witness :
  Forall (fun fmt => no_markup (Format.name fmt) /\ no_markup (Format.version fmt))
    [ {| Format.id := Some "49";
         Format.name := "A&lt;B&gt;&amp;C";
         Format.version := "&lt;1&gt;";
         Format.puid := Some "";
         Format.mime := Some "";
         Format.classification := Some "Text";
         Format.external_signatures := [external_of "1" "ai" "File extension"];
         Format.internal_signatures := [];
         Format.priorities := [] |} ].
Proof.
  exact (collected_names_have_no_markup [report_markup_name] [] _ eq_refl).
Defined.

(* ------------------------------------------------------------------ *)
(** ** Extraction in batches *)

Lemma appends_ret_app {A} (xs : list A) : appends (fun acc => ret (acc ++ xs)).
Proof. intros acc. rewrite bind_ret. reflexivity. Qed.

Lemma appends_ret {A} : appends (fun acc : list A => ret acc).
Proof. intros acc. rewrite bind_ret, app_nil_r. reflexivity. Qed.

Lemma appends_bind {A B} (m : M B) (k : B -> list A -> M (list A)) :
  (forall b, appends (k b)) -> appends (fun acc => b <- m ;; k b acc).
Proof.
  intros Hk acc. rewrite bind_assoc.
  destruct m as [l [b | e]]; simpl; [|reflexivity].
  rewrite (Hk b acc). reflexivity.
Qed.

Ltac appending :=
  repeat first
    [ apply appends_ret_app
    | apply appends_ret
    | apply appends_bind; intros ?
    | match goal with
      | |- appends (fun acc => if ?b then _ else _) => destruct b
      | |- appends (fun acc => match ?x with _ => _ end) => destruct x
      | |- appends (fun acc => let (_, _) := ?x in _) => destruct x
      end ].

Lemma for_in_appends {A B} (body : A -> list B -> M (list B)) (xs : list A) :
  (forall x, appends (body x)) ->
  forall acc, for_in xs body acc = r <- for_in xs body [] ;; ret (acc ++ r).
Proof.
  intros Hbody. induction xs as [|x xs IH]; intros acc; cbn [for_in].
  - rewrite bind_ret, app_nil_r. reflexivity.
  - rewrite (Hbody x acc), !bind_assoc.
    destruct (body x []) as [l [r | e]]; [|reflexivity].
    change (bind (l, Ok r) ?f) with (let (l', r') := f r in (l ++ l', r')).
    cbv beta. rewrite !bind_ret. simpl app.
    rewrite (IH (acc ++ r)), (IH r), bind_assoc.
    destruct (for_in xs body []) as [l2 [rs | e]]; simpl; [|reflexivity].
    rewrite <- (app_assoc acc r rs). reflexivity.
Qed.

Lemma for_in_batches {A B} (body : A -> list B -> M (list B)) (xs ys : list A) :
  (forall x, appends (body x)) ->
  for_in (xs ++ ys) body []
  = a <- for_in xs body [] ;; b <- for_in ys body [] ;; ret (a ++ b).
Proof.
  intros Hbody. rewrite for_in_app.
  destruct (for_in xs body []) as [l [a | e]]; [|reflexivity].
  change (bind (l, Ok a) ?f) with (let (l', r') := f a in (l ++ l', r')).
  cbv beta. rewrite (for_in_appends body ys Hbody a). reflexivity.
Qed.

Lemma get_bytes_body_appends (n : node) : appends (get_bytes_body n).
Proof. unfold get_bytes_body. appending. Qed.

Lemma get_internal_body_appends_acc (n : node) : appends (get_internal_body n).
Proof. unfold get_internal_body. appending. Qed.

Lemma get_external_body_appends (n : node) : appends (get_external_body n).
Proof. unfold get_external_body. appending. Qed.

Lemma get_priorities_body_appends (n : node) : appends (get_priorities_body n).
Proof. unfold get_priorities_body. appending. Qed.

Lemma process_pronom_body_appends (dom : node) : appends (process_pronom_body dom).
Proof.
  unfold process_pronom_body.
  do 6 (apply appends_bind; intros ?).
  match goal with |- appends (fun acc => let (_, _) := ?x in _) => destruct x end.
  match goal with |- appends (fun acc => match ?x with _ => _ end) =>
    destruct x as [|e es] end;
    [match goal with |- appends (fun acc => match ?y with _ => _ end) =>
       destruct y as [|i iss] end|];
    appending.
Qed.

(** X12. Extraction composes over batches: the formats of two lists of
    reports are the formats of the first followed by those of the second,
    with the logs in the same order, and an exception of the first batch
    ends the run before the second is read; the same holds for the byte
    sequences, the signatures and the priorities of a list of blocks. *)
Theorem extraction_composes (xs ys : list node) :
  collect_formats (xs ++ ys)
  = (a <- collect_formats xs ;; b <- collect_formats ys ;; ret (a ++ b))
  /\ get_bytes (xs ++ ys)
     = (a <- get_bytes xs ;; b <- get_bytes ys ;; ret (a ++ b))
  /\ get_internal (xs ++ ys)
     = (a <- get_internal xs ;; b <- get_internal ys ;; ret (a ++ b))
  /\ get_external (xs ++ ys)
     = (a <- get_external xs ;; b <- get_external ys ;; ret (a ++ b))
  /\ get_priorities (xs ++ ys)
     = (a <- get_priorities xs ;; b <- get_priorities ys ;; ret (a ++ b)).
Proof.
  split; [apply for_in_batches, process_pronom_body_appends|].
  split; [apply for_in_batches, get_bytes_body_appends|].
  split; [apply for_in_batches, get_internal_body_appends_acc|].
  split; [apply for_in_batches, get_external_body_appends|].
  apply for_in_batches, get_priorities_body_appends.
Qed.

Example batches_of_reports :
  collect_formats ([report_unsigned; report_ai] ++ [report_no_name; report_ai])
  = raise AttributeError
  /\ fmap (fun fs => List.length fs)
       (collect_formats ([report_41F; report_ai] ++ [report_ai]))
     = ([error "rejecting sig data: '41F' based on length"], Ok 3).
Proof. split; reflexivity. Qed.

(* ------------------------------------------------------------------ *)
(** ** Fields that are never rendered *)

Lemma filter_extension_forget (sigs : list ExternalSignature.t) :
  map extension_ref
    (filter (fun sig => Py.eq_str (ExternalSignature.type sig) EXT)
       (map forget_unrendered_ext
          (filter (fun sig => Py.eq_str (ExternalSignature.type sig) EXT) sigs)))
  = map extension_ref
      (filter (fun sig => Py.eq_str (ExternalSignature.type sig) EXT) sigs).
Proof.
  induction sigs as [|sig sigs IH]; [reflexivity|].
  cbn [filter]. destruct (Py.eq_str (ExternalSignature.type sig) EXT) eqn:E.
  - cbn [map filter]. cbn [forget_unrendered_ext ExternalSignature.type].
    rewrite E. cbn [map]. rewrite IH. reflexivity.
  - exact IH.
Qed.

Lemma create_file_format_collection_unrendered (fmt : Format.t) :
  create_file_format_collection (forget_unrendered fmt)
  = create_file_format_collection fmt.
Proof.
  unfold create_file_format_collection.
  cbn [forget_unrendered Format.id Format.name Format.version Format.puid
         Format.mime Format.external_signatures Format.internal_signatures
         Format.priorities].
  rewrite filter_extension_forget, !map_map. reflexivity.
Qed.

Lemma create_one_to_many_byte_sequence_unrendered (items : list ByteSequence.t) :
  create_one_to_many_byte_sequence (map forget_unrendered_item items)
  = create_one_to_many_byte_sequence items.
Proof.
  unfold create_one_to_many_byte_sequence. rewrite for_in_map. reflexivity.
Qed.

Lemma create_many_to_one_byte_sequence_unrendered (sigs : list InternalSignature.t) :
  create_many_to_one_byte_sequence (map forget_unrendered_sig sigs)
  = create_many_to_one_byte_sequence sigs.
Proof.
  unfold create_many_to_one_byte_sequence. rewrite for_in_map.
  rewrite (for_in_ext _ create_many_to_one_byte_sequence_body); [reflexivity|].
  intros sig acc _. unfold create_many_to_one_byte_sequence_body.
  cbn [forget_unrendered_sig InternalSignature.id InternalSignature.byte_sequences].
  rewrite create_one_to_many_byte_sequence_unrendered. reflexivity.
Qed.

(** X13. Assembly reads nothing of a record but what it prints: the
    document is unchanged when the byte-sequence ids, the endianness, the
    signature names, the external-signature ids, the priority types and the
    classification are erased and every external signature that is no
    "File extension" is removed. *)
Theorem document_ignores_unrendered_fields (formats : list Format.t) (now : string) :
  process_formats_and_save (map forget_unrendered formats) now
  = process_formats_and_save formats now.
Proof.
  unfold process_formats_and_save. rewrite for_in_map.
  rewrite (for_in_ext _ process_formats_and_save_body); [reflexivity|].
  intros fmt [isc ffc] _. unfold process_formats_and_save_body.
  rewrite create_file_format_collection_unrendered.
  cbn [Format.internal_signatures forget_unrendered].
  pose proof (create_many_to_one_byte_sequence_unrendered
                (Format.internal_signatures fmt)) as H.
  destruct (Format.internal_signatures fmt) as [|sig sigs]; [reflexivity|].
  cbn [map] in *. rewrite H. reflexivity.
Qed.

(* ------------------------------------------------------------------ *)
(** ** The file name and the report count *)

Lemma endswith_app (a b : string) : endswith (a +++ b) b = true.
Proof.
  induction a as [|c a IH].
  - change ("" +++ b) with b.
    destruct b; cbn [endswith]; rewrite String.eqb_refl; reflexivity.
  - change (String c a +++ b) with (String c (a +++ b)). cbn [endswith].
    rewrite IH. apply orb_true_r.
Qed.

(** X14. With [--output-date] the file name that [main] chooses is built
    from the timestamp alone: it ignores [--output], starts with
    "DROID_SignatureFile_Simple_", ends with ".xml" and holds no colon,
    whatever the timestamp is; without the option it is [--output]
    unchanged. *)
Theorem dated_file_name_has_no_colon (output output' now : string) :
  no_char ":" (output_filename output true now) = true
  /\ Py.startswith (output_filename output true now) "DROID_SignatureFile_Simple_"
     = true
  /\ endswith (output_filename output true now) ".xml" = true
  /\ output_filename output true now = output_filename output' true now
  /\ output_filename output false now = output.
Proof.
  unfold output_filename. split; [|split; [|split; [|split; reflexivity]]].
  - unfold no_char. apply negb_true_iff.
    rewrite !any_char_app, (replace_removes ":" "-" now eq_refl). reflexivity.
  - apply startswith_app.
  - rewrite <- append_assoc. apply endswith_app.
Qed.

Example dated_file_name :
  output_filename "DROID_SignatureFile_Simple.xml" true "2024-09-18T12:46:55Z"
  = "DROID_SignatureFile_Simple_2024-09-18T12-46-55Z.xml".
Proof. reflexivity. Qed.

(* ------------------------------------------------------------------ *)
(** ** Where the signatures come from *)

Lemma get_internal_body_Ok (internal : node)
    (acc acc' : list InternalSignature.t) (l : list LogRecord) :
  get_internal_body internal acc = (l, Ok acc') ->
  exists sig,
    acc' = acc ++ [sig]
    /\ _get_node_value "SignatureID" internal = ret (InternalSignature.id sig)
    /\ _get_node_value "SignatureName" internal = ret (InternalSignature.name sig)
    /\ get_bytes (getElementsByTagName "ByteSequence" internal)
       = (l, Ok (InternalSignature.byte_sequences sig)).
Proof.
  unfold get_internal_body. intros H. do 4 bind_inv H.
  pose proof (quiet_eq _ _ _ (_get_node_value_quiet _ _) Hm) as E0.
  pose proof (quiet_eq _ _ _ (_get_node_value_quiet _ _) Hm0) as E1.
  pose proof (quiet_eq _ _ _ (_get_node_value_quiet _ _) Hm1) as E2.
  subst l0 l2 l4.
  destruct (get_bytes (getElementsByTagName "ByteSequence" internal))
    as [lb [s | e]] eqn:E; simpl in Hm2.
  - rewrite app_nil_r in Hm2. inversion Hm2; subst.
    apply ret_Ok in H as Hacc. inversion H. subst.
    eexists {| InternalSignature.id := a; InternalSignature.name := a0;
               InternalSignature.byte_sequences := s |}.
    simpl. rewrite app_nil_r. repeat split; assumption.
  - pose proof (get_bytes_never_IndexError _ _ _ E) as Hne.
    destruct e; try congruence; discriminate Hm2.
Qed.

Lemma get_internal_traced (internal_signatures : list node) :
  forall acc l r,
    for_in internal_signatures get_internal_body acc = (l, Ok r) ->
    exists sigs,
      r = acc ++ sigs
      /\ Forall2 (fun internal sig =>
                    _get_node_value "SignatureID" internal
                    = ret (InternalSignature.id sig)
                    /\ _get_node_value "SignatureName" internal
                       = ret (InternalSignature.name sig)
                    /\ exists lb,
                         get_bytes (getElementsByTagName "ByteSequence" internal)
                         = (lb, Ok (InternalSignature.byte_sequences sig)))
           internal_signatures sigs.
Proof.
  induction internal_signatures as [|x xs IH]; intros acc l r H.
  - apply ret_Ok in H. subst. exists []. rewrite app_nil_r. split; constructor.
  - cbn [for_in] in H. bind_inv H.
    apply get_internal_body_Ok in Hm as (sig & -> & H1 & H2 & H3).
    apply IH in H as (sigs & -> & HF).
    exists (sig :: sigs). rewrite <- app_assoc. split; [reflexivity|].
    constructor; [|exact HF]. eauto.
Qed.

(** X16. Every signature that [get_internal] returns comes from the block
    at the same position: its id and its name are the [SignatureID] and
    [SignatureName] of that block, and its byte sequences are what
    [get_bytes] returns on the [ByteSequence] elements below that block,
    none taken from another block. *)
Theorem get_internal_traces_blocks
    (internal_signatures : list node) (l : list LogRecord)
    (sigs : list InternalSignature.t) :
  get_internal internal_signatures = (l, Ok sigs) ->
  Forall2 (fun internal sig =>
             _get_node_value "SignatureID" internal = ret (InternalSignature.id sig)
             /\ _get_node_value "SignatureName" internal
                = ret (InternalSignature.name sig)
             /\ exists lb,
                  get_bytes (getElementsByTagName "ByteSequence" internal)
                  = (lb, Ok (InternalSignature.byte_sequences sig)))
    internal_signatures sigs.
Proof.
  unfold get_internal. intros H.
  apply get_internal_traced in H as (s & -> & HF). exact HF.
Qed.

Lemma get_internal_traces_blocks_witness :
  Forall2 (fun internal sig =>
             _get_node_value "SignatureID" internal = ret (InternalSignature.id sig)
             /\ _get_node_value "SignatureName" internal
                = ret (InternalSignature.name sig)
             /\ exists lb,
                  get_bytes (getElementsByTagName "ByteSequence" internal)
                  = (lb, Ok (InternalSignature.byte_sequences sig)))
    [ internal_signature_block "880" "AI v1" [ block_ZZ; block_41_bang ];
      internal_signature_block "881" "AI v2" [] ]
    [ {| InternalSignature.id := Some "880";
         InternalSignature.name := Some "AI v1";
         InternalSignature.byte_sequences :=
           [accepted_item (Some "315") (Some "Absolute from BOF") (Some "10")
              (Some "5") (Some "Little-endian") "zz"] |};
      {| InternalSignature.id := Some "881";
         InternalSignature.name := Some "AI v2";
         InternalSignature.byte_sequences := [] |} ].
Proof.
  exact (get_internal_traces_blocks
           [ internal_signature_block "880" "AI v1" [ block_ZZ; block_41_bang ];
             internal_signature_block "881" "AI v2" [] ]
           [ error "signature 'zz' is not valid";
             error "rejecting sig data: '41!' based on length" ]
           _ eq_refl).
Defined.

(* ------------------------------------------------------------------ *)
(** ** The whole run *)

Section RunFacts.

Variable load : string -> node + library_exn.
Variable serialize : string -> option string.
Variable write : string -> string -> option library_exn.

(** On reports that open and parse, the loop over the paths is the loop
    over the parsed reports. *)
Lemma process_pronom_loop_loaded (report_list : list string) (doms : list node) :
  Forall2 (fun report dom => load report = inl dom) report_list doms ->
  forall formats,
    process_pronom_loop load report_list formats
    = outcome_of (for_in doms process_pronom_body formats).
Proof.
  induction 1 as [|report dom report_list doms Hload _ IH]; intros formats.
  - reflexivity.
  - cbn [process_pronom_loop for_in]. rewrite Hload. unfold bind.
    destruct (process_pronom_body dom formats) as [l [formats' | e]];
      [|reflexivity].
    rewrite IH.
    destruct (for_in doms process_pronom_body formats') as [l' [r | e]];
      reflexivity.
Qed.

Lemma process_pronom_file_loaded (report_list : list string) (doms : list node)
    (filename now : string) :
  Forall2 (fun report dom => load report = inl dom) report_list doms ->
  process_pronom_file load serialize write report_list filename now
  = save_document serialize write filename (process_pronom doms now).
Proof.
  intros H. unfold process_pronom_file, process_pronom, collect_formats.
  rewrite (process_pronom_loop_loaded _ _ H), (Forall2_length H).
  destruct (for_in doms process_pronom_body []) as [l [formats | e]];
    [|reflexivity].
  unfold process_formats_and_save_file, outcome_of, bind, logger_info, info.
  destruct (process_formats_and_save formats now) as [lp [text | e]];
    cbn [save_document]; [|reflexivity].
  destruct (serialize text) as [prettier_xml|]; [|reflexivity].
  destruct (write filename prettier_xml);
    cbn [app]; rewrite <- !app_assoc; reflexivity.
Qed.

(** The exceptions of the module's own code that end the loop. *)
Lemma process_pronom_loop_Raised (report_list : list string) :
  forall formats l e,
    process_pronom_loop load report_list formats = (l, Crash (Raised e)) ->
    e = AttributeError \/ e = TypeError.
Proof.
  induction report_list as [|report report_list IH]; intros formats l e H.
  - discriminate H.
  - cbn [process_pronom_loop] in H. destruct (load report) as [dom | x];
      [|discriminate H].
    destruct (process_pronom_body dom formats) as [l1 [formats' | e1]] eqn:E.
    + destruct (process_pronom_loop load report_list formats') as [l2 r] eqn:E2.
      inversion H; subst. eapply IH. exact E2.
    + inversion H; subst. exact (process_pronom_body_raises dom formats l e E).
Qed.

End RunFacts.

(* ------------------------------------------------------------------ *)
(** ** Values outside the allowed characters *)

Lemma save_document_rejected (serialize : string -> option string)
    (write : string -> string -> option library_exn) (filename text : string)
    (l : list LogRecord) :
  rejects_lt_in_attribute_value serialize ->
  lt_in_attribute_value text = true ->
  save_document serialize write filename (l, Ok text)
  = (l, Crash (Library ExpatError)).
Proof.
  intros Hs Ht. unfold save_document. rewrite (Hs text Ht). reflexivity.
Qed.

(** C3. A value that fails the allowed-character check is logged as an
    error and not rejected for it: on a block whose labels are all read,
    [get_bytes] first logs "signature '...' is not valid", and then the
    length check alone decides, the record being appended whenever that
    check passes; the appended record is written as a [ByteSequence]
    element with the stored value inside its [Sequence] attribute. The
    value reaches the output only if the XML parser takes it there: [4<]
    fails the character check and passes the length check, it is stored as
    it is and written as [Sequence="4<"], which no XML parser accepts, so
    the run ends with [ExpatError] before the file is opened. A value with
    an ampersand is escaped before it is stored, as [4&<!] shows. *)
Theorem disallowed_character_can_fail_the_run :
  (forall byte_sequence seq_id pos_type min_off max_off endian seq_value
          sequence_list,
      byte_sequence_reads byte_sequence seq_id pos_type min_off max_off endian
        (Some seq_value) ->
      fullmatch_PRONOM_REGEX_ALLOWED seq_value = false ->
      exists later,
        get_bytes_body byte_sequence sequence_list
        = (error ("signature '" +++ seq_value +++ "' is not valid") :: later,
           Ok (if length_rejects seq_value then sequence_list
               else sequence_list
                      ++ [accepted_item seq_id pos_type min_off max_off endian
                            seq_value])))
  /\ (forall seq_id pos_type endian lo hi seq_value,
         empty_or_decimal lo = true -> empty_or_decimal hi = true ->
         exists before after,
           create_one_to_many_byte_sequence
             [accepted_item seq_id pos_type (Some lo) (Some hi) endian seq_value]
           = ret ("<ByteSequence Reference=" +++ dq +++ canonical_anchor pos_type
                  +++ dq +++ " Sequence=" +++ dq
                  +++ before +++ stored_value seq_value +++ after +++ dq
                  +++ " MinOffset=" +++ dq +++ lo +++ dq
                  +++ " MaxOffset=" +++ dq +++ hi +++ dq +++ "/>"))
  /\ fullmatch_PRONOM_REGEX_ALLOWED "4<" = false
  /\ length_rejects "4<" = false
  /\ get_bytes [block_4lt] = ([error "signature '4<' is not valid"], Ok [item_4lt])
  /\ process_pronom [report_4lt] "2024-09-18T12:46:55Z"
     = ([ error "signature '4<' is not valid";
          info "number of reports: 0";
          info "number of formats processed for the signature file: 1" ],
        Ok (document_4lt "2024-09-18T12:46:55Z"))
  /\ lt_in_attribute_value (document_4lt "2024-09-18T12:46:55Z") = true
  /\ (forall load serialize write,
         rejects_lt_in_attribute_value serialize ->
         load "fmt-60.xml" = inl report_4lt ->
         process_pronom_file load serialize write ["fmt-60.xml"] "out.xml"
           "2024-09-18T12:46:55Z"
         = ([ error "signature '4<' is not valid";
              info "number of reports: 0";
              info "number of formats processed for the signature file: 1" ],
            Crash (Library ExpatError)))
  /\ stored_value "4&<!" = "4&amp;&lt;!".
Proof.
  assert (Hrun : process_pronom [report_4lt] "2024-09-18T12:46:55Z"
                 = ([ error "signature '4<' is not valid";
                      info "number of reports: 0";
                      info "number of formats processed for the signature file: 1" ],
                    Ok (document_4lt "2024-09-18T12:46:55Z")))
    by (vm_compute; reflexivity).
  assert (Hlt : lt_in_attribute_value (document_4lt "2024-09-18T12:46:55Z") = true)
    by (vm_compute; reflexivity).
  split; [|split; [|split; [|split; [|split; [|split; [|split; [|split]]]]]]].
  - intros byte_sequence seq_id pos_type min_off max_off endian seq_value
      sequence_list Hreads Hbad.
    rewrite (get_bytes_body_reads _ _ _ _ _ _ _ _ Hreads).
    unfold validation_log. rewrite Hbad. simpl. eexists. reflexivity.
  - intros seq_id pos_type endian lo hi seq_value Dlo Dhi.
    destruct (encoded_sequence_str
                (accepted_item seq_id pos_type (Some lo) (Some hi) endian seq_value)
                lo hi eq_refl eq_refl Dlo Dhi)
      as (before & after & Henc).
    exists before, after.
    destruct (encodes_of_ret _ _ Henc) as [He Hs].
    rewrite create_one_to_many_byte_sequence_text by (constructor; auto).
    unfold byte_sequences_text. cbn [map String.concat]. rewrite Hs.
    unfold byte_sequence_element, accepted_item.
    cbn [ByteSequence.pos ByteSequence.min_off ByteSequence.max_off
         ByteSequence.value Py.fmt].
    rewrite !append_assoc. reflexivity.
  - reflexivity.
  - reflexivity.
  - vm_compute. reflexivity.
  - exact Hrun.
  - exact Hlt.
  - intros load serialize write Hs Hload.
    rewrite (process_pronom_file_loaded load serialize write
               ["fmt-60.xml"] [report_4lt]) by (repeat constructor; exact Hload).
    rewrite Hrun. apply save_document_rejected; assumption.
  - vm_compute. reflexivity.
Qed.

(* ------------------------------------------------------------------ *)
(** ** Elements without character data *)

Lemma process_pronom_file_blank
    (load load' : string -> node + library_exn)
    (serialize : string -> option string)
    (write : string -> string -> option library_exn)
    (report_list : list string) (doms doms' : list node) (filename now : string) :
  Forall2 (fun report dom => load report = inl dom) report_list doms ->
  Forall2 (fun report dom => load' report = inl dom) report_list doms' ->
  map blank_report doms = map blank_report doms' ->
  process_pronom_file load serialize write report_list filename now
  = process_pronom_file load' serialize write report_list filename now.
Proof.
  intros H H' Hb.
  rewrite (process_pronom_file_loaded load serialize write _ _ filename now H),
    (process_pronom_file_loaded load' serialize write _ _ filename now H').
  f_equal. apply process_pronom_collected.
  - rewrite <- (length_map blank_report doms), Hb. apply length_map.
  - rewrite <- collect_formats_blank, Hb. apply collect_formats_blank.
Qed.

(** C10. The [Endianness] and [FormatTypes] values are stored and never
    written, but reading them can end the run. A report whose [Endianness]
    element (or whose [FormatTypes] element) is there and has no character
    data makes [process_pronom] raise [AttributeError], and no document is
    written; the same report with a value in that element gives a
    document, the same one for every value, and so does the report without
    the element. Between reports whose elements hold character data on
    both sides, the whole run is the same: the log, the file, and the
    exception if there is one. *)
Theorem empty_endianness_fails_the_run :
  (forall now,
      process_pronom [report_endianness [Element "Endianness" []]] now
      = raise AttributeError)
  /\ (exists document,
         process_pronom [report_endianness [text_element "Endianness" "Big-endian"]]
           "2024-09-18T12:46:55Z"
         = ([ info "number of reports: 0";
              info "number of formats processed for the signature file: 1" ],
            Ok document)
         /\ process_pronom
              [report_endianness [text_element "Endianness" "Little-endian"]]
              "2024-09-18T12:46:55Z"
            = ([ info "number of reports: 0";
                 info "number of formats processed for the signature file: 1" ],
               Ok document)
         /\ process_pronom [report_endianness []] "2024-09-18T12:46:55Z"
            = ([ info "number of reports: 0";
                 info "number of formats processed for the signature file: 1" ],
               Ok document))
  /\ (forall now,
         process_pronom [report_format_types [Element "FormatTypes" []]] now
         = raise AttributeError)
  /\ (exists document,
         process_pronom
           [report_format_types [text_element "FormatTypes" "Image (Vector)"]]
           "2024-09-18T12:46:55Z"
         = ([ info "number of reports: 0";
              info "number of formats processed for the signature file: 1" ],
            Ok document)
         /\ process_pronom
              [report_format_types [text_element "FormatTypes" "Text (Structured)"]]
              "2024-09-18T12:46:55Z"
            = ([ info "number of reports: 0";
                 info "number of formats processed for the signature file: 1" ],
               Ok document)
         /\ process_pronom [report_format_types []] "2024-09-18T12:46:55Z"
            = ([ info "number of reports: 0";
                 info "number of formats processed for the signature file: 1" ],
               Ok document))
  /\ (forall load serialize write filename now,
         load "fmt-49.xml" = inl (report_endianness [Element "Endianness" []]) ->
         process_pronom_file load serialize write ["fmt-49.xml"] filename now
         = ([], Crash (Raised AttributeError)))
  /\ (forall load serialize write filename now endianness l e,
         load "fmt-49.xml"
         = inl (report_endianness [text_element "Endianness" endianness]) ->
         process_pronom_file load serialize write ["fmt-49.xml"] filename now
         = (l, Crash e) ->
         exists x, e = Library x)
  /\ (forall load load' serialize write report_list doms doms' filename now,
         Forall2 (fun report dom => load report = inl dom) report_list doms ->
         Forall2 (fun report dom => load' report = inl dom) report_list doms' ->
         map blank_report doms = map blank_report doms' ->
         process_pronom_file load serialize write report_list filename now
         = process_pronom_file load' serialize write report_list filename now).
Proof.
  split; [|split; [|split; [|split; [|split; [|split]]]]].
  - intros now. reflexivity.
  - eexists. split; [|split]; vm_compute; reflexivity.
  - intros now. reflexivity.
  - eexists. split; [|split]; vm_compute; reflexivity.
  - intros load serialize write filename now Hload.
    rewrite (process_pronom_file_loaded load serialize write
               ["fmt-49.xml"] [report_endianness [Element "Endianness" []]])
      by (repeat constructor; exact Hload).
    reflexivity.
  - intros load serialize write filename now endianness l e Hload.
    rewrite (process_pronom_file_loaded load serialize write
               ["fmt-49.xml"]
               [report_endianness [text_element "Endianness" endianness]])
      by (repeat constructor; exact Hload).
    rewrite (process_pronom_collected
               [report_endianness [text_element "Endianness" endianness]]
               [report_endianness [text_element "Endianness" "Big-endian"]] now
               eq_refl).
    2: { rewrite <- collect_formats_blank.
         rewrite <- (collect_formats_blank
                       [report_endianness [text_element "Endianness" "Big-endian"]]).
         reflexivity. }
    assert (Hok : exists text,
               process_pronom
                 [report_endianness [text_element "Endianness" "Big-endian"]] now
               = ([ info "number of reports: 0";
                    info "number of formats processed for the signature file: 1" ],
                  Ok text)).
    { unfold process_pronom.
      replace (collect_formats
                 [report_endianness [text_element "Endianness" "Big-endian"]])
        with (@ret (list Format.t) formats_endianness) by (vm_compute; reflexivity).
      rewrite bind_ret. unfold logger_info, bind.
      rewrite (process_formats_and_save_text formats_endianness now)
        by (repeat constructor).
      eexists. reflexivity. }
    destruct Hok as [text ->]. unfold save_document.
    destruct (serialize text) as [p|].
    + destruct (write filename p); intros H; inversion H; eauto.
    + intros H; inversion H; eauto.
  - exact process_pronom_file_blank.
Qed.

(* ------------------------------------------------------------------ *)
(** ** How a run can end *)

(** X7. What the code never raises. [get_external], [get_identifiers] and
    [get_priorities] raise nothing but [AttributeError] (a label with no
    character data) and log nothing; [get_bytes] and [get_internal] raise
    nothing but [AttributeError] and [TypeError] (a missing
    [ByteSequenceValue]); the two builders of byte-sequence text raise
    nothing but [TypeError] and [ValueError] (bounds that are not read) and
    log nothing. So a run of [process_pronom] that ends with an exception
    raised by the code of the module, and not inside a call of the file
    system or of the XML library, ends with one of these three, never
    with [IndexError]. *)
Theorem pipeline_exceptions :
  (forall xs, raises_only (fun e => e = AttributeError) (get_external xs)
              /\ quiet (get_external xs))
  /\ (forall xs, raises_only (fun e => e = AttributeError) (get_identifiers xs)
                 /\ quiet (get_identifiers xs))
  /\ (forall xs, raises_only (fun e => e = AttributeError) (get_priorities xs)
                 /\ quiet (get_priorities xs))
  /\ (forall xs, raises_only (fun e => e = AttributeError \/ e = TypeError)
                   (get_bytes xs))
  /\ (forall xs, raises_only (fun e => e = AttributeError \/ e = TypeError)
                   (get_internal xs))
  /\ (forall items,
         raises_only (fun e => e = TypeError \/ e = ValueError)
           (create_one_to_many_byte_sequence items)
         /\ quiet (create_one_to_many_byte_sequence items))
  /\ (forall sigs,
         raises_only (fun e => e = TypeError \/ e = ValueError)
           (create_many_to_one_byte_sequence sigs)
         /\ quiet (create_many_to_one_byte_sequence sigs))
  /\ (forall load serialize write report_list filename now l e,
         process_pronom_file load serialize write report_list filename now
         = (l, Crash (Raised e)) ->
         e = AttributeError \/ e = TypeError \/ e = ValueError).
Proof.
  split; [exact get_external_raises|].
  split; [exact get_identifiers_raises|].
  split; [exact get_priorities_raises|].
  split; [exact get_bytes_raises|].
  split; [exact get_internal_raises|].
  split; [exact create_one_to_many_byte_sequence_raises|].
  split; [exact create_many_to_one_byte_sequence_raises|].
  intros load serialize write report_list filename now l e H.
  unfold process_pronom_file in H.
  destruct (process_pronom_loop load report_list []) as [l1 [formats | f]] eqn:E.
  - unfold process_formats_and_save_file, save_document in H.
    destruct (process_formats_and_save formats now) as [lp [text | e']] eqn:Ep.
    + destruct (serialize text) as [p|]; [|discriminate H].
      destruct (write filename p); discriminate H.
    + inversion H; subst.
      destruct (proj1 (process_formats_and_save_raises formats now) _ _ Ep);
        auto.
  - inversion H; subst.
    destruct (process_pronom_loop_Raised load report_list [] l e E); auto.
Qed.

(** X9. [process_formats_and_save] ends in one of four ways. It raises the
    [TypeError] or [ValueError] of a byte sequence with a BOF or EOF anchor
    whose bounds cannot be read, before any text is built and with nothing
    logged. Or every byte sequence can be encoded and the text built is the
    in-order rendering of the formats; then the parser refuses that text
    and the run ends with [ExpatError], nothing logged and no file opened;
    or "outputting to" is logged, once, and either the file system raises
    or the file holds what the XML library printed for that text. *)
Theorem assembly_outcomes (serialize : string -> option string)
    (write : string -> string -> option library_exn)
    (formats : list Format.t) (filename now : string) :
  (exists e item,
      In item (all_byte_sequences formats)
      /\ encoded_sequence item = raise e
      /\ anchored item = true
      /\ (e = TypeError \/ e = ValueError)
      /\ process_formats_and_save_file serialize write formats filename now
         = ([], Crash (Raised e)))
  \/ (Forall encodes (all_byte_sequences formats)
      /\ serialize (document_text formats now) = None
      /\ process_formats_and_save_file serialize write formats filename now
         = ([], Crash (Library ExpatError)))
  \/ (Forall encodes (all_byte_sequences formats)
      /\ exists prettier_xml,
           serialize (document_text formats now) = Some prettier_xml
           /\ ((exists e,
                   write filename prettier_xml = Some e
                   /\ process_formats_and_save_file serialize write formats
                        filename now
                      = ([info ("outputting to: " +++ filename)],
                         Crash (Library e)))
               \/ (write filename prettier_xml = None
                   /\ process_formats_and_save_file serialize write formats
                        filename now
                      = ([info ("outputting to: " +++ filename)],
                         Done (filename, prettier_xml))))).
Proof.
  unfold process_formats_and_save_file.
  destruct (process_formats_and_save_outcome formats now)
    as [[Hall ->] | (e & item & Hin & He & Ha & Hc & ->)].
  - right. unfold save_document, ret.
    destruct (serialize (document_text formats now)) as [p|] eqn:Es.
    + right. split; [exact Hall|]. exists p. split; [reflexivity|].
      destruct (write filename p) as [e|] eqn:Ew.
      * left. exists e. split; reflexivity.
      * right. split; reflexivity.
    + left. split; [exact Hall|]. split; reflexivity.
  - left. exists e, item. repeat (split; [assumption|]). reflexivity.
Qed.

(** X15. The count that [process_pronom] logs as "number of reports" is
    the index of the last report, one less than the number of reports (and
    0 for an empty list); the count of formats is exact. On reports that
    open and parse and whose extraction returns, the log of the run starts
    with the log of the extraction and these two records; what follows is
    nothing, when assembly or the parser raises, or the one record
    "outputting to". *)
Theorem logged_report_count_is_last_index
    (load : string -> node + library_exn) (serialize : string -> option string)
    (write : string -> string -> option library_exn)
    (report_list : list string) (doms : list node) (filename now : string)
    (l : list LogRecord) (formats : list Format.t) :
  Forall2 (fun report dom => load report = inl dom) report_list doms ->
  collect_formats doms = (l, Ok formats) ->
  exists later,
    fst (process_pronom_file load serialize write report_list filename now)
    = l ++ [ info ("number of reports: "
                   +++ Py.str_of_int (Z.of_nat (List.length report_list - 1)));
             info ("number of formats processed for the signature file: "
                   +++ Py.str_of_int (Z.of_nat (List.length formats))) ]
        ++ later
    /\ (later = [] \/ later = [info ("outputting to: " +++ filename)]).
Proof.
  intros Hload H. unfold process_pronom_file.
  rewrite (process_pronom_loop_loaded load _ _ Hload).
  unfold collect_formats in H. rewrite H. unfold outcome_of.
  rewrite Nat.sub_1_r.
  unfold process_formats_and_save_file, save_document.
  pose proof (proj2 (process_formats_and_save_raises formats now)) as Hq.
  unfold quiet in Hq.
  destruct (process_formats_and_save formats now) as [lp [text | e]];
    simpl in Hq; subst lp.
  - destruct (serialize text) as [p|].
    + exists [info ("outputting to: " +++ filename)].
      destruct (write filename p); split; auto.
    + exists []. split; auto.
  - exists []. split; auto.
Qed.

Lemma dev_ext_loaded :
  Forall2 (fun report dom =>
             load_from [("dev.xml", report_dev); ("ext.xml", report_ext)] report
             = inl dom)
    ["dev.xml"; "ext.xml"] [report_dev; report_ext].
Proof. repeat constructor. Qed.

Lemma logged_report_count_is_last_index_witness :
  exists later,
    fst (process_pronom_file
           (load_from [("dev.xml", report_dev); ("ext.xml", report_ext)])
           serialize_plain write_any ["dev.xml"; "ext.xml"] "out.xml"
           "2024-09-18T12:46:55Z")
    = [ info "number of reports: 1";
        info "number of formats processed for the signature file: 2" ] ++ later
    /\ (later = [] \/ later = [info "outputting to: out.xml"]).
Proof.
  exact (logged_report_count_is_last_index
           (load_from [("dev.xml", report_dev); ("ext.xml", report_ext)])
           serialize_plain write_any ["dev.xml"; "ext.xml"]
           [report_dev; report_ext] "out.xml" "2024-09-18T12:46:55Z"
           [] formats_dev_ext
           dev_ext_loaded eq_refl).
Defined.

Example run_dev_ext :
  process_pronom_file
    (load_from [("dev.xml", report_dev); ("ext.xml", report_ext)])
    serialize_plain write_any ["dev.xml"; "ext.xml"] "out.xml"
    "2024-09-18T12:46:55Z"
  = ([ info "number of reports: 1";
       info "number of formats processed for the signature file: 2";
       info "outputting to: out.xml" ],
     Done ("out.xml", document_dev_ext)).
Proof. vm_compute. reflexivity. Qed.

Example run_missing_report :
  process_pronom_file
    (load_from [("dev.xml", report_dev)])
    serialize_plain write_any ["dev.xml"; "ext.xml"] "out.xml"
    "2024-09-18T12:46:55Z"
  = ([], Crash (Library OSError)).
Proof. vm_compute. reflexivity. Qed.
